(** * The profile scraper and its request handler

    A shallow embedding of the Go service under [sgw-server], each file in
    its latest snapshot:
    - [pkg/scraper/scraper.go]: the browser-driven scraper ([NewScraper],
      [login] and the extraction steps),
    - [pkg/utils/utils.go]: [ValidEmail], [WriteResponse], [GetUsedParams],
      [WithCORS],
    - [server/handler.go]: the [Home] handler that orchestrates one request,
    - [server/router.go]: the route of [Home] and its method check,
    - [pkg/auth-middleware/middleware.go]: [JWTMiddleware].
    What earlier snapshots did differently is kept apart, in [Previous] and
    [Draft].

    The browser (chromedp), the standard input, the language-model call and
    the Go runtime's map iteration order are external: they are an interface
    ([Browser]) over an abstract world, and every theorem holds for all of
    its implementations.  The scripts that the scraper injects into the page
    are pure functions of the nodes they query. *)

From stdpp Require Import base decidable option list strings gmap.
From Stdlib Require Import Ascii String Permutation.

Local Open Scope string_scope.

(** ** Go and JavaScript strings *)

(** [strings.Contains(s, sub)] in Go and [s.includes(sub)] in JavaScript. *)
Fixpoint includes (s sub : string) : bool :=
  String.prefix sub s ||
  match s with
  | EmptyString => false
  | String _ s' => includes s' sub
  end.

(** White space as [String.prototype.trim] strips it, over the ASCII range:
    tab, line feed, vertical tab, form feed, carriage return and space. *)
Definition isWhiteSpace (c : ascii) : bool :=
  let n := nat_of_ascii c in
  (((9 <=? n) && (n <=? 13)) || (n =? 32))%nat.

Fixpoint trimStart (s : string) : string :=
  match s with
  | EmptyString => EmptyString
  | String c s' => if isWhiteSpace c then trimStart s' else s
  end.

Fixpoint trimEnd (s : string) : string :=
  match s with
  | EmptyString => EmptyString
  | String c s' =>
      match trimEnd s' with
      | EmptyString => if isWhiteSpace c then EmptyString else String c EmptyString
      | t => String c t
      end
  end.

Definition trim (s : string) : string := trimEnd (trimStart s).

(** [a || b] on two JavaScript strings: the empty string is falsy. *)
Definition jsOr (a b : string) : string :=
  if decide (a = "") then b else a.

(** [el?.textContent?.trim()] followed by [|| ...]: a missing element gives
    [undefined], which is falsy like the empty string. *)
Definition textContentTrim (el : option string) : string :=
  match el with
  | Some text => trim text
  | None => ""
  end.

(** [.filter(item => item !== null)] on an array of objects and nulls. *)
Definition filterNotNull {A} (l : list (option A)) : list A := omap id l.

(** ** The data model of [scraper.go] *)

Record Experience := mkExperience {
  Company : string;
  ExpDuration : string;
  Title : string
}.

Record Post := mkPost { Content : string }.

Record Education := mkEducation {
  Institute : string;
  Major : string;
  EduDuration : string
}.

Record ProfileData := mkProfile {
  Name : string;
  Location : string;
  About : string;
  ExperienceList : list Experience;
  EducationList : list Education;
  Posts : list Post
}.

(** [&Profile{}] *)
Definition emptyProfile : ProfileData := mkProfile "" "" "" [] [] [].

(** ** The page nodes the injected scripts query *)

(** [.feed-shared-update-v2__description-wrapper] of a feed item, with the
    text of the first node under each of the two selectors the script reads
    ([None] when [querySelector] finds nothing). *)
Record Wrapper := mkWrapper {
  showMoreText : option string; (* .feed-shared-inline-show-more-text *)
  breakWordsSpan : option string (* .break-words span[dir="ltr"] *)
}.

(** One [.feed-shared-update-v2] node. *)
Record FeedItem := mkFeedItem {
  headerText : option string; (* .update-components-header__text-view *)
  descriptionWrapper : option Wrapper
}.

(** [div[data-view-name="profile-component-entity"]] of a paged list item, as
    the experience script reads it. *)
Record PositionNode := mkPositionNode {
  titleAriaHidden : option string;
  titleVisuallyHidden : option string;
  companySpan : option string;
  positionDurationSpan : option string
}.

(** The same node, as the education script reads it. *)
Record SchoolNode := mkSchoolNode {
  instituteSpan : option string;
  majorSpan : option string;
  schoolDurationSpan : option string
}.

(** ** The injected scripts *)

(** The arrow function [post => {...}] of [GetRecentPosts]. *)
Definition postOfItem (post : FeedItem) : option Post :=
  let header := headerText post in
  if match header with
     | Some textContent => includes textContent "reposted this"
     | None => false
     end
  then None
  else
    match descriptionWrapper post with
    | None => None
    | Some wrapper =>
        let content :=
          jsOr (textContentTrim (showMoreText wrapper))
            (jsOr (textContentTrim (breakWordsSpan wrapper)) "") in
        if decide (content = "") then None else Some (mkPost content)
    end.

(** [Array.from(querySelectorAll(...)).map(...).filter(item => item !== null).slice(0, 5)] *)
Definition postsScript (items : list FeedItem) : list Post :=
  take 5 (filterNotNull (map postOfItem items)).

(** The arrow function [el => {...}] of [GetExperiences]; [el] is a
    [.pvs-list__paged-list-item], given by its entity node if it has one. *)
Definition experienceOfItem (el : option PositionNode) : option Experience :=
  match el with
  | None => None
  | Some position =>
      let title :=
        jsOr (textContentTrim (titleAriaHidden position))
          (jsOr (textContentTrim (titleVisuallyHidden position)) "") in
      let company := jsOr (textContentTrim (companySpan position)) "" in
      let duration := jsOr (textContentTrim (positionDurationSpan position)) "" in
      Some {| Title := title; Company := company; ExpDuration := duration |}
  end.

Definition experienceScript (items : list (option PositionNode)) : list Experience :=
  filterNotNull (map experienceOfItem items).

(** The arrow function [el => {...}] of [GetEducation]. *)
Definition educationOfItem (el : option SchoolNode) : option Education :=
  match el with
  | None => None
  | Some position =>
      let institute := jsOr (textContentTrim (instituteSpan position)) "" in
      let major := jsOr (textContentTrim (majorSpan position)) "" in
      let duration := jsOr (textContentTrim (schoolDurationSpan position)) "" in
      Some {| Institute := institute; Major := major; EduDuration := duration |}
  end.

Definition educationScript (items : list (option SchoolNode)) : list Education :=
  filterNotNull (map educationOfItem items).

(** The script of [GetAbout], over the text of the spans it selects: the
    empty string when there is none, else the first trimmed text that is not
    empty, which is [undefined] ([None]) when all are empty. *)
Definition aboutScript (aboutSpans : list string) : option string :=
  if (List.length aboutSpans =? 0)%nat then Some ""
  else head (List.filter (fun text => (0 <? String.length text)%nat) (map trim aboutSpans)).

(** ** Requests, responses and the observable events of a run *)

Record HomeReq := mkHomeReq {
  Email : string;
  Password : string;
  LinkedinUrl : string
}.

Record HomeRes := mkHomeRes {
  Msg : string;
  ParamsUsed : list string;
  RecentPosts : string
}.

(** What [WriteResponse] encodes: a plain message or a [HomeRes]. *)
Inductive Payload :=
| TextBody (msg : string)
| HomeBody (res : HomeRes)
| MsgBody (msg : string). (* the earlier [HomeRes], which has [Msg] only *)

(** Go's [error]: [None] is [nil], [Some msg] an error whose [Error()] is
    [msg]. *)
Definition error := option string.

(** A browser context (with its timeout) and an allocator, by identity. *)
Definition Ctx := nat.
Definition Alloc := nat.

(** The chromedp tasks the scraper runs.  Selectors are opaque labels; the
    quotation marks inside them are left out. *)
Inductive Script := PostsJS | ExperienceJS | EducationJS | AboutJS.

Inductive Action :=
| Navigate (url : string)
| Sleep (seconds : nat)
| WaitVisible (sel : string)
| SendKeys (sel text : string)
| Click (sel : string)
| GetLocation
| Text (sel : string)
| Evaluate (js : Script).

(** What [fmt.Println] and [fmt.Printf] are given. *)
Inductive Printed :=
| PStr (s : string)
| PLen (n : nat)
| PStatus (code : nat)
| PProfile (p : ProfileData).

Inductive Event :=
| EvPrint (x : Printed)                      (* fmt.Println, fmt.Printf, fmt.Print *)
| EvLog (line : string)                      (* log.Printf *)
| EvNewAllocator (a : Alloc)                 (* chromedp.NewExecAllocator *)
| EvNewContext (a : Alloc) (c : Ctx)         (* chromedp.NewContext and context.WithTimeout *)
| EvCancel (c : Ctx)                         (* the cancel function of a context *)
| EvCancelAllocator (a : Alloc)              (* the cancel function of an allocator *)
| EvRun (c : Ctx) (a : Action)               (* one task of a chromedp.Run *)
| EvTimeSleep (seconds : nat)                (* time.Sleep *)
| EvReadLine                                 (* reader.ReadString on os.Stdin *)
| EvGo (c : Ctx)                             (* go scraper.Close(), cancelling c *)
| EvChatCompletion (userData : ProfileData)  (* the request of openai.GetMessage *)
| EvWriteResponse (msg : Payload) (httpStatus : nat).

(** What the HTTP call of [openai.GetMessage] comes back with: a transport
    error, or a status code with the decoding of the body (an error, or the
    message contents of the choices). *)
Inductive HttpReply :=
| TransportError (e : string)
| HttpStatus (code : nat) (decoded : string + list string).

(** ** What is outside the program *)

(** The browser behind chromedp, the terminal, the language-model service and
    the runtime's map iteration, over a world [W].  A task answers with an
    error message or a value. *)
Class Browser (W : Type) := {
  newExecAllocator : W -> Alloc * W;
  newContext : Alloc -> W -> Ctx * W;
  cancelContext : Ctx -> W -> W;
  cancelAllocator : Alloc -> W -> W;
  (** [Navigate], [Sleep], [WaitVisible], [SendKeys] and [Click] *)
  runTask : Ctx -> Action -> W -> error * W;
  runLocation : Ctx -> W -> (string + string) * W;
  runText : Ctx -> string -> W -> (string + string) * W;
  (** the nodes under the selector of each script, when it is evaluated *)
  queryFeed : Ctx -> W -> (string + list FeedItem) * W;
  queryPositions : Ctx -> W -> (string + list (option PositionNode)) * W;
  querySchools : Ctx -> W -> (string + list (option SchoolNode)) * W;
  queryAboutSpans : Ctx -> W -> (string + list string) * W;
  readLine : W -> W;
  chatCompletion : ProfileData -> string -> W -> HttpReply * W;
  (** the order in which a [range] over a map visits the given entries *)
  mapRange : forall {V : Type}, list (string * V) -> W -> list (string * V) * W;
  mapRange_perm : forall {V : Type} (kvs : list (string * V)) w,
    Permutation kvs (fst (mapRange kvs w))
}.

(** Functions of Go's standard library that the code calls. *)
Class GoLib := {
  pathJoin : string -> string -> string;          (* path.Join *)
  mailParseAddress : string -> error;             (* mail.ParseAddress, its error *)
  jsonDecodeHomeReq : string -> string + HomeReq; (* json.NewDecoder(body).Decode *)
  jsonMarshalPosts : list Post -> string + string (* json.Marshal *)
}.

(** chromedp's error for a script whose value is [undefined]. *)
Definition ErrJSUndefined : string := "encountered an undefined value".

(** ** Runs: a world, a trace and a possible panic *)

Inductive Outcome (A : Type) :=
| Ret (a : A)
| Panic. (* a run-time panic, here a nil pointer dereference or an index out of range *)
Arguments Ret {A} a.
Arguments Panic {A}.

Record Scraper := mkScraper {
  ctx : Ctx;
  cancel : Ctx; (* the context that the stored cancel function cancels *)
  linkedInURL : string;
  email : string;
  password : string;
  Profile : ProfileData
}.

Record Server := mkServer { OpenAIApiKey : string }.

Definition setContext (c : Ctx) (s : Scraper) : Scraper :=
  mkScraper c c (linkedInURL s) (email s) (password s) (Profile s).

Definition setProfile (p : ProfileData) (s : Scraper) : Scraper :=
  mkScraper (ctx s) (cancel s) (linkedInURL s) (email s) (password s) p.

Section Program.
Context {W : Type} `{!Browser W} `{!GoLib}.

(** A computation takes the world to an outcome, the world after it and the
    events it produced, in order. *)
Definition M (A : Type) : Type := W -> Outcome A * W * list Event.

#[global] Instance M_ret : MRet M := fun A a w => (Ret a, w, []).

#[global] Instance M_bind : MBind M := fun A B f m w =>
  match m w with
  | (Ret a, w1, t1) =>
      match f a w1 with
      | (o, w2, t2) => (o, w2, (t1 ++ t2)%list)
      end
  | (Panic, w1, t1) => (Panic, w1, t1)
  end.

Definition panic {A} : M A := fun w => (Panic, w, []).

Definition emit (e : Event) : M unit := fun w => (Ret tt, w, [e]).

(** Dereferencing a pointer that may be nil. *)
Definition deref {A} (p : option A) : M A :=
  match p with
  | Some a => mret a
  | None => panic
  end.

Definition Println (s : string) : M unit := emit (EvPrint (PStr s)).
Definition logPrintf (line : string) : M unit := emit (EvLog line).
Definition timeSleep (seconds : nat) : M unit := emit (EvTimeSleep seconds).

Definition NewExecAllocator : M Alloc := fun w =>
  let '(a, w1) := newExecAllocator w in (Ret a, w1, [EvNewAllocator a]).

(** [chromedp.NewContext(alloc)] followed by [context.WithTimeout]. *)
Definition NewContext (a : Alloc) : M Ctx := fun w =>
  let '(c, w1) := newContext a w in (Ret c, w1, [EvNewContext a c]).

Definition Cancel (c : Ctx) : M unit := fun w =>
  (Ret tt, cancelContext c w, [EvCancel c]).

Definition CancelAllocator (a : Alloc) : M unit := fun w =>
  (Ret tt, cancelAllocator a w, [EvCancelAllocator a]).

Definition ReadString : M unit := fun w => (Ret tt, readLine w, [EvReadLine]).

(** *** The tasks of one [chromedp.Run]

    [chromedp.Run(ctx, t1, t2, ...)] runs its tasks in order against [ctx]
    and stops at the first error. *)
Definition Tasks (A : Type) : Type := Ctx -> M (string + A).

#[global] Instance Tasks_ret : MRet Tasks := fun A a c => mret (inr a).

#[global] Instance Tasks_bind : MBind Tasks := fun A B f t c =>
  r ← t c;
  match r with
  | inl err => mret (inl err)
  | inr a => f a c
  end.

Definition Run {A} (c : Ctx) (t : Tasks A) : M (string + A) := t c.

Definition task (a : Action) : Tasks unit := fun c w =>
  let '(e, w1) := runTask c a w in
  (Ret (match e with Some err => inl err | None => inr tt end), w1, [EvRun c a]).

Definition chromedpLocation : Tasks string := fun c w =>
  let '(r, w1) := runLocation c w in (Ret r, w1, [EvRun c GetLocation]).

Definition TextOf (sel : string) : Tasks string := fun c w =>
  let '(r, w1) := runText c sel w in (Ret r, w1, [EvRun c (Text sel)]).

Definition evaluated {A B} (f : A -> B) (r : string + A) : string + B :=
  match r with
  | inl err => inl err
  | inr a => inr (f a)
  end.

Definition EvaluatePosts : Tasks (list Post) := fun c w =>
  let '(r, w1) := queryFeed c w in
  (Ret (evaluated postsScript r), w1, [EvRun c (Evaluate PostsJS)]).

Definition EvaluateExperience : Tasks (list Experience) := fun c w =>
  let '(r, w1) := queryPositions c w in
  (Ret (evaluated experienceScript r), w1, [EvRun c (Evaluate ExperienceJS)]).

Definition EvaluateEducation : Tasks (list Education) := fun c w =>
  let '(r, w1) := querySchools c w in
  (Ret (evaluated educationScript r), w1, [EvRun c (Evaluate EducationJS)]).

Definition EvaluateAbout : Tasks string := fun c w =>
  let '(r, w1) := queryAboutSpans c w in
  (Ret (match r with
        | inl err => inl err
        | inr spans =>
            match aboutScript spans with
            | Some about => inr about
            | None => inl ErrJSUndefined
            end
        end), w1, [EvRun c (Evaluate AboutJS)]).

(** *** [login] *)

Definition challengePath : string := "checkpoint/challenge".

(** The tasks of the first [chromedp.Run] of [login]. *)
Definition submitLoginForm (s : Scraper) : Tasks unit :=
  task (Navigate "https://www.linkedin.com/login");;
  task (WaitVisible "input[name=session_key]");;
  task (SendKeys "input[name=session_key]" (email s));;
  task (SendKeys "input[name=session_password]" (password s));;
  task (Click "button[type=submit]").

Definition login (s : Scraper) (headless : bool) : M error :=
  Println "Logging user in...";;
  r ← Run (ctx s) (submitLoginForm s);
  match r with
  | inl err => mret (Some err)
  | inr _ =>
      timeSleep 1;;
      r ← Run (ctx s) chromedpLocation;
      match r with
      | inl err => mret (Some err)
      | inr currentURL =>
          (* the body of [if strings.Contains(currentURL, ...)]: an error
             it returns, or [None] when control leaves the block *)
          returned ←
            (if includes currentURL challengePath then
               if headless then
                 mret (Some "verification required, please retry with headless=false")
               else
                 Println "\nSecurity verification required!";;
                 Println "Please complete the verification puzzle in the browser window";;
                 Println "\nPress Enter once you've completed the verification...";;
                 ReadString;;
                 r ← Run (ctx s) chromedpLocation;
                 match r with
                 | inl err => mret (Some err)
                 | inr currentURL =>
                     if includes currentURL challengePath then
                       mret (Some "verification was not completed successfully")
                     else mret None
                 end
             else mret None);
          match returned with
          | Some err => mret (Some err)
          | None => Println "Logged in successfully";; mret None
          end
      end
  end.

(** *** [NewScraper] *)

Definition NewScraper (email password linkedInURL : string) : M (option Scraper * error) :=
  allocCtx ← NewExecAllocator;
  ctx ← NewContext allocCtx;
  let s := mkScraper ctx ctx linkedInURL email password emptyProfile in
  err ← login s false;
  match err with
  | None => mret (Some s, None)
  | Some e =>
      if includes e "verification" then
        Cancel (cancel s);;
        visibleAllocCtx ← NewExecAllocator;
        (* defer visibleCancel() runs before each return below *)
        ctx ← NewContext visibleAllocCtx;
        let s := setContext ctx s in
        err ← login s false;
        match err with
        | Some e =>
            Cancel ctx;;
            CancelAllocator visibleAllocCtx;;
            mret (None, Some ("failed to login even with verification: " +:+ e))
        | None =>
            Cancel (cancel s);;
            ctx ← NewContext allocCtx;
            let s := setContext ctx s in
            CancelAllocator visibleAllocCtx;;
            mret (Some s, None)
        end
      else mret (None, Some ("failed to login: " +:+ e))
  end.

(** *** The extraction steps

    Each is a method on [*Scraper]; the receiver may be nil, and the method
    panics when it first reads a field of it.  A step returns its error and
    the scraper as it leaves it. *)

Definition setPosts (posts : list Post) (p : ProfileData) : ProfileData :=
  mkProfile (Name p) (Location p) (About p) (ExperienceList p) (EducationList p) posts.

Definition setExperience (l : list Experience) (p : ProfileData) : ProfileData :=
  mkProfile (Name p) (Location p) (About p) l (EducationList p) (Posts p).

Definition setEducation (l : list Education) (p : ProfileData) : ProfileData :=
  mkProfile (Name p) (Location p) (About p) (ExperienceList p) l (Posts p).

Definition setNameAndLocation (name location : string) (p : ProfileData) : ProfileData :=
  mkProfile name location (About p) (ExperienceList p) (EducationList p) (Posts p).

Definition setAbout (about : string) (p : ProfileData) : ProfileData :=
  mkProfile (Name p) (Location p) about (ExperienceList p) (EducationList p) (Posts p).

(** The address of the feed: [url] in [GetRecentPosts]. *)
Definition feedAddress (s : Scraper) : string :=
  pathJoin (linkedInURL s) "recent-activity/all/".

Definition GetRecentPosts (receiver : option Scraper) : M (Scraper * error) :=
  Println "Getting latest posts";;
  s ← deref receiver;
  let url := feedAddress s in
  r ← Run (ctx s)
        (task (Navigate url);;
         task (Sleep 2);;
         EvaluatePosts);
  match r with
  | inl err => mret (s, Some ("failed to extract posts: " +:+ err))
  | inr posts => mret (setProfile (setPosts posts (Profile s)) s, None)
  end.

Definition GetExperiences (receiver : option Scraper) : M (Scraper * error) :=
  Println "Getting experience";;
  s ← deref receiver;
  let url := pathJoin (linkedInURL s) "details/experience" in
  r ← Run (ctx s)
        (task (Navigate url);;
         task (Sleep 2);;
         task (WaitVisible "main");;
         task (WaitVisible "div[data-view-name=profile-component-entity]"));
  match r with
  | inl err => mret (s, Some ("navigation failed: " +:+ err))
  | inr _ =>
      r ← Run (ctx s) EvaluateExperience;
      match r with
      | inl err => mret (s, Some ("failed to extract experiences: " +:+ err))
      | inr experienceElements =>
          mret (setProfile (setExperience experienceElements (Profile s)) s, None)
      end
  end.

Definition GetEducation (receiver : option Scraper) : M (Scraper * error) :=
  Println "Getting education";;
  s ← deref receiver;
  let url := pathJoin (linkedInURL s) "details/education" in
  r ← Run (ctx s)
        (task (Navigate url);;
         task (Sleep 2);;
         task (WaitVisible "main");;
         task (WaitVisible "div[data-view-name=profile-component-entity]"));
  match r with
  | inl err => mret (s, Some ("navigation failed: " +:+ err))
  | inr _ =>
      r ← Run (ctx s) EvaluateEducation;
      match r with
      | inl err => mret (s, Some ("failed to extract education: " +:+ err))
      | inr educationElements =>
          mret (setProfile (setEducation educationElements (Profile s)) s, None)
      end
  end.

Definition GetNameAndLocation (receiver : option Scraper) : M (Scraper * error) :=
  Println "Getting name and location";;
  s ← deref receiver;
  r ← Run (ctx s)
        (task (Navigate (linkedInURL s));;
         task (Sleep 2);;
         task (WaitVisible ".mt2.relative");;
         name ← TextOf "h1.inline.t-24.v-align-middle.break-words";
         location ← TextOf ".text-body-small.inline.t-black--light.break-words";
         mret (name, location));
  match r with
  | inl err => mret (s, Some ("failed to get name and location: " +:+ err))
  | inr (name, location) =>
      mret (setProfile (setNameAndLocation name location (Profile s)) s, None)
  end.

Definition GetAbout (receiver : option Scraper) : M (Scraper * error) :=
  Println "Getting about";;
  s ← deref receiver;
  r ← Run (ctx s)
        (task (WaitVisible "div[class*=display-flex ph5]");;
         EvaluateAbout);
  match r with
  | inl err => mret (s, Some ("failed to get about: " +:+ err))
  | inr about => mret (setProfile (setAbout about (Profile s)) s, None)
  end.

Definition Close (s : Scraper) : M unit := Cancel (cancel s).

(** *** [openai.GetMessage]

    [json.Marshal] of the profile and of the request, and [http.NewRequest]
    on the constant address, do not fail; the call and the decoding of its
    answer are the world's. *)
Definition GetMessage (userData : ProfileData) (apiKey : string) : M (string * error) :=
  reply ← (fun w => let '(r, w1) := chatCompletion userData apiKey w in
                    (Ret r, w1, [EvChatCompletion userData]));
  match reply with
  | TransportError e =>
      Println ("Error making request: " +:+ e);;
      mret ("", Some e)
  | HttpStatus code decoded =>
      if (code =? 200)%nat then
        match decoded with
        | inl e =>
            Println ("Error decoding response: " +:+ e);;
            mret ("", Some e)
        | inr choices =>
            (* response.Choices[0].Message.Content *)
            match choices with
            | [] => panic
            | content :: _ => mret (content, None)
            end
        end
      else
        emit (EvPrint (PStatus code));;
        mret ("", None)
  end.

(** *** [utils] *)

Definition DecodeReqBody (body : string) : string + HomeReq := jsonDecodeHomeReq body.

Definition ValidEmail (email : string) : bool :=
  match mailParseAddress email with
  | None => true
  | Some _ => false
  end.

Definition WriteResponse (msg : Payload) (httpStatus : nat) : M unit :=
  emit (EvWriteResponse msg httpStatus).

(** The map literal [checks] of [GetUsedParams]; the closures read the
    profile they capture. *)
Definition checks (profile : ProfileData) : gmap string (unit -> bool) :=
  list_to_map
    [("Posts", fun _ => (0 <? List.length (Posts profile))%nat);
     ("Experience", fun _ => (0 <? List.length (ExperienceList profile))%nat);
     ("Education", fun _ => (0 <? List.length (EducationList profile))%nat);
     ("Location", fun _ => negb (String.eqb (Location profile) ""));
     ("Name", fun _ => negb (String.eqb (Name profile) ""))].

(** The body of [for param, check := range checks], over the entries in the
    order the runtime visits them. *)
Definition usedParamsLoop (visited : list (string * (unit -> bool))) : list string :=
  fold_left
    (fun (paramsUsed : list string) (entry : string * (unit -> bool)) =>
       let '(param, check) := entry in
       if check tt then (paramsUsed ++ [param])%list else paramsUsed)
    visited [].

Definition GetUsedParams (profile : ProfileData) : M (list string) :=
  visited ← (fun w => let '(kvs, w1) := mapRange (map_to_list (checks profile)) w in
                      (Ret kvs, w1, []));
  mret (usedParamsLoop visited).

(** *** The handler *)

Definition logIfError (prefix : string) (err : error) : M unit :=
  match err with
  | Some e => logPrintf (prefix +:+ e)
  | None => mret tt
  end.

Definition serverErrorText : string :=
  "server encountered an error, please try again later".

(** The body of [if len(scraper.Profile.Posts) <= 2 { ... }] in [Home]. *)
Definition fullExtraction (s : Scraper) : M Scraper :=
  '(s, err) ← GetExperiences (Some s);
  logIfError "error while getting experiences: " err;;
  '(s, err) ← GetEducation (Some s);
  match err with
  | Some e =>
      logPrintf ("error while getting education: " +:+ e);;
      WriteResponse (TextBody serverErrorText) 500;;
      mret s
  | None => mret s
  end.

(** [Home] from [go scraper.Close()] to its end.  The goroutine only cancels
    the context, which nothing after it uses; it is run where it is spawned. *)
Definition respond (srv : Server) (s : Scraper) : M unit :=
  emit (EvGo (cancel s));;
  Close s;;
  emit (EvPrint (PProfile (Profile s)));;
  '(msg, err) ← GetMessage (Profile s) (OpenAIApiKey srv);
  match err with
  | Some _ => WriteResponse (TextBody serverErrorText) 500
  | None =>
      paramsUsed ← GetUsedParams (Profile s);
      match jsonMarshalPosts (Posts (Profile s)) with
      | inl _ => WriteResponse (TextBody serverErrorText) 500
      | inr jsonPosts =>
          WriteResponse (HomeBody (mkHomeRes msg paramsUsed jsonPosts)) 200
      end
  end.

Definition Home (srv : Server) (body : string) : M unit :=
  match DecodeReqBody body with
  | inl _ => WriteResponse (TextBody "Encountered an error. Please try again") 500
  | inr d =>
      if negb (ValidEmail (Email d)) then
        WriteResponse (TextBody "invalid email") 400
      else
        '(scraper, err) ← NewScraper (Email d) (Password d) (LinkedinUrl d);
        logIfError "error while getting posts: " err;;
        '(s, err) ← GetNameAndLocation scraper;
        logIfError "error while getting name && location: " err;;
        '(s, err) ← GetRecentPosts (Some s);
        logIfError "error while getting posts: " err;;
        emit (EvPrint (PLen (List.length (Posts (Profile s)))));;
        (* If posts are less than 2, get user information *)
        s ← (if (List.length (Posts (Profile s)) <=? 2)%nat
             then fullExtraction s
             else mret s);
        respond srv s
  end.

End Program.

(** ** Earlier snapshots of the same files

    [Previous]: the posts script of the scraper when a post still had a
    title, and the handler of that time, which ran the identity step behind
    the post-count gate.  The handler is given over the steps above, whose
    calls it shares. *)
Module Previous.

Record Post := mkPost { Title : string; Content : string }.

Definition postOfItem (post : FeedItem) : option Post :=
  let header := headerText post in
  if match header with
     | Some textContent => includes textContent "reposted this"
     | None => false
     end
  then None
  else
    match descriptionWrapper post with
    | None => None
    | Some wrapper =>
        let title := jsOr (textContentTrim (breakWordsSpan wrapper)) "" in
        let content := jsOr (textContentTrim (showMoreText wrapper)) "" in
        if String.eqb title "" && String.eqb content "" then None
        else Some {| Title := title; Content := content |}
    end.

Definition postsScript (items : list FeedItem) : list Post :=
  take 5 (filterNotNull (map postOfItem items)).

Section Handler.
Context {W : Type} `{!Browser W} `{!GoLib}.

(** The body of the [if] of the earlier [Home]. *)
Definition fullExtraction (s : Scraper) : M Scraper :=
  '(s, err) ← GetNameAndLocation (Some s);
  logIfError "error while getting name && location: " err;;
  '(s, err) ← GetExperiences (Some s);
  logIfError "error while getting experiences: " err;;
  '(s, err) ← GetEducation (Some s);
  match err with
  | Some e =>
      logPrintf ("error while getting education: " +:+ e);;
      WriteResponse (TextBody serverErrorText) 500;;
      mret s
  | None => mret s
  end.

Definition Home (srv : Server) (body : string) : M unit :=
  match DecodeReqBody body with
  | inl _ => WriteResponse (TextBody "Encountered an error. Please try again") 500
  | inr d =>
      if negb (ValidEmail (Email d)) then
        WriteResponse (TextBody "invalid email") 400
      else
        '(scraper, err) ← NewScraper (Email d) (Password d) (LinkedinUrl d);
        logIfError "error while getting posts: " err;;
        '(s, err) ← GetRecentPosts scraper;
        logIfError "error while getting posts: " err;;
        emit (EvPrint (PLen (List.length (Posts (Profile s)))));;
        s ← (if (List.length (Posts (Profile s)) <=? 2)%nat
             then fullExtraction s
             else mret s);
        emit (EvGo (cancel s));;
        Close s;;
        emit (EvPrint (PProfile (Profile s)));;
        WriteResponse (MsgBody "Hello") 200
  end.

End Handler.
End Previous.

(** [Draft]: the experience step of the first snapshot of the scraper, which
    evaluates the same script and returns without storing its value.
    [drawn] is the value of [rand.Intn(2)]. *)
Module Draft.
Section Steps.
Context {W : Type} `{!Browser W} `{!GoLib}.

Definition GetExperiences (drawn : nat) (receiver : option Scraper) : M (Scraper * error) :=
  s ← deref receiver;
  let url := pathJoin (linkedInURL s) "details/experience" in
  r ← Run (ctx s)
        (task (Navigate url);;
         task (WaitVisible "main");;
         task (Sleep (1 + drawn));;
         task (WaitVisible "div[data-view-name=profile-component-entity]"));
  match r with
  | inl err => mret (s, Some ("navigation failed: " +:+ err))
  | inr _ =>
      r ← Run (ctx s) EvaluateExperience;
      match r with
      | inl err => mret (s, Some ("failed to extract experiences: " +:+ err))
      | inr experienceElements => mret (s, None)
      end
  end.

End Steps.
End Draft.

(** ** The vocabulary of the properties *)

Definition repostMarker : string := "reposted this".

(** The header of the item carries the repost marker. *)
Definition isRepost (item : FeedItem) : bool :=
  match headerText item with
  | Some h => includes h repostMarker
  | None => false
  end.

(** The content a feed item yields: the trimmed text under the first of the
    two selectors that is not empty; empty when there is no wrapper. *)
Definition derivedContent (item : FeedItem) : string :=
  match descriptionWrapper item with
  | None => ""
  | Some wr =>
      match textContentTrim (showMoreText wr) with
      | EmptyString => textContentTrim (breakWordsSpan wr)
      | shown => shown
      end
  end.

(** A qualifying item: not a repost, and with content. *)
Definition qualifies (item : FeedItem) : bool :=
  negb (isRepost item) && negb (String.eqb (derivedContent item) "").

(** The same for the snapshot with titles: the title is the text under the
    second selector, the content the text under the first. *)
Definition derivedTitled (item : FeedItem) : Previous.Post :=
  match descriptionWrapper item with
  | None => Previous.mkPost "" ""
  | Some wr =>
      Previous.mkPost (textContentTrim (breakWordsSpan wr))
        (textContentTrim (showMoreText wr))
  end.

Definition qualifiesTitled (item : FeedItem) : bool :=
  negb (isRepost item) &&
  negb (String.eqb (Previous.Title (derivedTitled item)) "" &&
        String.eqb (Previous.Content (derivedTitled item)) "").

(** The fields of a profile, to say which of them a step may change. *)
Inductive Field := FName | FLocation | FAbout | FExperience | FEducation | FPosts.

Definition sameField (f : Field) (p q : ProfileData) : Prop :=
  match f with
  | FName => Name p = Name q
  | FLocation => Location p = Location q
  | FAbout => About p = About q
  | FExperience => ExperienceList p = ExperienceList q
  | FEducation => EducationList p = EducationList q
  | FPosts => Posts p = Posts q
  end.

(** The profile of [s'] differs from that of [s] at most in the fields
    [owned], and the scraper around it is the same. *)
Definition writesOnly (owned : list Field) (s s' : Scraper) : Prop :=
  ctx s' = ctx s /\ cancel s' = cancel s /\ linkedInURL s' = linkedInURL s /\
  email s' = email s /\ password s' = password s /\
  forall f, ~ In f owned -> sameField f (Profile s) (Profile s').

(** What a run shows of the orchestration: the extraction steps as they
    start (each prints its name first), the post count the handler prints,
    the log lines, the responses and the release of the session. *)
Definition stepNames : list string :=
  ["Getting name and location"; "Getting latest posts"; "Getting experience";
   "Getting education"; "Getting about"].

Inductive Obs :=
| OStep (name : string)
| OCount (n : nat)
| OLog (line : string)
| OResponse (msg : Payload) (httpStatus : nat)
| OClose
| OProfile (p : ProfileData).

Definition observe (e : Event) : option Obs :=
  match e with
  | EvPrint (PStr s) => if existsb (String.eqb s) stepNames then Some (OStep s) else None
  | EvPrint (PLen n) => Some (OCount n)
  | EvPrint (PProfile p) => Some (OProfile p)
  | EvLog line => Some (OLog line)
  | EvWriteResponse msg httpStatus => Some (OResponse msg httpStatus)
  | EvGo _ => Some OClose
  | _ => None
  end.

Definition observed (tr : list Event) : list Obs := omap observe tr.

Definition stepsStarted (tr : list Event) : list string :=
  omap (fun o => match o with OStep name => Some name | _ => None end) (observed tr).

Definition responses (tr : list Event) : list (Payload * nat) :=
  omap (fun o => match o with OResponse msg c => Some (msg, c) | _ => None end) (observed tr).

(** The events of [log.Printf(prefix, err)] under [if err != nil]. *)
Definition logged (prefix : string) (err : error) : list Event :=
  match err with
  | Some e => [EvLog (prefix +:+ e)]
  | None => []
  end.

(** The events of the handler on the error of the education step: the log
    line and the server-error response. *)
Definition surfaced (err : error) : list Event :=
  match err with
  | Some e =>
      [EvLog ("error while getting education: " +:+ e);
       EvWriteResponse (TextBody serverErrorText) 500]
  | None => []
  end.

(** The steps started after the Posts step. *)
Fixpoint after (name : string) (l : list string) : list string :=
  match l with
  | [] => []
  | x :: rest => if String.eqb x name then rest else after name rest
  end.

Definition stepsAfterPosts (tr : list Event) : list string :=
  after "Getting latest posts" (stepsStarted tr).

(** The gate as the specification words it, for a run that printed the post
    count [n]: after the Posts step come the identity, experience and
    education steps if [n <= 2], and no step otherwise. *)
Definition gateAsSpecified (tr : list Event) (n : nat) : Prop :=
  stepsAfterPosts tr =
  if (n <=? 2)%nat
  then ["Getting name and location"; "Getting experience"; "Getting education"]
  else [].

(** Commands sent to a browser session: the tasks of a [chromedp.Run]. *)
Definition browserCommands (tr : list Event) : list (Ctx * Action) :=
  omap (fun e => match e with EvRun c a => Some (c, a) | _ => None end) tr.

(** Sessions opened: allocators and contexts created. *)
Definition sessionsOpened (tr : list Event) : nat :=
  List.length (List.filter (fun e => match e with
                                     | EvNewAllocator _ | EvNewContext _ _ => true
                                     | _ => false
                                     end) tr).

(** The status a client receives: that of the first [WriteHeader]. *)
Definition statusReceived (tr : list Event) : option nat :=
  match responses tr with
  | [] => None
  | (_, c) :: _ => Some c
  end.

(** ** A scripted world

    An implementation of the interfaces that answers from a list of replies,
    one per call, to run the program on concrete inputs. *)
Module Fixture.

Inductive Reply :=
| Done
| Fails (e : string)
| Str (s : string)
| Feed (items : list FeedItem)
| Positions (items : list (option PositionNode))
| Schools (items : list (option SchoolNode))
| Spans (texts : list string)
| Http (r : HttpReply).

Record World := mkWorld {
  replies : list Reply;
  reverseMaps : bool (* whether a range over a map runs backwards *)
}.

Definition deadline : string := "context deadline exceeded".
Definition unexpected : string := "unexpected reply".

Definition answer {A} (pick : Reply -> string + A) (w : World) : (string + A) * World :=
  match replies w with
  | [] => (inl deadline, w)
  | r :: rest => (pick r, mkWorld rest (reverseMaps w))
  end.

Definition pickDone (r : Reply) : string + unit :=
  match r with Done => inr tt | Fails e => inl e | _ => inl unexpected end.
Definition pickStr (r : Reply) : string + string :=
  match r with Str s => inr s | Fails e => inl e | _ => inl unexpected end.
Definition pickFeed (r : Reply) : string + list FeedItem :=
  match r with Feed l => inr l | Fails e => inl e | _ => inl unexpected end.
Definition pickPositions (r : Reply) : string + list (option PositionNode) :=
  match r with Positions l => inr l | Fails e => inl e | _ => inl unexpected end.
Definition pickSchools (r : Reply) : string + list (option SchoolNode) :=
  match r with Schools l => inr l | Fails e => inl e | _ => inl unexpected end.
Definition pickSpans (r : Reply) : string + list string :=
  match r with Spans l => inr l | Fails e => inl e | _ => inl unexpected end.

Definition fixtureRange {V : Type} (kvs : list (string * V)) (w : World) :
    list (string * V) * World :=
  (if reverseMaps w then rev kvs else kvs, w).

Lemma fixtureRange_perm {V : Type} (kvs : list (string * V)) (w : World) :
  Permutation kvs (fst (fixtureRange kvs w)).
Proof.
  unfold fixtureRange. destruct (reverseMaps w); simpl.
  - apply Permutation_rev.
  - reflexivity.
Qed.

#[global] Instance browser : Browser World := {|
  newExecAllocator w := (0, w);
  newContext a w := (S a, w);
  cancelContext _ w := w;
  cancelAllocator _ w := w;
  runTask _ _ w :=
    match answer pickDone w with
    | (inl e, w1) => (Some e, w1)
    | (inr _, w1) => (None, w1)
    end;
  runLocation _ w := answer pickStr w;
  runText _ _ w := answer pickStr w;
  queryFeed _ w := answer pickFeed w;
  queryPositions _ w := answer pickPositions w;
  querySchools _ w := answer pickSchools w;
  queryAboutSpans _ w := answer pickSpans w;
  readLine w := w;
  chatCompletion _ _ w :=
    match replies w with
    | Http r :: rest => (r, mkWorld rest (reverseMaps w))
    | _ => (TransportError deadline, w)
    end;
  mapRange := @fixtureRange;
  mapRange_perm := @fixtureRange_perm
|}.

#[global] Instance golib : GoLib := {|
  pathJoin a b := a +:+ "/" +:+ b;
  mailParseAddress s :=
    if includes s "@" then None else Some "mail: missing '@' or angle-addr";
  jsonDecodeHomeReq body :=
    if decide (body = "") then inl "EOF"
    else inr (mkHomeReq body "secret" "https://www.linkedin.com/in/someone");
  jsonMarshalPosts posts := inr (String.concat "," (map Content posts))
|}.

(** Replies of a login that meets no challenge. *)
Definition loginReplies : list Reply :=
  [Done; Done; Done; Done; Done; Str "https://www.linkedin.com/feed/"].

Definition sample : Scraper :=
  mkScraper 1 1 "https://www.linkedin.com/in/someone" "a@b.c" "secret" emptyProfile.

Definition world (l : list Reply) : World := mkWorld l false.

Definition original (content : string) : FeedItem :=
  mkFeedItem None (Some (mkWrapper (Some content) None)).

Definition repost (content : string) : FeedItem :=
  mkFeedItem (Some "Someone reposted this") (Some (mkWrapper (Some content) None)).

(** Replies of a whole request, login to language model, for a feed. *)
Definition identityReplies : list Reply :=
  [Done; Done; Done; Str "Ann"; Str "Pune"].

Definition requestWorld (feed : list FeedItem) (gated : list Reply) : World :=
  world (loginReplies ++ identityReplies ++ [Done; Done; Feed feed] ++ gated ++
         [Http (HttpStatus 200 (inr ["Hi"]))])%list.

(** Replies of the experience and education steps when both succeed, and
    when the first fails to navigate and the second to evaluate. *)
Definition gatedReplies : list Reply :=
  [Done; Done; Done; Done; Positions []; Done; Done; Done; Done; Schools []].

Definition failingGatedReplies : list Reply :=
  [Fails "page not found"; Done; Done; Done; Done; Fails "evaluation failed"].

Definition challengeAddress : string :=
  "https://www.linkedin.com/checkpoint/challenge/AgF".

(** Replies of a login that meets the challenge and still sees it after the
    human signal. *)
Definition unresolvedChallenge : list Reply :=
  [Done; Done; Done; Done; Done; Str challengeAddress; Str challengeAddress].

(** A feed of seven items: a repost, an item with no text, and five posts. *)
Definition sevenItems : list FeedItem :=
  [repost "shared"; original "one"; original "  "; original "two";
   original "three"; original "four"; original "five"].

Definition position : PositionNode :=
  mkPositionNode (Some " Engineer ") None (Some "Acme") (Some "2019 - Present").

Definition school : SchoolNode :=
  mkSchoolNode (Some "State University") (Some "Physics") (Some "2015 - 2019").

End Fixture.

(** ** Running the program symbolically *)

Ltac unfold_run :=
  cbv beta iota delta
    [Run Println logPrintf timeSleep ReadString emit panic deref task
     chromedpLocation TextOf EvaluatePosts EvaluateExperience EvaluateEducation
     EvaluateAbout NewExecAllocator NewContext Cancel CancelAllocator
     WriteResponse logIfError Close submitLoginForm evaluated
     mbind mret Tasks_bind Tasks_ret M_bind M_ret].

(** Case analysis on the next answer of the world in the goal. *)
Ltac world_call :=
  match goal with
  | |- context [runTask ?c ?a ?w] => destruct (runTask c a w) as [[?|] ?] eqn:?
  | |- context [runLocation ?c ?w] => destruct (runLocation c w) as [[?|?] ?] eqn:?
  | |- context [runText ?c ?s ?w] => destruct (runText c s w) as [[?|?] ?] eqn:?
  | |- context [queryFeed ?c ?w] => destruct (queryFeed c w) as [[?|?] ?] eqn:?
  | |- context [queryPositions ?c ?w] => destruct (queryPositions c w) as [[?|?] ?] eqn:?
  | |- context [querySchools ?c ?w] => destruct (querySchools c w) as [[?|?] ?] eqn:?
  | |- context [queryAboutSpans ?c ?w] => destruct (queryAboutSpans c w) as [[?|?] ?] eqn:?
  | |- context [newExecAllocator ?w] => destruct (newExecAllocator w) as [? ?] eqn:?
  | |- context [newContext ?a ?w] => destruct (newContext a w) as [? ?] eqn:?
  end.

Ltac exec := unfold_run; repeat (world_call; unfold_run).

Ltac conjuncts := repeat apply conj; first [reflexivity | eassumption].

(** Equality of two traces up to the bracketing of their concatenation. *)
Ltac same_trace :=
  repeat first [progress simpl | rewrite <- app_assoc | rewrite app_nil_r];
  reflexivity.

(** The frame of a step: the fields it does not own are unchanged. *)
Ltac frame :=
  unfold writesOnly; simpl; repeat apply conj; try reflexivity;
  intros [] Hn; simpl; try reflexivity; exfalso; apply Hn; simpl; tauto.

(** Case analysis on the answers the end of the handler depends on. *)

(** Case analysis on the answers the end of the handler depends on. *)
Ltac more_calls :=
  match goal with
  | |- context [chatCompletion ?p ?k ?w] =>
      destruct (chatCompletion p k w) as [[?|? [?|[|? ?]]] ?] eqn:?
  | |- context [mapRange ?l ?w] => destruct (mapRange l w) as [? ?] eqn:?
  | |- context [jsonMarshalPosts ?l] => destruct (jsonMarshalPosts l) as [?|?] eqn:?
  | |- context [if ?b then _ else _] => destruct b eqn:?
  end.

(** ** Further vocabulary: sessions, attempts and scope of commands *)

(** The number of events of a run that satisfy [p]. *)
Definition count (p : Event -> bool) (tr : list Event) : nat :=
  List.length (List.filter p tr).

Definition isNewContext (e : Event) : bool :=
  match e with EvNewContext _ _ => true | _ => false end.

Definition isCancel (e : Event) : bool :=
  match e with EvCancel _ => true | _ => false end.

Definition isNewAllocator (e : Event) : bool :=
  match e with EvNewAllocator _ => true | _ => false end.

Definition isCancelAllocator (e : Event) : bool :=
  match e with EvCancelAllocator _ => true | _ => false end.

(** [login] prints this line first, and nothing else does. *)
Definition isLoginAttempt (e : Event) : bool :=
  match e with
  | EvPrint (PStr s) => String.eqb s "Logging user in..."
  | _ => false
  end.

Definition isGo (e : Event) : bool :=
  match e with EvGo _ => true | _ => false end.

(** Every command of the run goes to a context that the run itself created
    before sending it. *)
Definition commandsInOwnSessions (tr : list Event) : Prop :=
  forall before c a after,
    tr = (before ++ EvRun c a :: after)%list ->
    exists alloc, In (EvNewContext alloc c) before.

(** The profiles handed to the language model. *)
Definition profilesSent (tr : list Event) : list ProfileData :=
  omap (fun e => match e with EvChatCompletion p => Some p | _ => None end) tr.

(** What [tr] prints are lines of text: no post count, status or profile. *)
Definition printsLines (tr : list Event) : Prop :=
  forall x, In (EvPrint x) tr -> exists s, x = PStr s.

(** The commands of [tr] go to the context [c]. *)
Definition toContext (c : Ctx) (tr : list Event) : Prop :=
  forall c' a, In (EvRun c' a) tr -> c' = c.

(** What one [login] in the context [c] adds to a run: one attempt, commands
    to [c] only, no session opened or released, nothing of the
    orchestration. *)
Definition loginTrace (c : Ctx) (tr : list Event) : Prop :=
  observed tr = [] /\ profilesSent tr = [] /\ printsLines tr /\ toContext c tr /\
  count isNewContext tr = 0 /\ count isCancel tr = 0 /\
  count isNewAllocator tr = 0 /\ count isCancelAllocator tr = 0 /\
  count isLoginAttempt tr = 1.

(** Events that neither open nor release a session nor reach the language
    model: prints, log lines, commands and responses. *)
Definition isQuiet (e : Event) : bool :=
  match e with
  | EvPrint _ | EvLog _ | EvRun _ _ | EvWriteResponse _ _ => true
  | _ => false
  end.

Definition quiet (tr : list Event) : Prop := Forall (fun e => isQuiet e = true) tr.

(** The events of an extraction step: the line it prints and its commands. *)
Definition isStepEvent (e : Event) : bool :=
  match e with
  | EvPrint (PStr _) | EvRun _ _ => true
  | _ => false
  end.

Definition stepEvents (tr : list Event) : Prop := Forall (fun e => isStepEvent e = true) tr.

(** ** The router, the CORS wrapper and the token middleware

    [router.go], [WithCORS] of [utils] and [JWTMiddleware] of
    [auth-middleware].  A request is given by what these read of it. *)

Record Request := mkRequest {
  Method : string;
  Origin : string;        (* r.Header.Get("Origin"), empty when there is none *)
  Authorization : string; (* r.Header.Get("Authorization") *)
  Body : string
}.

(** What serving a request does to the response writer, around the events
    of the handler proper. *)
Inductive Served :=
| SetHeader (key value : string)        (* w.Header().Set(key, value) *)
| WriteHeader (code : nat)              (* w.WriteHeader(code) *)
| HttpError (msg : string) (code : nat) (* http.Error(w, msg, code) *)
| Inner (e : Event).                    (* an event of [Home] *)

(** An [http.Handler], over the world. *)
Definition Handler (W : Type) : Type := Request -> W -> Outcome unit * W * list Served.

(** The status the client receives: that of the first write of a header. *)
Definition statusServed (tr : list Served) : option nat :=
  head (omap (fun e => match e with
                       | WriteHeader c | HttpError _ c | Inner (EvWriteResponse _ c) => Some c
                       | _ => None
                       end) tr).

(** The events of [Home] within a served request. *)
Definition innerEvents (tr : list Served) : list Event :=
  omap (fun e => match e with Inner e => Some e | _ => None end) tr.

(** [for _, allowed := range allowedOrigins { if origin == allowed {
    allowedOrigin = origin; break } }], from [allowedOrigin := ""]. *)
Fixpoint matchOrigin (origin : string) (allowedOrigins : list string) : string :=
  match allowedOrigins with
  | [] => ""
  | allowed :: rest =>
      if String.eqb origin allowed then origin else matchOrigin origin rest
  end.

Definition corsHeaders (allowedOrigin : string) : list Served :=
  [SetHeader "Access-Control-Allow-Origin" allowedOrigin;
   SetHeader "Access-Control-Allow-Methods" "GET, POST, PUT, DELETE, OPTIONS";
   SetHeader "Access-Control-Allow-Headers" "Content-Type, Origin, Accept, Authorization";
   SetHeader "Access-Control-Allow-Credentials" "true"].

(** The body of [WithCORS]; the snapshots of it differ in the list of
    allowed origins only. *)
Definition WithCORSOver {W : Type} (allowedOrigins : list string) (handler : Handler W) :
    Handler W := fun r w =>
  let origin := Origin r in
  let allowedOrigin := matchOrigin origin allowedOrigins in
  let headers :=
    if negb (String.eqb allowedOrigin "") then corsHeaders allowedOrigin else [] in
  if String.eqb (Method r) "OPTIONS" then
    (Ret tt, w, (headers ++ [WriteHeader 200])%list)
  else
    let '(out, w1, tr) := handler r w in
    (out, w1, (headers ++ tr)%list).

Definition allowedOrigins : list string := ["http://localhost:8080"].

Definition WithCORS {W : Type} (handler : Handler W) : Handler W :=
  WithCORSOver allowedOrigins handler.

Section Router.
Context {W : Type} `{!Browser W} `{!GoLib}.

(** The function [Routes] registers for [/api/home], inside [WithCORS]. *)
Definition homeRoute (srv : Server) : Handler W := fun r w =>
  let refused :=
    if negb (String.eqb (Method r) "POST")
    then [HttpError "Method Not Allowed" 405]
    else [] in
  let '(out, w1, tr) := Home srv (Body r) w in
  (out, w1, (refused ++ map Inner tr)%list).

Definition Routes (srv : Server) : Handler W := WithCORS (homeRoute srv).

End Router.

(** [strings.Split(s, " ")] *)
Fixpoint stringsSplit (s : string) : list string :=
  match s with
  | EmptyString => [EmptyString]
  | String c rest =>
      if Ascii.eqb c " " then EmptyString :: stringsSplit rest
      else
        match stringsSplit rest with
        | [] => [String c EmptyString]
        | part :: parts => String c part :: parts
        end
  end.

(** No separator in [s]: [strings.Split] leaves it whole. *)
Definition noSpace (s : string) : Prop := ~ In " "%char (list_ascii_of_string s).

Section Middleware.
Context {W : Type}.

(** [jwt.ParseWithClaims(tokenString, claims, keyFunc)] with [JwtSecret]:
    its error, [token.Valid] and [claims.UserID]. *)
Variable jwtParseWithClaims : string -> error * bool * Z.

(** [next] is given the user the token names, which the middleware stores
    in the context of the request. *)
Definition JWTMiddleware (next : Z -> Handler W) : Handler W := fun r w =>
  if String.eqb (Method r) "OPTIONS" then (Ret tt, w, [WriteHeader 200])
  else
    let authHeader := Authorization r in
    if String.eqb authHeader "" then
      (Ret tt, w, [HttpError "Authorization header is missing" 401])
    else
      let parts := stringsSplit authHeader in
      if negb (List.length parts =? 2)%nat || negb (String.eqb (nth 0 parts "") "Bearer") then
        (Ret tt, w, [HttpError "Invalid Authorization header format" 401])
      else
        let tokenString := nth 1 parts "" in
        let '(err, valid, userID) := jwtParseWithClaims tokenString in
        if match err with Some _ => true | None => false end || negb valid then
          (Ret tt, w, [HttpError "Invalid token" 401])
        else next userID r w.

End Middleware.

(** [indexOf] of the earlier snapshots of [scraper.go]: the loop over the
    slice, from index [i]. *)
Fixpoint indexOfFrom (i : Z) (slice : list string) (item : string) : Z :=
  match slice with
  | [] => (-1)%Z
  | s :: rest => if String.eqb s item then i else indexOfFrom (i + 1)%Z rest item
  end.

Definition indexOf (slice : list string) (item : string) : Z := indexOfFrom 0 slice item.

(** ** More scripted worlds *)

Module Cases.

Definition key : Server := mkServer "key".

(** The body of a request; the scripted decoder takes it as the address. *)
Definition body : string := "a@b.c".

Definition threePosts : list FeedItem :=
  [Fixture.original "one"; Fixture.original "two"; Fixture.original "three"].

(** The language model answers with an error status. *)
Definition modelDown : Fixture.World :=
  Fixture.world
    (Fixture.loginReplies ++ Fixture.identityReplies ++
     [Fixture.Done; Fixture.Done; Fixture.Feed threePosts] ++
     [Fixture.Http (HttpStatus 503 (inl "unexpected end of JSON input"))])%list.

(** The feed cannot be loaded. *)
Definition feedUnavailable : Fixture.World :=
  Fixture.world
    (Fixture.loginReplies ++ Fixture.identityReplies ++
     [Fixture.Fails "net::ERR_ABORTED"] ++ Fixture.gatedReplies ++
     [Fixture.Http (HttpStatus 200 (inr ["Hi"]))])%list.

(** A challenge left unresolved in the first session and resolved in the
    second one. *)
Definition verifiedAtSecondAttempt : Fixture.World :=
  Fixture.world
    (Fixture.unresolvedChallenge ++
     [Fixture.Done; Fixture.Done; Fixture.Done; Fixture.Done; Fixture.Done;
      Fixture.Str Fixture.challengeAddress; Fixture.Str "https://www.linkedin.com/feed/"])%list.

(** A challenge left unresolved in both sessions. *)
Definition neverVerified : Fixture.World :=
  Fixture.world (Fixture.unresolvedChallenge ++ Fixture.unresolvedChallenge)%list.

Definition preflight : Request :=
  mkRequest "OPTIONS" "http://localhost:8080" "" "".


End Cases.

(** ** More tactics for runs *)

(** The prints of a trace given in full are lines. *)
Ltac lines :=
  let x := fresh "x" in
  let Hin := fresh "Hin" in
  intros x Hin; simpl in Hin;
  repeat (destruct Hin as [Hin|Hin];
          [try discriminate Hin; try (injection Hin as <-; eexists; reflexivity)|]);
  try contradiction.

(** The events of a step, from its run. *)
Ltac step_facts :=
  intros Heq; inversion Heq; subst;
  (split; [repeat constructor|]);
  intros c' a; simpl; intuition congruence.

(** * Properties *)

Local Open Scope list_scope.

(** ** The posts script *)

Lemma jsOr_empty_r a : jsOr a "" = a.
Proof. unfold jsOr. destruct (decide (a = "")); congruence. Qed.

(** The arrow function keeps exactly the qualifying items, with the content
    derived from them. *)
Lemma postOfItem_qualifies item :
  postOfItem item =
  if qualifies item then Some (mkPost (derivedContent item)) else None.
Proof.
  unfold postOfItem, qualifies, isRepost, derivedContent, repostMarker.
  destruct (headerText item) as [h|]; [destruct (includes h _)|]; simpl; try reflexivity.
  all: destruct (descriptionWrapper item) as [wr|]; simpl; try reflexivity.
  all: rewrite jsOr_empty_r; unfold jsOr.
  all: destruct (textContentTrim (showMoreText wr)) eqn:Hs; simpl;
    [destruct (textContentTrim (breakWordsSpan wr)) eqn:Hb|]; simpl; reflexivity.
Qed.

Lemma filterNotNull_posts items :
  filterNotNull (map postOfItem items) =
  map (fun item => mkPost (derivedContent item)) (List.filter qualifies items).
Proof.
  unfold filterNotNull.
  induction items as [|item items IH]; [reflexivity|].
  cbn [map List.filter]. rewrite postOfItem_qualifies.
  destruct (qualifies item); csimpl; rewrite IH; reflexivity.
Qed.

Lemma postsScript_qualifying items :
  postsScript items =
  take 5 (map (fun item => mkPost (derivedContent item)) (List.filter qualifies items)).
Proof. unfold postsScript. by rewrite filterNotNull_posts. Qed.

Lemma postsScript_length items : List.length (postsScript items) <= 5.
Proof. unfold postsScript. rewrite length_take. lia. Qed.

Lemma postsScript_content items :
  Forall (fun p => Content p <> "") (postsScript items).
Proof.
  rewrite postsScript_qualifying. apply Forall_take.
  apply Forall_map. apply Forall_forall. intros item Hin.
  apply list_elem_of_In, filter_In in Hin as [_ Hq]. unfold qualifies in Hq.
  apply andb_true_iff in Hq as [_ Hq]. simpl.
  intros Heq. rewrite Heq in Hq. discriminate.
Qed.

Lemma postOfItem_repost item h :
  headerText item = Some h -> includes h "reposted this" = true ->
  postOfItem item = None.
Proof. intros Hh Hi. unfold postOfItem. rewrite Hh, Hi. reflexivity. Qed.

Lemma filterNotNull_app {A} (l1 l2 : list (option A)) :
  filterNotNull (l1 ++ l2) = filterNotNull l1 ++ filterNotNull l2.
Proof. unfold filterNotNull. apply omap_app. Qed.

(** Every object the filter keeps is the image of a node of the list. *)
Lemma elem_of_filterNotNull_map {A B} (f : A -> option B) l b :
  b ∈ filterNotNull (map f l) -> exists i a, l !! i = Some a /\ f a = Some b.
Proof.
  unfold filterNotNull. induction l as [|a l IH]; cbn [map]; csimpl.
  - intros Hin. inversion Hin.
  - destruct (f a) as [b'|] eqn:Hfa; csimpl.
    + intros Hin. apply elem_of_cons in Hin as [->|Hin].
      * exists 0, a. split; [reflexivity|assumption].
      * destruct (IH Hin) as (i & a' & Hi & Ha'). exists (S i), a'. split; assumption.
    + intros Hin. destruct (IH Hin) as (i & a' & Hi & Ha'). exists (S i), a'. split; assumption.
Qed.

(** C7: a feed item whose header text contains "reposted this" is excluded
    from the posts, wherever it stands among the rendered items: the script
    gives the same posts as on the feed without that item, and every post of
    the result is the post of an item at another position. *)
Theorem repost_excluded_at_any_position before item after h :
  headerText item = Some h ->
  includes h "reposted this" = true ->
  postsScript (before ++ item :: after) = postsScript (before ++ after) /\
  forall p, p ∈ postsScript (before ++ item :: after) ->
    exists i other, (before ++ item :: after) !! i = Some other /\
                    i <> List.length before /\ postOfItem other = Some p.
Proof.
  intros Hh Hi.
  assert (Hnone : postOfItem item = None) by (eapply postOfItem_repost; eassumption).
  split.
  - unfold postsScript. rewrite !map_app, !filterNotNull_app. cbn [map].
    unfold filterNotNull at 2. csimpl. rewrite Hnone. reflexivity.
  - intros p Hp. unfold postsScript in Hp. apply elem_of_take in Hp as (k & Hk & _).
    apply list_elem_of_lookup_2 in Hk.
    apply elem_of_filterNotNull_map in Hk as (i & other & Hi' & Hother).
    exists i, other. split; [assumption|]. split; [|assumption].
    intros ->. rewrite list_lookup_middle in Hi' by reflexivity.
    injection Hi' as <-. congruence.
Qed.

Lemma repost_excluded_at_any_position_witness :
  postsScript ([Fixture.original "one"] ++ Fixture.repost "two" :: [Fixture.original "three"]) =
  postsScript ([Fixture.original "one"] ++ [Fixture.original "three"]).
Proof.
  apply (repost_excluded_at_any_position
           [Fixture.original "one"] (Fixture.repost "two") [Fixture.original "three"]
           "Someone reposted this").
  - reflexivity.
  - vm_compute. reflexivity.
Defined.

(** The snapshot with titles excludes reposts in the same way. *)
Lemma Previous_repost_excluded before item after h :
  headerText item = Some h ->
  includes h "reposted this" = true ->
  Previous.postsScript (before ++ item :: after) = Previous.postsScript (before ++ after).
Proof.
  intros Hh Hi. unfold Previous.postsScript.
  rewrite !map_app, !filterNotNull_app. cbn [map].
  unfold filterNotNull at 2. csimpl.
  unfold Previous.postOfItem at 2. rewrite Hh, Hi. reflexivity.
Qed.

(** The snapshot with titles: the first five qualifying items, none with
    both title and content empty. *)
Lemma Previous_postOfItem_qualifies item :
  Previous.postOfItem item =
  if qualifiesTitled item then Some (derivedTitled item) else None.
Proof.
  unfold Previous.postOfItem, qualifiesTitled, isRepost, derivedTitled, repostMarker.
  destruct (headerText item) as [h|]; [destruct (includes h _)|]; simpl; try reflexivity.
  all: destruct (descriptionWrapper item) as [wr|]; simpl; try reflexivity.
  all: rewrite !jsOr_empty_r.
  all: destruct (_ && _); reflexivity.
Qed.

Lemma Previous_postsScript_qualifying items :
  Previous.postsScript items = take 5 (map derivedTitled (List.filter qualifiesTitled items)) /\
  List.length (Previous.postsScript items) <= 5 /\
  Forall (fun p => ~ (Previous.Title p = "" /\ Previous.Content p = ""))
    (Previous.postsScript items).
Proof.
  assert (Heq : Previous.postsScript items =
                take 5 (map derivedTitled (List.filter qualifiesTitled items))).
  { unfold Previous.postsScript, filterNotNull. f_equal.
    induction items as [|item items IH]; [reflexivity|].
    cbn [map List.filter]. rewrite Previous_postOfItem_qualifies.
    destruct (qualifiesTitled item); csimpl; rewrite IH; reflexivity. }
  split; [exact Heq|]. split.
  - rewrite Heq, length_take. lia.
  - rewrite Heq. apply Forall_take, Forall_map, Forall_forall. intros item Hin.
    apply list_elem_of_In, filter_In in Hin as [_ Hq]. unfold qualifiesTitled in Hq.
    apply andb_true_iff in Hq as [_ Hq]. simpl. intros [Ht Hc].
    rewrite Ht, Hc in Hq. discriminate.
Qed.

(** ** The extraction steps *)

Section StepProperties.
Context {W : Type} `{!Browser W} `{!GoLib}.

(** A successful Posts step: its three tasks succeeded, and the posts are
    the value of the script on the nodes the page had. *)
Lemma GetRecentPosts_success s w s' w' tr :
  GetRecentPosts (Some s) w = (Ret (s', None), w', tr) ->
  exists w1 w2 items,
    runTask (ctx s) (Navigate (feedAddress s)) w = (None, w1) /\
    runTask (ctx s) (Sleep 2) w1 = (None, w2) /\
    queryFeed (ctx s) w2 = (inr items, w') /\
    s' = setProfile (setPosts (postsScript items) (Profile s)) s.
Proof.
  unfold GetRecentPosts, feedAddress. exec; intros Heq; inversion Heq; subst.
  eexists _, _, _. conjuncts.
Qed.

(** C3: the posts that the Posts step produces are at most 5, none has an
    empty content (so none has content and title both empty), and they are
    the first 5 qualifying items of the feed in the order of the page:
    the items are filtered first (reposts and items without content are
    dropped), and the qualifying ones are cut at 5. *)
Theorem GetRecentPosts_first_five_qualifying s w s' w' tr :
  GetRecentPosts (Some s) w = (Ret (s', None), w', tr) ->
  (exists w1 w2 items,
     runTask (ctx s) (Navigate (feedAddress s)) w = (None, w1) /\
     runTask (ctx s) (Sleep 2) w1 = (None, w2) /\
     queryFeed (ctx s) w2 = (inr items, w') /\
     Posts (Profile s') =
       take 5 (map (fun item => mkPost (derivedContent item))
                 (List.filter qualifies items))) /\
  List.length (Posts (Profile s')) <= 5 /\
  Forall (fun p => Content p <> "") (Posts (Profile s')).
Proof.
  intros Hrun.
  destruct (GetRecentPosts_success _ _ _ _ _ Hrun) as (w1 & w2 & items & H1 & H2 & H3 & ->).
  simpl. split; [|split].
  - exists w1, w2, items. repeat split; try assumption. apply postsScript_qualifying.
  - apply postsScript_length.
  - apply postsScript_content.
Qed.

(** C4: a Posts step whose navigation and evaluation succeed and that finds
    no qualifying item returns no error and leaves the posts empty; and the
    step returns an error only when one of the tasks of its run failed: the
    navigation, the pause after it, or the evaluation. *)
Theorem GetRecentPosts_empty_is_success s w :
  (forall w1 w2 w3 items,
     runTask (ctx s) (Navigate (feedAddress s)) w = (None, w1) ->
     runTask (ctx s) (Sleep 2) w1 = (None, w2) ->
     queryFeed (ctx s) w2 = (inr items, w3) ->
     List.filter qualifies items = [] ->
     exists s' tr,
       GetRecentPosts (Some s) w = (Ret (s', None), w3, tr) /\
       Posts (Profile s') = []) /\
  (forall s' e w' tr,
     GetRecentPosts (Some s) w = (Ret (s', Some e), w', tr) ->
     s' = s /\
     exists err, e = "failed to extract posts: " +:+ err /\
       (runTask (ctx s) (Navigate (feedAddress s)) w = (Some err, w') \/
        (exists w1,
           runTask (ctx s) (Navigate (feedAddress s)) w = (None, w1) /\
           runTask (ctx s) (Sleep 2) w1 = (Some err, w')) \/
        (exists w1 w2,
           runTask (ctx s) (Navigate (feedAddress s)) w = (None, w1) /\
           runTask (ctx s) (Sleep 2) w1 = (None, w2) /\
           queryFeed (ctx s) w2 = (inl err, w')))).
Proof.
  split.
  - intros w1 w2 w3 items H1 H2 H3 Hnone.
    unfold GetRecentPosts, feedAddress in *. unfold_run.
    rewrite H1. unfold_run. rewrite H2. unfold_run. rewrite H3. unfold_run.
    eexists _, _. split; [reflexivity|].
    simpl. rewrite postsScript_qualifying, Hnone. reflexivity.
  - intros s' e w' tr. unfold GetRecentPosts, feedAddress.
    exec; intros Heq; inversion Heq; subst; (split; [reflexivity|]);
      eexists; (split; [reflexivity|]).
    + left. reflexivity.
    + right. left. eexists. conjuncts.
    + right. right. eexists _, _. conjuncts.
Qed.

(** C8: a step that succeeds stores what it extracted in the profile fields
    it owns and changes no other: the Posts step the posts, the identity
    step the name and the location, the experience step the experience
    list (the value of its script on the page), the education step the
    education list, the about step the about text. *)
Theorem steps_write_only_their_fields s w :
  (forall s' w' tr,
     GetRecentPosts (Some s) w = (Ret (s', None), w', tr) ->
     writesOnly [FPosts] s s' /\
     exists w1 items,
       queryFeed (ctx s) w1 = (inr items, w') /\
       Posts (Profile s') = postsScript items) /\
  (forall s' w' tr,
     GetNameAndLocation (Some s) w = (Ret (s', None), w', tr) ->
     writesOnly [FName; FLocation] s s' /\
     exists w1 w2 name location,
       runText (ctx s) "h1.inline.t-24.v-align-middle.break-words" w1 = (inr name, w2) /\
       runText (ctx s) ".text-body-small.inline.t-black--light.break-words" w2
         = (inr location, w') /\
       Name (Profile s') = name /\ Location (Profile s') = location) /\
  (forall s' w' tr,
     GetExperiences (Some s) w = (Ret (s', None), w', tr) ->
     writesOnly [FExperience] s s' /\
     exists w1 items,
       queryPositions (ctx s) w1 = (inr items, w') /\
       ExperienceList (Profile s') = experienceScript items) /\
  (forall s' w' tr,
     GetEducation (Some s) w = (Ret (s', None), w', tr) ->
     writesOnly [FEducation] s s' /\
     exists w1 items,
       querySchools (ctx s) w1 = (inr items, w') /\
       EducationList (Profile s') = educationScript items) /\
  (forall s' w' tr,
     GetAbout (Some s) w = (Ret (s', None), w', tr) ->
     writesOnly [FAbout] s s' /\
     exists w1 spans,
       queryAboutSpans (ctx s) w1 = (inr spans, w') /\
       aboutScript spans = Some (About (Profile s'))).
Proof.
  repeat apply conj; intros s' w' tr.
  - unfold GetRecentPosts. exec; intros Heq; inversion Heq; subst.
    split; [frame|]. eexists _, _. conjuncts.
  - unfold GetNameAndLocation. exec; intros Heq; inversion Heq; subst.
    split; [frame|]. eexists _, _, _, _. conjuncts.
  - unfold GetExperiences. exec; intros Heq; inversion Heq; subst.
    split; [frame|]. eexists _, _. conjuncts.
  - unfold GetEducation. exec; intros Heq; inversion Heq; subst.
    split; [frame|]. eexists _, _. conjuncts.
  - unfold GetAbout. exec.
    all: try (intros Heq; inversion Heq; fail).
    destruct (aboutScript l) as [about|] eqn:Habout; intros Heq; inversion Heq; subst.
    split; [frame|]. eexists _, _. conjuncts.
Qed.

(** The first snapshot of the experience step stored nothing: on every
    path it returns the scraper it was given. *)
Lemma Draft_GetExperiences_stores_nothing drawn s w s' err w' tr :
  Draft.GetExperiences drawn (Some s) w = (Ret (s', err), w', tr) -> s' = s.
Proof.
  unfold Draft.GetExperiences. exec; intros Heq; inversion Heq; reflexivity.
Qed.

End StepProperties.

Lemma GetRecentPosts_first_five_qualifying_witness :
  let s' := setProfile
              (setPosts [mkPost "one"; mkPost "two"; mkPost "three"; mkPost "four";
                         mkPost "five"] emptyProfile) Fixture.sample in
  List.length (Posts (Profile s')) <= 5 /\
  Forall (fun p => Content p <> "") (Posts (Profile s')).
Proof.
  intros s'.
  assert (Hrun :
    GetRecentPosts (Some Fixture.sample)
      (Fixture.world [Fixture.Done; Fixture.Done; Fixture.Feed Fixture.sevenItems])
    = (Ret (s', None), Fixture.world [],
       [EvPrint (PStr "Getting latest posts");
        EvRun 1 (Navigate "https://www.linkedin.com/in/someone/recent-activity/all/");
        EvRun 1 (Sleep 2); EvRun 1 (Evaluate PostsJS)]))
    by (vm_compute; reflexivity).
  exact (proj2 (GetRecentPosts_first_five_qualifying _ _ _ _ _ Hrun)).
Defined.

Lemma GetRecentPosts_empty_is_success_witness :
  (exists s' tr,
     GetRecentPosts (Some Fixture.sample)
       (Fixture.world [Fixture.Done; Fixture.Done;
                       Fixture.Feed [Fixture.repost "shared"; Fixture.original " "]])
     = (Ret (s', None), Fixture.world [], tr) /\
     Posts (Profile s') = []) /\
  (exists err,
     "failed to extract posts: page not found" = "failed to extract posts: " +:+ err /\
     (runTask (ctx Fixture.sample) (Navigate (feedAddress Fixture.sample))
        (Fixture.world [Fixture.Fails "page not found"])
      = (Some err, Fixture.world []) \/
      (exists w1,
         runTask (ctx Fixture.sample) (Navigate (feedAddress Fixture.sample))
           (Fixture.world [Fixture.Fails "page not found"]) = (None, w1) /\
         runTask (ctx Fixture.sample) (Sleep 2) w1 = (Some err, Fixture.world [])) \/
      (exists w1 w2,
         runTask (ctx Fixture.sample) (Navigate (feedAddress Fixture.sample))
           (Fixture.world [Fixture.Fails "page not found"]) = (None, w1) /\
         runTask (ctx Fixture.sample) (Sleep 2) w1 = (None, w2) /\
         queryFeed (ctx Fixture.sample) w2 = (inl err, Fixture.world [])))).
Proof.
  split.
  - apply (proj1 (GetRecentPosts_empty_is_success Fixture.sample
                    (Fixture.world [Fixture.Done; Fixture.Done;
                                    Fixture.Feed [Fixture.repost "shared"; Fixture.original " "]]))
             (Fixture.world [Fixture.Done;
                             Fixture.Feed [Fixture.repost "shared"; Fixture.original " "]])
             (Fixture.world [Fixture.Feed [Fixture.repost "shared"; Fixture.original " "]])
             (Fixture.world [])
             [Fixture.repost "shared"; Fixture.original " "]).
    + reflexivity.
    + reflexivity.
    + reflexivity.
    + vm_compute. reflexivity.
  - assert (Hrun :
      GetRecentPosts (Some Fixture.sample) (Fixture.world [Fixture.Fails "page not found"])
      = (Ret (Fixture.sample, Some "failed to extract posts: page not found"),
         Fixture.world [],
         [EvPrint (PStr "Getting latest posts");
          EvRun 1 (Navigate "https://www.linkedin.com/in/someone/recent-activity/all/")]))
      by (vm_compute; reflexivity).
    exact (proj2 (proj2 (GetRecentPosts_empty_is_success Fixture.sample
                           (Fixture.world [Fixture.Fails "page not found"])) _ _ _ _ Hrun)).
Defined.

Lemma steps_write_only_their_fields_witness :
  writesOnly [FPosts] Fixture.sample
    (setProfile (setPosts [mkPost "one"] emptyProfile) Fixture.sample) /\
  writesOnly [FName; FLocation] Fixture.sample
    (setProfile (setNameAndLocation "Ann" "Pune" emptyProfile) Fixture.sample) /\
  writesOnly [FExperience] Fixture.sample
    (setProfile (setExperience [mkExperience "Acme" "2019 - Present" "Engineer"] emptyProfile)
       Fixture.sample) /\
  writesOnly [FEducation] Fixture.sample
    (setProfile
       (setEducation [mkEducation "State University" "Physics" "2015 - 2019"] emptyProfile)
       Fixture.sample) /\
  writesOnly [FAbout] Fixture.sample
    (setProfile (setAbout "Builds things" emptyProfile) Fixture.sample).
Proof.
  assert (Hposts :
    GetRecentPosts (Some Fixture.sample)
      (Fixture.world [Fixture.Done; Fixture.Done; Fixture.Feed [Fixture.original "one"]])
    = (Ret (setProfile (setPosts [mkPost "one"] emptyProfile) Fixture.sample, None),
       Fixture.world [],
       [EvPrint (PStr "Getting latest posts");
        EvRun 1 (Navigate "https://www.linkedin.com/in/someone/recent-activity/all/");
        EvRun 1 (Sleep 2); EvRun 1 (Evaluate PostsJS)]))
    by (vm_compute; reflexivity).
  assert (Hname :
    GetNameAndLocation (Some Fixture.sample) (Fixture.world Fixture.identityReplies)
    = (Ret (setProfile (setNameAndLocation "Ann" "Pune" emptyProfile) Fixture.sample, None),
       Fixture.world [],
       [EvPrint (PStr "Getting name and location");
        EvRun 1 (Navigate "https://www.linkedin.com/in/someone");
        EvRun 1 (Sleep 2); EvRun 1 (WaitVisible ".mt2.relative");
        EvRun 1 (Text "h1.inline.t-24.v-align-middle.break-words");
        EvRun 1 (Text ".text-body-small.inline.t-black--light.break-words")]))
    by (vm_compute; reflexivity).
  assert (Hexp :
    GetExperiences (Some Fixture.sample)
      (Fixture.world [Fixture.Done; Fixture.Done; Fixture.Done; Fixture.Done;
                      Fixture.Positions [Some Fixture.position; None]])
    = (Ret (setProfile
              (setExperience [mkExperience "Acme" "2019 - Present" "Engineer"] emptyProfile)
              Fixture.sample, None),
       Fixture.world [],
       [EvPrint (PStr "Getting experience");
        EvRun 1 (Navigate "https://www.linkedin.com/in/someone/details/experience");
        EvRun 1 (Sleep 2); EvRun 1 (WaitVisible "main");
        EvRun 1 (WaitVisible "div[data-view-name=profile-component-entity]");
        EvRun 1 (Evaluate ExperienceJS)]))
    by (vm_compute; reflexivity).
  assert (Hedu :
    GetEducation (Some Fixture.sample)
      (Fixture.world [Fixture.Done; Fixture.Done; Fixture.Done; Fixture.Done;
                      Fixture.Schools [None; Some Fixture.school]])
    = (Ret (setProfile
              (setEducation [mkEducation "State University" "Physics" "2015 - 2019"]
                 emptyProfile)
              Fixture.sample, None),
       Fixture.world [],
       [EvPrint (PStr "Getting education");
        EvRun 1 (Navigate "https://www.linkedin.com/in/someone/details/education");
        EvRun 1 (Sleep 2); EvRun 1 (WaitVisible "main");
        EvRun 1 (WaitVisible "div[data-view-name=profile-component-entity]");
        EvRun 1 (Evaluate EducationJS)]))
    by (vm_compute; reflexivity).
  assert (Habout :
    GetAbout (Some Fixture.sample)
      (Fixture.world [Fixture.Done; Fixture.Spans ["  "; " Builds things "; "More"]])
    = (Ret (setProfile (setAbout "Builds things" emptyProfile) Fixture.sample, None),
       Fixture.world [],
       [EvPrint (PStr "Getting about");
        EvRun 1 (WaitVisible "div[class*=display-flex ph5]");
        EvRun 1 (Evaluate AboutJS)]))
    by (vm_compute; reflexivity).
  destruct (steps_write_only_their_fields Fixture.sample
              (Fixture.world [Fixture.Done; Fixture.Done; Fixture.Feed [Fixture.original "one"]]))
    as (Fposts & _).
  destruct (steps_write_only_their_fields Fixture.sample
              (Fixture.world Fixture.identityReplies))
    as (_ & Fname & _).
  destruct (steps_write_only_their_fields Fixture.sample
              (Fixture.world [Fixture.Done; Fixture.Done; Fixture.Done; Fixture.Done;
                              Fixture.Positions [Some Fixture.position; None]]))
    as (_ & _ & Fexp & _).
  destruct (steps_write_only_their_fields Fixture.sample
              (Fixture.world [Fixture.Done; Fixture.Done; Fixture.Done; Fixture.Done;
                              Fixture.Schools [None; Some Fixture.school]]))
    as (_ & _ & _ & Fedu & _).
  destruct (steps_write_only_their_fields Fixture.sample
              (Fixture.world [Fixture.Done; Fixture.Spans ["  "; " Builds things "; "More"]]))
    as (_ & _ & _ & _ & Fabout).
  split; [|split; [|split; [|split]]].
  - exact (proj1 (Fposts _ _ _ Hposts)).
  - exact (proj1 (Fname _ _ _ Hname)).
  - exact (proj1 (Fexp _ _ _ Hexp)).
  - exact (proj1 (Fedu _ _ _ Hedu)).
  - exact (proj1 (Fabout _ _ _ Habout)).
Defined.

(** ** Login *)

Section LoginProperties.
Context {W : Type} `{!Browser W} `{!GoLib}.

(** C5: when the address after the submission matches the challenge path,
    [login] reports success only after the wait for the human signal (the
    read of the terminal) and a second look at the address, which no longer
    matches; it never does so in headless mode.  And when the address still
    matches after the signal, [login] fails with the error that the
    verification was not completed. *)
Theorem login_challenge_passes_through_wait s headless w ts w1 url w2 :
  Run (ctx s) (submitLoginForm s) w = (Ret (inr tt), w1, ts) ->
  runLocation (ctx s) w1 = (inr url, w2) ->
  includes url challengePath = true ->
  (forall w' tr,
     login s headless w = (Ret None, w', tr) ->
     headless = false /\
     (exists url2,
        runLocation (ctx s) (readLine w2) = (inr url2, w') /\
        includes url2 challengePath = false) /\
     exists before after,
       tr = before ++ EvReadLine :: after /\
       ~ In (EvPrint (PStr "Logged in successfully")) before /\
       In (EvRun (ctx s) GetLocation) after /\
       In (EvPrint (PStr "Logged in successfully")) after) /\
  (forall url2 w3,
     headless = false ->
     runLocation (ctx s) (readLine w2) = (inr url2, w3) ->
     includes url2 challengePath = true ->
     exists tr,
       login s headless w =
         (Ret (Some "verification was not completed successfully"), w3, tr) /\
       In EvReadLine tr).
Proof.
  intros Hsub Hloc Hch. split.
  - intros w' tr. unfold login.
    cbv beta iota delta [mbind M_bind mret M_ret Println emit timeSleep].
    rewrite Hsub. unfold_run. rewrite Hloc. unfold_run. rewrite Hch.
    destruct headless; unfold_run; [intros Heq; inversion Heq|].
    destruct (runLocation (ctx s) (readLine w2)) as [[err|url2] w3] eqn:Hloc2; unfold_run;
      [intros Heq; inversion Heq|].
    destruct (includes url2 challengePath) eqn:Hch2; unfold_run;
      intros Heq; inversion Heq; subst.
    split; [reflexivity|]. split; [exists url2; split; [reflexivity|assumption]|].
    exists ([EvPrint (PStr "Logging user in...")] ++ ts ++
            [EvTimeSleep 1; EvRun (ctx s) GetLocation;
             EvPrint (PStr "\nSecurity verification required!");
             EvPrint (PStr "Please complete the verification puzzle in the browser window");
             EvPrint (PStr "\nPress Enter once you've completed the verification...")]),
           [EvRun (ctx s) GetLocation; EvPrint (PStr "Logged in successfully")].
    split; [|split; [|split]].
    + simpl. rewrite <- ?app_assoc. simpl. rewrite ?app_nil_r. reflexivity.
    + revert Hsub. clear. unfold submitLoginForm. exec; intros Heq; inversion Heq; subst.
      simpl. intuition discriminate.
    + simpl. tauto.
    + simpl. tauto.
  - intros url2 w3 -> Hloc2 Hch2. unfold login.
    cbv beta iota delta [mbind M_bind mret M_ret Println emit timeSleep].
    rewrite Hsub. unfold_run. rewrite Hloc. unfold_run. rewrite Hch. unfold_run.
    rewrite Hloc2. unfold_run. rewrite Hch2.
    eexists. split; [reflexivity|].
    rewrite !in_app_iff. simpl. tauto.
Qed.

(** [login] returns, and shows nothing of the orchestration. *)
Lemma login_run s headless w :
  exists e w' tr, login s headless w = (Ret e, w', tr) /\ observed tr = [].
Proof.
  unfold login. exec.
  all: repeat (match goal with
               | |- context [if ?b then _ else _] => destruct b eqn:?
               end; exec).
  all: eexists _, _, _; split; reflexivity.
Qed.

(** [NewScraper] returns a scraper and no error, or no scraper and an
    error, and shows nothing of the orchestration. *)
Lemma NewScraper_run e p u w :
  exists r w' tr,
    NewScraper e p u w = (Ret r, w', tr) /\ observed tr = [] /\
    ((exists s, r = (Some s, None)) \/ (exists err, r = (None, Some err))).
Proof.
  unfold NewScraper. unfold_run.
  repeat (world_call; unfold_run).
  match goal with |- context [login ?s ?h ?w0] =>
    destruct (login_run s h w0) as ([err|] & ? & ? & -> & Ho1) end; unfold_run.
  2: { eexists _, _, _. split; [reflexivity|]. split; [|left; eexists; reflexivity].
       unfold observed in *. rewrite !omap_app, Ho1. reflexivity. }
  destruct (includes err "verification"); unfold_run.
  2: { eexists _, _, _. split; [reflexivity|]. split; [|right; eexists; reflexivity].
       unfold observed in *. rewrite !omap_app, Ho1. reflexivity. }
  repeat (world_call; unfold_run).
  match goal with |- context [login ?s ?h ?w0] =>
    destruct (login_run s h w0) as ([err2|] & ? & ? & -> & Ho2) end;
    unfold_run; repeat (world_call; unfold_run).
  - eexists _, _, _. split; [reflexivity|]. split; [|right; eexists; reflexivity].
    unfold observed in *. rewrite !omap_app, Ho1, Ho2. reflexivity.
  - eexists _, _, _. split; [reflexivity|]. split; [|left; eexists; reflexivity].
    unfold observed in *. rewrite !omap_app, Ho1, Ho2. reflexivity.
Qed.

End LoginProperties.

(** ** The handler *)

Section HandlerRuns.
Context {W : Type} `{!Browser W} `{!GoLib}.

Lemma GetNameAndLocation_run s w :
  exists s' err w' tr,
    GetNameAndLocation (Some s) w = (Ret (s', err), w', tr) /\
    observed tr = [OStep "Getting name and location"] /\
    Posts (Profile s') = Posts (Profile s).
Proof.
  unfold GetNameAndLocation. exec; eexists _, _, _, _; repeat apply conj; reflexivity.
Qed.

Lemma GetRecentPosts_run s w :
  exists s' err w' tr,
    GetRecentPosts (Some s) w = (Ret (s', err), w', tr) /\
    observed tr = [OStep "Getting latest posts"].
Proof.
  unfold GetRecentPosts. exec; eexists _, _, _, _; repeat apply conj; reflexivity.
Qed.

Lemma GetExperiences_run s w :
  exists s' err w' tr,
    GetExperiences (Some s) w = (Ret (s', err), w', tr) /\
    observed tr = [OStep "Getting experience"] /\
    Posts (Profile s') = Posts (Profile s).
Proof.
  unfold GetExperiences. exec; eexists _, _, _, _; repeat apply conj; reflexivity.
Qed.

Lemma GetEducation_run s w :
  exists s' err w' tr,
    GetEducation (Some s) w = (Ret (s', err), w', tr) /\
    observed tr = [OStep "Getting education"] /\
    Posts (Profile s') = Posts (Profile s).
Proof.
  unfold GetEducation. exec; eexists _, _, _, _; repeat apply conj; reflexivity.
Qed.

Lemma observed_logged prefix err :
  observed (logged prefix err) =
  match err with Some e => [OLog (prefix +:+ e)] | None => [] end.
Proof. destruct err; reflexivity. Qed.

(** The gated block runs both of its steps, whatever the first returns. *)
Lemma fullExtraction_run s w :
  exists s1 e1 w1 t1 s2 e2 w2 t2,
    GetExperiences (Some s) w = (Ret (s1, e1), w1, t1) /\
    GetEducation (Some s1) w1 = (Ret (s2, e2), w2, t2) /\
    fullExtraction s w =
      (Ret s2, w2,
       t1 ++ logged "error while getting experiences: " e1 ++ t2 ++ surfaced e2) /\
    observed t1 = [OStep "Getting experience"] /\
    observed t2 = [OStep "Getting education"] /\
    Posts (Profile s2) = Posts (Profile s).
Proof.
  destruct (GetExperiences_run s w) as (s1 & e1 & w1 & t1 & H1 & Ho1 & Hp1).
  destruct (GetEducation_run s1 w1) as (s2 & e2 & w2 & t2 & H2 & Ho2 & Hp2).
  exists s1, e1, w1, t1, s2, e2, w2, t2.
  repeat apply conj; try assumption; [|congruence].
  unfold fullExtraction. cbv beta iota delta [mbind M_bind mret M_ret].
  rewrite H1. destruct e1 as [e1|]; unfold_run; rewrite H2;
    destruct e2 as [e2|]; unfold_run; simpl; rewrite ?app_nil_r; reflexivity.
Qed.

(** The end of the handler releases the session, prints the profile and
    writes at most one response. *)
Lemma respond_run srv s w :
  exists out w' tr rs,
    respond srv s w = (out, w', tr) /\
    observed tr = OClose :: OProfile (Profile s) :: rs /\
    ((rs = [] /\ out = Panic) \/
     (exists msg c, rs = [OResponse msg c] /\ out = Ret tt)).
Proof.
  unfold respond, GetMessage, GetUsedParams. unfold_run.
  repeat (more_calls; unfold_run).
  all: eexists _, _, _, _; split; [reflexivity|]; split; [reflexivity|].
  all: first [left; split; reflexivity | right; eexists _, _; split; reflexivity].
Qed.

(** The handler, once it holds a scraper: the run of its steps in order. *)
Lemma Home_run srv body w d s0 w0 t0 :
  DecodeReqBody body = inr d ->
  ValidEmail (Email d) = true ->
  NewScraper (Email d) (Password d) (LinkedinUrl d) w = (Ret (Some s0, None), w0, t0) ->
  exists s1 e1 w1 t1 s2 e2 w2 t2 s3 w3 t3 out wf t4,
    GetNameAndLocation (Some s0) w0 = (Ret (s1, e1), w1, t1) /\
    GetRecentPosts (Some s1) w1 = (Ret (s2, e2), w2, t2) /\
    (if (List.length (Posts (Profile s2)) <=? 2)%nat
     then fullExtraction s2 w2 else (Ret s2, w2, [])) = (Ret s3, w3, t3) /\
    respond srv s3 w3 = (out, wf, t4) /\
    Home srv body w =
      (out, wf,
       t0 ++ t1 ++ logged "error while getting name && location: " e1 ++
       t2 ++ logged "error while getting posts: " e2 ++
       [EvPrint (PLen (List.length (Posts (Profile s2))))] ++ t3 ++ t4) /\
    observed t1 = [OStep "Getting name and location"] /\
    observed t2 = [OStep "Getting latest posts"].
Proof.
  intros Hd Hv Hn.
  destruct (GetNameAndLocation_run s0 w0) as (s1 & e1 & w1 & t1 & H1 & Ho1 & _).
  destruct (GetRecentPosts_run s1 w1) as (s2 & e2 & w2 & t2 & H2 & Ho2).
  assert (Hgate : exists s3 w3 t3,
    (if (List.length (Posts (Profile s2)) <=? 2)%nat
     then fullExtraction s2 w2 else (Ret s2, w2, [])) = (Ret s3, w3, t3)).
  { destruct (_ <=? _)%nat; [|eexists _, _, _; reflexivity].
    destruct (fullExtraction_run s2 w2) as (? & ? & ? & ? & ? & ? & ? & ? & _ & _ & Hf & _).
    rewrite Hf. eexists _, _, _; reflexivity. }
  destruct Hgate as (s3 & w3 & t3 & Hg).
  destruct (respond_run srv s3 w3) as (out & wf & t4 & rs & H4 & _).
  exists s1, e1, w1, t1, s2, e2, w2, t2, s3, w3, t3, out, wf, t4.
  repeat apply conj; try assumption.
  unfold Home. rewrite Hd, Hv. cbv beta iota delta [negb mbind M_bind mret M_ret].
  rewrite Hn. cbv beta iota delta [logIfError mret M_ret]. rewrite H1.
  destruct e1 as [e1|]; unfold_run; rewrite H2;
    destruct e2 as [e2|]; unfold_run.
  all: destruct (_ <=? _)%nat;
    [unfold_run; rewrite Hg | inversion Hg; subst; unfold_run];
    rewrite H4; simpl; rewrite <- ?app_assoc; simpl; rewrite ?app_nil_r; reflexivity.
Qed.

End HandlerRuns.

Section Orchestration.
Context {W : Type} `{!Browser W} `{!GoLib}.

Lemma observed_In e o tr : In e tr -> observe e = Some o -> In o (observed tr).
Proof.
  intros Hin Ho. apply list_elem_of_In. unfold observed.
  apply list_elem_of_omap. exists e. split; [by apply list_elem_of_In|assumption].
Qed.

(** The two early returns of the handler. *)
Lemma Home_undecodable srv body w e :
  DecodeReqBody body = inl e ->
  Home srv body w =
    (Ret tt, w, [EvWriteResponse (TextBody "Encountered an error. Please try again") 500]).
Proof. intros He. unfold Home. rewrite He. reflexivity. Qed.

Lemma Home_invalid_email srv body w d :
  DecodeReqBody body = inr d ->
  ValidEmail (Email d) = false ->
  Home srv body w = (Ret tt, w, [EvWriteResponse (TextBody "invalid email") 400]).
Proof. intros Hd Hv. unfold Home. rewrite Hd, Hv. reflexivity. Qed.

(** C10: a request whose body does not decode is answered with a server
    error, and one whose e-mail address does not parse with a bad request;
    in both cases the handler returns at once: the response is its only
    event, the world is untouched, no session is opened and no command
    reaches a browser. *)
Theorem invalid_request_opens_no_session srv body w :
  (forall e,
     DecodeReqBody body = inl e ->
     let tr := [EvWriteResponse (TextBody "Encountered an error. Please try again") 500] in
     Home srv body w = (Ret tt, w, tr) /\
     statusReceived tr = Some 500 /\ sessionsOpened tr = 0 /\ browserCommands tr = []) /\
  (forall d,
     DecodeReqBody body = inr d ->
     ValidEmail (Email d) = false ->
     let tr := [EvWriteResponse (TextBody "invalid email") 400] in
     Home srv body w = (Ret tt, w, tr) /\
     statusReceived tr = Some 400 /\ sessionsOpened tr = 0 /\ browserCommands tr = []).
Proof.
  split.
  - intros e He tr. split; [by eapply Home_undecodable|]. repeat split.
  - intros d Hd Hv tr. split; [by eapply Home_invalid_email|]. repeat split.
Qed.

(** The handler when [NewScraper] returns its error: it logs the error and
    goes on to the identity step with the nil scraper, which panics at its
    first field access; no response is written. *)
Lemma Home_after_failed_login srv body w d err w0 t0 :
  DecodeReqBody body = inr d ->
  ValidEmail (Email d) = true ->
  NewScraper (Email d) (Password d) (LinkedinUrl d) w = (Ret (None, Some err), w0, t0) ->
  Home srv body w =
    (Panic, w0,
     t0 ++ [EvLog ("error while getting posts: " +:+ err);
            EvPrint (PStr "Getting name and location")]).
Proof.
  intros Hd Hv Hn. unfold Home. rewrite Hd, Hv.
  cbv beta iota delta [negb mbind M_bind mret M_ret]. rewrite Hn.
  unfold GetNameAndLocation. unfold_run. reflexivity.
Qed.

(** What the handler shows once it holds a scraper. *)
Lemma Home_observed srv body w d s0 w0 t0 :
  DecodeReqBody body = inr d ->
  ValidEmail (Email d) = true ->
  NewScraper (Email d) (Password d) (LinkedinUrl d) w = (Ret (Some s0, None), w0, t0) ->
  observed t0 = [] ->
  exists out wf tr e1 e2 e3 e4 n p rs,
    Home srv body w = (out, wf, tr) /\
    observed tr =
      OStep "Getting name and location"
      :: observed (logged "error while getting name && location: " e1) ++
      OStep "Getting latest posts"
      :: observed (logged "error while getting posts: " e2) ++
      OCount n
      :: (if (n <=? 2)%nat
          then OStep "Getting experience"
               :: observed (logged "error while getting experiences: " e3) ++
               OStep "Getting education" :: observed (surfaced e4)
          else []) ++
      OClose :: OProfile p :: rs /\
    List.length (Posts p) = n /\
    (rs = [] \/ exists msg c, rs = [OResponse msg c]).
Proof.
  intros Hd Hv Hn Ho0.
  destruct (Home_run srv body w d s0 w0 t0 Hd Hv Hn)
    as (s1 & e1 & w1 & t1 & s2 & e2 & w2 & t2 & s3 & w3 & t3 & out & wf & t4 &
        H1 & H2 & Hg & H4 & HH & Ho1 & Ho2).
  destruct (respond_run srv s3 w3) as (out' & wf' & t4' & rs & H4' & Ho4 & Hrs).
  rewrite H4 in H4'. inversion H4'; subst out' wf' t4'. clear H4'.
  destruct (List.length (Posts (Profile s2)) <=? 2)%nat eqn:Hle.
  - destruct (fullExtraction_run s2 w2)
      as (s1' & e3 & w1' & t31 & s2' & e4 & w2' & t32 & _ & _ & Hf & Ho31 & Ho32 & Hp).
    rewrite Hf in Hg. inversion Hg; subst s3 w3 t3. clear Hg.
    eexists out, wf, _, e1, e2, e3, e4, (List.length (Posts (Profile s2))), (Profile s2'), rs.
    split; [exact HH|]. rewrite Hle. split; [|split].
    + unfold observed in *. rewrite !omap_app, Ho0, Ho1, Ho2, Ho31, Ho32, Ho4.
      simpl. rewrite <- ?app_assoc. reflexivity.
    + by rewrite Hp.
    + destruct Hrs as [[-> _]|(m & c & -> & _)]; eauto.
  - inversion Hg; subst s3 w3 t3. clear Hg.
    eexists out, wf, _, e1, e2, None, None, (List.length (Posts (Profile s2))), (Profile s2), rs.
    split; [exact HH|]. rewrite Hle. split; [|split].
    + unfold observed in *. rewrite !omap_app, Ho0, Ho1, Ho2, Ho4.
      simpl. rewrite <- ?app_assoc. reflexivity.
    + reflexivity.
    + destruct Hrs as [[-> _]|(m & c & -> & _)]; eauto.
Qed.

(** C1, as the handler has it: whenever the handler reaches the print of the
    post count [n], the extraction steps started during the request are the
    identity step and the Posts step, in that order and whatever [n] is,
    followed by the experience step and the education step if and only if
    [n <= 2]; and [n] is the number of posts of the profile the handler goes
    on with. *)
Theorem Home_gate_on_post_count srv body w out wf tr n :
  Home srv body w = (out, wf, tr) ->
  In (EvPrint (PLen n)) tr ->
  stepsStarted tr =
    ["Getting name and location"; "Getting latest posts"] ++
    (if (n <=? 2)%nat then ["Getting experience"; "Getting education"] else []) /\
  stepsAfterPosts tr =
    (if (n <=? 2)%nat then ["Getting experience"; "Getting education"] else []) /\
  exists p, In (EvPrint (PProfile p)) tr /\ List.length (Posts p) = n.
Proof.
  intros HH Hin.
  pose proof (observed_In _ _ _ Hin eq_refl) as Hobs.
  destruct (DecodeReqBody body) as [e|d] eqn:Hd.
  { rewrite (Home_undecodable srv body w e Hd) in HH.
    inversion HH; subst. simpl in Hobs. intuition discriminate. }
  destruct (ValidEmail (Email d)) eqn:Hv.
  2: { rewrite (Home_invalid_email srv body w d Hd Hv) in HH.
       inversion HH; subst. simpl in Hobs. intuition discriminate. }
  destruct (NewScraper_run (Email d) (Password d) (LinkedinUrl d) w)
    as (r & w0 & t0 & Hn & Ho0 & [[s0 ->]|[err ->]]).
  2: { rewrite (Home_after_failed_login srv body w d err w0 t0 Hd Hv Hn) in HH.
       inversion HH; subst. unfold observed in Hobs. rewrite omap_app in Hobs.
       fold (observed t0) in Hobs. rewrite Ho0 in Hobs. simpl in Hobs.
       intuition discriminate. }
  destruct (Home_observed srv body w d s0 w0 t0 Hd Hv Hn Ho0)
    as (out' & wf' & tr' & e1 & e2 & e3 & e4 & n0 & p & rs & HH' & Hshape & Hp & Hrs).
  rewrite HH in HH'. inversion HH'; subst out' wf' tr'. clear HH'.
  assert (Hn0 : n = n0).
  { rewrite Hshape in Hobs.
    destruct e1, e2, e3, e4, (n0 <=? 2)%nat, Hrs as [->|(m & c & ->)];
      simpl in Hobs; intuition congruence. }
  rewrite <- Hn0 in Hshape, Hp. clear Hn0 n0 Hobs. split; [|split].
  - unfold stepsStarted. rewrite Hshape.
    destruct e1, e2, e3, e4, (n <=? 2)%nat, Hrs as [->|(m & c & ->)]; reflexivity.
  - unfold stepsAfterPosts, stepsStarted. rewrite Hshape.
    destruct e1, e2, e3, e4, (n <=? 2)%nat, Hrs as [->|(m & c & ->)]; reflexivity.
  - exists p. split; [|assumption].
    assert (Hop : In (OProfile p) (observed tr)).
    { rewrite Hshape.
      destruct e1, e2, e3, e4, (n <=? 2)%nat; simpl;
        rewrite ?in_app_iff; simpl; tauto. }
    unfold observed in Hop. apply list_elem_of_In, list_elem_of_omap in Hop.
    destruct Hop as (e & He & Hoe). apply list_elem_of_In in He.
    destruct e as [[| | |]| | | | | | | | | | |]; simpl in Hoe; try discriminate.
    + destruct (_ || _); discriminate.
    + inversion Hoe; subst. assumption.
Qed.

End Orchestration.

Section Failures.
Context {W : Type} `{!Browser W} `{!GoLib}.

Lemma responses_app a b : responses (a ++ b) = responses a ++ responses b.
Proof. unfold responses, observed. by rewrite !omap_app. Qed.

Lemma responses_logged prefix e : responses (logged prefix e) = [].
Proof. destruct e; reflexivity. Qed.

Lemma responses_of_observed tr l :
  observed tr = l ->
  responses tr = omap (fun o => match o with OResponse msg c => Some (msg, c) | _ => None end) l.
Proof. intros <-. reflexivity. Qed.

(** C6: in a request that holds a scraper, the identity step and the Posts
    step run whatever they return, and with at most 2 posts the experience
    step and then the education step run, each from the world its
    predecessor left, whatever error the predecessor returned.  An error of
    the identity, Posts or experience step only adds a log line: no response
    is written before the education step has returned ([before]).  An error
    of the education step adds a log line and the server-error response,
    which fixes the status the client receives at 500; the handler then goes
    on ([respond]).  Without an education error the responses are those of
    the end of the handler. *)
Theorem step_failures_do_not_block srv body w d s0 w0 t0 :
  DecodeReqBody body = inr d ->
  ValidEmail (Email d) = true ->
  NewScraper (Email d) (Password d) (LinkedinUrl d) w = (Ret (Some s0, None), w0, t0) ->
  exists s1 e1 w1 t1 s2 e2 w2 t2,
    GetNameAndLocation (Some s0) w0 = (Ret (s1, e1), w1, t1) /\
    GetRecentPosts (Some s1) w1 = (Ret (s2, e2), w2, t2) /\
    (List.length (Posts (Profile s2)) <= 2 ->
     exists s3 e3 w3 t3 s4 e4 w4 t4 out wf t5,
       GetExperiences (Some s2) w2 = (Ret (s3, e3), w3, t3) /\
       GetEducation (Some s3) w3 = (Ret (s4, e4), w4, t4) /\
       respond srv s4 w4 = (out, wf, t5) /\
       let before :=
         t0 ++ t1 ++ logged "error while getting name && location: " e1 ++
         t2 ++ logged "error while getting posts: " e2 ++
         [EvPrint (PLen (List.length (Posts (Profile s2))))] ++
         t3 ++ logged "error while getting experiences: " e3 ++ t4 in
       Home srv body w = (out, wf, before ++ surfaced e4 ++ t5) /\
       responses before = [] /\
       (e4 <> None -> statusReceived (before ++ surfaced e4 ++ t5) = Some 500) /\
       (e4 = None -> responses (before ++ surfaced e4 ++ t5) = responses t5)).
Proof.
  intros Hd Hv Hn.
  assert (Ho0 : observed t0 = []).
  { destruct (NewScraper_run (Email d) (Password d) (LinkedinUrl d) w)
      as (r & w0' & t0' & Hn' & Ho0 & _).
    rewrite Hn in Hn'. inversion Hn'; subst. assumption. }
  destruct (Home_run srv body w d s0 w0 t0 Hd Hv Hn)
    as (s1 & e1 & w1 & t1 & s2 & e2 & w2 & t2 & s3 & w3 & t3 & out & wf & t4 &
        H1 & H2 & Hg & H4 & HH & Ho1 & Ho2).
  exists s1, e1, w1, t1, s2, e2, w2, t2. split; [assumption|]. split; [assumption|].
  intros Hle. apply Nat.leb_le in Hle. rewrite Hle in Hg.
  destruct (fullExtraction_run s2 w2)
    as (s3' & e3 & w3' & t31 & s4 & e4 & w4 & t32 & H31 & H32 & Hf & Ho31 & Ho32 & _).
  rewrite Hf in Hg. inversion Hg; subst s3 w3 t3. clear Hg.
  exists s3', e3, w3', t31, s4, e4, w4, t32, out, wf, t4.
  split; [assumption|]. split; [assumption|]. split; [assumption|].
  intros before.
  assert (Hbefore : responses before = []).
  { subst before. rewrite !responses_app, !responses_logged.
    rewrite (responses_of_observed _ _ Ho0), (responses_of_observed _ _ Ho1),
      (responses_of_observed _ _ Ho2), (responses_of_observed _ _ Ho31),
      (responses_of_observed _ _ Ho32). reflexivity. }
  split; [|split; [assumption|split]].
  - rewrite HH. subst before. f_equal. rewrite <- !app_assoc. reflexivity.
  - intros He4. unfold statusReceived. rewrite !responses_app, Hbefore.
    destruct e4 as [e|]; [reflexivity|congruence].
  - intros ->. rewrite !responses_app, Hbefore. reflexivity.
Qed.

End Failures.

(** ** The parameters used *)

Lemma usedParamsLoop_filter visited :
  usedParamsLoop visited =
  map fst (List.filter (fun entry : string * (unit -> bool) => snd entry tt) visited).
Proof.
  unfold usedParamsLoop.
  assert (Hgen : forall acc,
    fold_left
      (fun (paramsUsed : list string) (entry : string * (unit -> bool)) =>
         let '(param, check) := entry in
         if check tt then paramsUsed ++ [param] else paramsUsed) visited acc =
    acc ++ map fst (List.filter (fun entry : string * (unit -> bool) => snd entry tt) visited)).
  { induction visited as [|[param check] visited IH]; intros acc; simpl.
    - by rewrite app_nil_r.
    - rewrite IH. destruct (check tt); simpl; [by rewrite <- app_assoc|reflexivity]. }
  apply (Hgen []).
Qed.

(** The entries of the map literal. *)
Lemma checks_entries profile :
  Permutation (map_to_list (checks profile))
    [("Posts", fun _ : unit => (0 <? List.length (Posts profile))%nat);
     ("Experience", fun _ : unit => (0 <? List.length (ExperienceList profile))%nat);
     ("Education", fun _ : unit => (0 <? List.length (EducationList profile))%nat);
     ("Location", fun _ : unit => negb (String.eqb (Location profile) ""));
     ("Name", fun _ : unit => negb (String.eqb (Name profile) ""))].
Proof.
  unfold checks. apply map_to_list_to_map. simpl.
  repeat (apply NoDup_cons_2;
          [rewrite ?elem_of_cons, elem_of_nil; intuition discriminate|]).
  apply NoDup_nil_2.
Qed.

Lemma NoDup_keys_filter {V} (p : string * V -> bool) (l : list (string * V)) :
  NoDup (map fst l) -> NoDup (map fst (List.filter p l)).
Proof.
  induction l as [|kv l IH]; simpl; [constructor|].
  intros Hnd. apply NoDup_cons in Hnd as [Hnotin Hnd].
  destruct (p kv); simpl; [|by apply IH].
  apply NoDup_cons_2; [|by apply IH].
  intros Hin. apply Hnotin.
  apply list_elem_of_In in Hin. apply list_elem_of_In.
  apply in_map_iff in Hin as (x & Hx & Hin). apply filter_In in Hin as [Hin _].
  apply in_map_iff. eauto.
Qed.

Lemma nonempty_length {A} (l : list A) : (0 <? List.length l)%nat = true <-> l <> [].
Proof.
  destruct l; simpl; split; intros Hl;
    first [discriminate | reflexivity | exfalso; by apply Hl].
Qed.

Lemma nonempty_string (s : string) : negb (String.eqb s "") = true <-> s <> "".
Proof.
  destruct (String.eqb_spec s ""); simpl; split; intros Hs;
    first [discriminate | reflexivity | assumption | exfalso; by apply Hs].
Qed.

(** C9: the parameters the handler reports hold no label twice and are
    exactly the labels among Posts, Experience, Education, Location and Name
    whose part of the profile is not empty; Experience is among them if and
    only if the experience list is not empty.  Their order is the one in
    which the runtime ranges over the map, which no rule fixes: two worlds
    give the same labels in different orders. *)
Theorem GetUsedParams_labels :
  (forall (W : Type) (B : Browser W) (profile : ProfileData) (w : W),
     exists params w',
       GetUsedParams profile w = (Ret params, w', []) /\
       NoDup params /\
       (forall label,
          In label params <->
          (label = "Posts" /\ Posts profile <> []) \/
          (label = "Experience" /\ ExperienceList profile <> []) \/
          (label = "Education" /\ EducationList profile <> []) \/
          (label = "Location" /\ Location profile <> "") \/
          (label = "Name" /\ Name profile <> "")) /\
       (In "Experience" params <-> ExperienceList profile <> [])) /\
  (exists profile w1 w2,
     GetUsedParams profile w1 = (Ret ["Name"; "Location"], w1, []) /\
     GetUsedParams (W:=Fixture.World) profile w2 = (Ret ["Location"; "Name"], w2, [])).
Proof.
  split.
  - intros W B profile w.
    pose proof (mapRange_perm (map_to_list (checks profile)) w) as Hperm.
    unfold GetUsedParams. unfold_run.
    destruct (mapRange (map_to_list (checks profile)) w) as [visited w'] eqn:Hrange.
    simpl in Hperm. exists (usedParamsLoop visited), w'.
    split; [reflexivity|].
    assert (Hvisited : Permutation visited _)
      by (etransitivity; [symmetry; exact Hperm|apply checks_entries]).
    rewrite usedParamsLoop_filter.
    assert (Hlabels : forall label,
      In label (map fst (List.filter (fun entry : string * (unit -> bool) => snd entry tt) visited)) <->
      (label = "Posts" /\ Posts profile <> []) \/
      (label = "Experience" /\ ExperienceList profile <> []) \/
      (label = "Education" /\ EducationList profile <> []) \/
      (label = "Location" /\ Location profile <> "") \/
      (label = "Name" /\ Name profile <> "")).
    { intros label. rewrite in_map_iff. split.
      - intros ([k check] & Hk & Hin). simpl in Hk. subst k.
        apply filter_In in Hin as [Hin Hcheck]. simpl in Hcheck.
        apply (Permutation_in _ Hvisited) in Hin. simpl in Hin.
        destruct Hin as [Heq|[Heq|[Heq|[Heq|[Heq|[]]]]]]; inversion Heq; subst; clear Heq.
        + left. split; [reflexivity|by apply nonempty_length].
        + right; left. split; [reflexivity|by apply nonempty_length].
        + right; right; left. split; [reflexivity|by apply nonempty_length].
        + right; right; right; left. split; [reflexivity|by apply nonempty_string].
        + right; right; right; right. split; [reflexivity|by apply nonempty_string].
      - intros Hcase.
        assert (Hentry : exists check : unit -> bool,
          In (label, check) visited /\ check tt = true).
        { destruct Hcase as [[-> Hne]|[[-> Hne]|[[-> Hne]|[[-> Hne]|[-> Hne]]]]];
            eexists; (split; [apply (Permutation_in _ (Permutation_sym Hvisited)); simpl|]).
          1: left; reflexivity. 1: by apply nonempty_length.
          1: right; left; reflexivity. 1: by apply nonempty_length.
          1: right; right; left; reflexivity. 1: by apply nonempty_length.
          1: right; right; right; left; reflexivity. 1: by apply nonempty_string.
          1: right; right; right; right; left; reflexivity. by apply nonempty_string. }
        destruct Hentry as (check & Hin & Hcheck).
        exists (label, check). split; [reflexivity|].
        apply filter_In. split; assumption. }
    split; [|split; [exact Hlabels|]].
    + apply NoDup_keys_filter. apply NoDup_ListNoDup.
      apply (Permutation_NoDup (l := map fst
        [("Posts", fun _ : unit => (0 <? List.length (Posts profile))%nat);
         ("Experience", fun _ : unit => (0 <? List.length (ExperienceList profile))%nat);
         ("Education", fun _ : unit => (0 <? List.length (EducationList profile))%nat);
         ("Location", fun _ : unit => negb (String.eqb (Location profile) ""));
         ("Name", fun _ : unit => negb (String.eqb (Name profile) ""))])).
      * apply Permutation_map. symmetry. exact Hvisited.
      * apply NoDup_ListNoDup. simpl. repeat (apply NoDup_cons_2;
          [rewrite ?elem_of_cons, elem_of_nil; intuition discriminate|]).
        apply NoDup_nil_2.
    + rewrite Hlabels. split.
      * intros [[Heq _]|[[_ Hne]|[[Heq _]|[[Heq _]|[Heq _]]]]];
          first [discriminate | assumption].
      * intros Hne. right; left. split; [reflexivity|assumption].
  - exists (mkProfile "Ann" "Pune" "" [] [] []), (Fixture.mkWorld [] false),
      (Fixture.mkWorld [] true).
    split; vm_compute; reflexivity.
Qed.

(** ** The earlier handler *)

Section EarlierHandler.
Context {W : Type} `{!Browser W} `{!GoLib}.

(** What the earlier handler shows once it holds a scraper. *)
Lemma Previous_Home_observed srv body w d s0 w0 t0 :
  DecodeReqBody body = inr d ->
  ValidEmail (Email d) = true ->
  NewScraper (Email d) (Password d) (LinkedinUrl d) w = (Ret (Some s0, None), w0, t0) ->
  observed t0 = [] ->
  exists out wf tr e2 e1 e3 e4 n p,
    Previous.Home srv body w = (out, wf, tr) /\
    observed tr =
      OStep "Getting latest posts"
      :: observed (logged "error while getting posts: " e2) ++
      OCount n
      :: (if (n <=? 2)%nat
          then OStep "Getting name and location"
               :: observed (logged "error while getting name && location: " e1) ++
               OStep "Getting experience"
               :: observed (logged "error while getting experiences: " e3) ++
               OStep "Getting education" :: observed (surfaced e4)
          else []) ++
      [OClose; OProfile p; OResponse (MsgBody "Hello") 200] /\
    List.length (Posts p) = n.
Proof.
  intros Hd Hv Hn Ho0.
  destruct (GetRecentPosts_run s0 w0) as (s2 & e2 & w2 & t2 & H2 & Ho2).
  destruct (GetNameAndLocation_run s2 w2) as (s1 & e1 & w1 & t1 & H1 & Ho1 & Hp1).
  destruct (GetExperiences_run s1 w1) as (s3 & e3 & w3 & t3 & H3 & Ho3 & Hp3).
  destruct (GetEducation_run s3 w3) as (s4 & e4 & w4 & t4 & H4 & Ho4 & Hp4).
  destruct (List.length (Posts (Profile s2)) <=? 2)%nat eqn:Hle.
  - exists (Ret tt), (cancelContext (cancel s4) w4),
      (t0 ++ t2 ++ logged "error while getting posts: " e2 ++
       [EvPrint (PLen (List.length (Posts (Profile s2))))] ++
       t1 ++ logged "error while getting name && location: " e1 ++
       t3 ++ logged "error while getting experiences: " e3 ++
       t4 ++ surfaced e4 ++
       [EvGo (cancel s4); EvCancel (cancel s4); EvPrint (PProfile (Profile s4));
        EvWriteResponse (MsgBody "Hello") 200]),
      e2, e1, e3, e4, (List.length (Posts (Profile s2))), (Profile s4).
    split; [|split].
    + unfold Previous.Home. rewrite Hd, Hv.
      cbv beta iota delta [negb mbind M_bind mret M_ret]. rewrite Hn.
      cbv beta iota delta [logIfError mret M_ret]. rewrite H2.
      destruct e2; unfold_run; rewrite Hle; unfold Previous.fullExtraction;
        cbv beta iota delta [mbind M_bind mret M_ret]; rewrite H1;
        destruct e1; unfold_run; rewrite H3; destruct e3; unfold_run; rewrite H4;
        destruct e4; unfold_run; same_trace.
    + rewrite Hle.
      destruct e2, e1, e3, e4; unfold observed in *;
        rewrite ?omap_app, ?Ho0, ?Ho1, ?Ho2, ?Ho3, ?Ho4; reflexivity.
    + congruence.
  - exists (Ret tt), (cancelContext (cancel s2) w2),
      (t0 ++ t2 ++ logged "error while getting posts: " e2 ++
       [EvPrint (PLen (List.length (Posts (Profile s2))));
        EvGo (cancel s2); EvCancel (cancel s2); EvPrint (PProfile (Profile s2));
        EvWriteResponse (MsgBody "Hello") 200]),
      e2, None, None, None, (List.length (Posts (Profile s2))), (Profile s2).
    split; [|split].
    + unfold Previous.Home. rewrite Hd, Hv.
      cbv beta iota delta [negb mbind M_bind mret M_ret]. rewrite Hn.
      cbv beta iota delta [logIfError mret M_ret]. rewrite H2.
      destruct e2; unfold_run; rewrite Hle; unfold_run; same_trace.
    + rewrite Hle.
      destruct e2; unfold observed in *;
        rewrite ?omap_app, ?Ho0, ?Ho2; reflexivity.
    + reflexivity.
Qed.

(** The earlier handler has the gate as the specification words it: the
    identity step is behind it, with the experience and education steps. *)
Lemma Previous_Home_gate srv body w out wf tr n :
  Previous.Home srv body w = (out, wf, tr) ->
  In (EvPrint (PLen n)) tr ->
  gateAsSpecified tr n.
Proof.
  intros HH Hin.
  pose proof (observed_In _ _ _ Hin eq_refl) as Hobs.
  destruct (DecodeReqBody body) as [e|d] eqn:Hd.
  { unfold Previous.Home in HH. rewrite Hd in HH.
    inversion HH; subst. simpl in Hobs. intuition discriminate. }
  destruct (ValidEmail (Email d)) eqn:Hv.
  2: { unfold Previous.Home in HH. rewrite Hd, Hv in HH.
       inversion HH; subst. simpl in Hobs. intuition discriminate. }
  destruct (NewScraper_run (Email d) (Password d) (LinkedinUrl d) w)
    as (r & w0 & t0 & Hn & Ho0 & [[s0 ->]|[err ->]]).
  2: { unfold Previous.Home in HH. rewrite Hd, Hv in HH.
       cbv beta iota delta [negb mbind M_bind mret M_ret] in HH. rewrite Hn in HH.
       unfold GetRecentPosts in HH.
       cbv beta iota delta [logIfError logPrintf emit Println deref panic
                            mbind M_bind mret M_ret] in HH.
       inversion HH; subst. unfold observed in Hobs. rewrite omap_app in Hobs.
       fold (observed t0) in Hobs. rewrite Ho0 in Hobs. simpl in Hobs.
       intuition discriminate. }
  destruct (Previous_Home_observed srv body w d s0 w0 t0 Hd Hv Hn Ho0)
    as (out' & wf' & tr' & e2 & e1 & e3 & e4 & n0 & p & HH' & Hshape & _).
  rewrite HH in HH'. inversion HH'; subst out' wf' tr'. clear HH'.
  assert (Hn0 : n = n0).
  { rewrite Hshape in Hobs.
    destruct e1, e2, e3, e4, (n0 <=? 2)%nat; simpl in Hobs; intuition congruence. }
  subst n0. unfold gateAsSpecified, stepsAfterPosts, stepsStarted. rewrite Hshape.
  destruct e1, e2, e3, e4, (n <=? 2)%nat; reflexivity.
Qed.

End EarlierHandler.

(** ** The program on concrete requests *)

Lemma Home_gate_on_post_count_witness :
  exists out wf tr,
    Home (mkServer "key") "a@b.c"
      (Fixture.requestWorld [Fixture.original "one"] Fixture.gatedReplies) = (out, wf, tr) /\
    In (EvPrint (PLen 1)) tr /\
    stepsStarted tr =
      ["Getting name and location"; "Getting latest posts";
       "Getting experience"; "Getting education"].
Proof.
  destruct (Home (mkServer "key") "a@b.c"
              (Fixture.requestWorld [Fixture.original "one"] Fixture.gatedReplies))
    as [[out wf] tr] eqn:Hrun.
  assert (Hin : In (EvPrint (PLen 1)) tr).
  { vm_compute in Hrun. inversion Hrun. simpl. tauto. }
  exists out, wf, tr. split; [reflexivity|]. split; [exact Hin|].
  exact (proj1 (Home_gate_on_post_count _ _ _ _ _ _ _ Hrun Hin)).
Defined.

(** C1 as the specification words it fails on the handler: with no post,
    the steps after the Posts step are the experience and education steps,
    without the identity step; and with three posts the identity step has
    run all the same, before the Posts step. *)
Lemma Home_gate_leaves_identity_outside :
  (exists out wf tr,
     Home (mkServer "key") "a@b.c" (Fixture.requestWorld [] Fixture.gatedReplies)
       = (out, wf, tr) /\
     In (EvPrint (PLen 0)) tr /\
     stepsAfterPosts tr = ["Getting experience"; "Getting education"] /\
     ~ gateAsSpecified tr 0) /\
  (exists out wf tr,
     Home (mkServer "key") "a@b.c"
       (Fixture.requestWorld
          [Fixture.original "one"; Fixture.original "two"; Fixture.original "three"] [])
       = (out, wf, tr) /\
     In (EvPrint (PLen 3)) tr /\
     stepsStarted tr = ["Getting name and location"; "Getting latest posts"]).
Proof.
  split.
  - eexists _, _, _. split; [vm_compute; reflexivity|].
    split; [simpl; tauto|]. split; [reflexivity|].
    unfold gateAsSpecified. vm_compute. discriminate.
  - eexists _, _, _. split; [vm_compute; reflexivity|].
    split; [simpl; tauto|]. reflexivity.
Qed.

(** C2, on the code: a request whose login meets the challenge and still
    sees it after the human signal, in the first session and in the visible
    one.  [NewScraper] returns no scraper and the authentication error; the
    handler logs it, starts the identity step on the nil scraper and panics
    there.  It writes no response, and sends no command to a browser after
    the login. *)
Theorem Home_panics_after_failed_verification :
  let w := Fixture.world (Fixture.unresolvedChallenge ++ Fixture.unresolvedChallenge) in
  exists w0 t0,
    NewScraper "a@b.c" "secret" "https://www.linkedin.com/in/someone" w =
      (Ret (None,
            Some ("failed to login even with verification: " +:+
                  "verification was not completed successfully")), w0, t0) /\
    Home (mkServer "key") "a@b.c" w =
      (Panic, w0,
       t0 ++ [EvLog ("error while getting posts: " +:+
                     "failed to login even with verification: " +:+
                     "verification was not completed successfully");
              EvPrint (PStr "Getting name and location")]) /\
    responses (t0 ++ [EvLog ("error while getting posts: " +:+
                             "failed to login even with verification: " +:+
                             "verification was not completed successfully");
                      EvPrint (PStr "Getting name and location")]) = [] /\
    stepsStarted (t0 ++ [EvLog ("error while getting posts: " +:+
                                "failed to login even with verification: " +:+
                                "verification was not completed successfully");
                         EvPrint (PStr "Getting name and location")])
      = ["Getting name and location"].
Proof.
  intros w. eexists _, _. split; [vm_compute; reflexivity|].
  split; [vm_compute; reflexivity|]. split; vm_compute; reflexivity.
Qed.

Lemma login_challenge_passes_through_wait_witness :
  (exists tr,
     login Fixture.sample false (Fixture.world Fixture.unresolvedChallenge) =
       (Ret (Some "verification was not completed successfully"), Fixture.world [], tr) /\
     In EvReadLine tr) /\
  (exists url2,
     runLocation (ctx Fixture.sample)
       (readLine (Fixture.world [Fixture.Str "https://www.linkedin.com/feed/"]))
     = (inr url2, Fixture.world []) /\
     includes url2 challengePath = false).
Proof.
  assert (Hch : includes Fixture.challengeAddress challengePath = true)
    by (vm_compute; reflexivity).
  split.
  - assert (Hsub :
      Run (ctx Fixture.sample) (submitLoginForm Fixture.sample)
        (Fixture.world Fixture.unresolvedChallenge)
      = (Ret (inr tt),
         Fixture.world [Fixture.Str Fixture.challengeAddress;
                        Fixture.Str Fixture.challengeAddress],
         [EvRun 1 (Navigate "https://www.linkedin.com/login");
          EvRun 1 (WaitVisible "input[name=session_key]");
          EvRun 1 (SendKeys "input[name=session_key]" "a@b.c");
          EvRun 1 (SendKeys "input[name=session_password]" "secret");
          EvRun 1 (Click "button[type=submit]")]))
      by (vm_compute; reflexivity).
    assert (Hloc :
      runLocation (ctx Fixture.sample)
        (Fixture.world [Fixture.Str Fixture.challengeAddress;
                        Fixture.Str Fixture.challengeAddress])
      = (inr Fixture.challengeAddress,
         Fixture.world [Fixture.Str Fixture.challengeAddress]))
      by reflexivity.
    exact (proj2 (login_challenge_passes_through_wait _ false _ _ _ _ _ Hsub Hloc Hch)
             Fixture.challengeAddress (Fixture.world []) eq_refl eq_refl Hch).
  - assert (Hsub :
      Run (ctx Fixture.sample) (submitLoginForm Fixture.sample)
        (Fixture.world [Fixture.Done; Fixture.Done; Fixture.Done; Fixture.Done;
                        Fixture.Done; Fixture.Str Fixture.challengeAddress;
                        Fixture.Str "https://www.linkedin.com/feed/"])
      = (Ret (inr tt),
         Fixture.world [Fixture.Str Fixture.challengeAddress;
                        Fixture.Str "https://www.linkedin.com/feed/"],
         [EvRun 1 (Navigate "https://www.linkedin.com/login");
          EvRun 1 (WaitVisible "input[name=session_key]");
          EvRun 1 (SendKeys "input[name=session_key]" "a@b.c");
          EvRun 1 (SendKeys "input[name=session_password]" "secret");
          EvRun 1 (Click "button[type=submit]")]))
      by (vm_compute; reflexivity).
    assert (Hloc :
      runLocation (ctx Fixture.sample)
        (Fixture.world [Fixture.Str Fixture.challengeAddress;
                        Fixture.Str "https://www.linkedin.com/feed/"])
      = (inr Fixture.challengeAddress,
         Fixture.world [Fixture.Str "https://www.linkedin.com/feed/"]))
      by reflexivity.
    assert (Hrun :
      login Fixture.sample false
        (Fixture.world [Fixture.Done; Fixture.Done; Fixture.Done; Fixture.Done;
                        Fixture.Done; Fixture.Str Fixture.challengeAddress;
                        Fixture.Str "https://www.linkedin.com/feed/"])
      = (Ret None, Fixture.world [],
         [EvPrint (PStr "Logging user in...");
          EvRun 1 (Navigate "https://www.linkedin.com/login");
          EvRun 1 (WaitVisible "input[name=session_key]");
          EvRun 1 (SendKeys "input[name=session_key]" "a@b.c");
          EvRun 1 (SendKeys "input[name=session_password]" "secret");
          EvRun 1 (Click "button[type=submit]"); EvTimeSleep 1;
          EvRun 1 GetLocation;
          EvPrint (PStr "\nSecurity verification required!");
          EvPrint (PStr "Please complete the verification puzzle in the browser window");
          EvPrint (PStr "\nPress Enter once you've completed the verification...");
          EvReadLine; EvRun 1 GetLocation;
          EvPrint (PStr "Logged in successfully")]))
      by (vm_compute; reflexivity).
    exact (proj1 (proj2 (proj1 (login_challenge_passes_through_wait _ false _ _ _ _ _
                                  Hsub Hloc Hch) _ _ Hrun))).
Defined.

Lemma invalid_request_opens_no_session_witness :
  Home (mkServer "key") "" (Fixture.world Fixture.loginReplies) =
    (Ret tt, Fixture.world Fixture.loginReplies,
     [EvWriteResponse (TextBody "Encountered an error. Please try again") 500]) /\
  Home (mkServer "key") "not an address" (Fixture.world Fixture.loginReplies) =
    (Ret tt, Fixture.world Fixture.loginReplies,
     [EvWriteResponse (TextBody "invalid email") 400]).
Proof.
  split.
  - exact (proj1 (proj1 (invalid_request_opens_no_session (mkServer "key") ""
                           (Fixture.world Fixture.loginReplies)) "EOF" eq_refl)).
  - exact (proj1 (proj2 (invalid_request_opens_no_session (mkServer "key") "not an address"
                           (Fixture.world Fixture.loginReplies))
                    (mkHomeReq "not an address" "secret" "https://www.linkedin.com/in/someone")
                    eq_refl eq_refl)).
Defined.

Lemma step_failures_do_not_block_witness :
  exists out wf tr,
    Home (mkServer "key") "a@b.c"
      (Fixture.requestWorld [Fixture.original "one"] Fixture.failingGatedReplies)
      = (out, wf, tr) /\
    statusReceived tr = Some 500.
Proof.
  eassert (Hn :
    NewScraper "a@b.c" "secret" "https://www.linkedin.com/in/someone"
      (Fixture.requestWorld [Fixture.original "one"] Fixture.failingGatedReplies)
    = (Ret (Some _, None), _, _)) by (vm_compute; reflexivity).
  assert (Hd : DecodeReqBody "a@b.c" =
               inr (mkHomeReq "a@b.c" "secret" "https://www.linkedin.com/in/someone"))
    by reflexivity.
  assert (Hv : ValidEmail "a@b.c" = true) by reflexivity.
  destruct (step_failures_do_not_block (mkServer "key") "a@b.c" _ _ _ _ _ Hd Hv Hn)
    as (s1 & e1 & w1 & t1 & s2 & e2 & w2 & t2 & H1 & H2 & Hgate).
  vm_compute in H1. inversion H1; subst s1 e1 w1 t1. clear H1.
  vm_compute in H2. inversion H2; subst s2 e2 w2 t2. clear H2.
  destruct Hgate as (s3 & e3 & w3 & t3 & s4 & e4 & w4 & t4 & out & wf & t5 &
                     H3 & H4 & _ & HH & _ & Hstatus & _).
  { simpl. lia. }
  vm_compute in H3. inversion H3; subst s3 e3 w3 t3. clear H3.
  vm_compute in H4. inversion H4; subst s4 e4 w4 t4. clear H4.
  eexists _, _, _. split; [exact HH|]. apply Hstatus. discriminate.
Defined.

(** ** More on the scripts *)

(** X1: the posts script is stable under later items of the feed.  The
    posts drawn from a feed are a prefix of those drawn from the same feed
    with more items after it, and once five posts are found no later item
    changes the result. *)
Theorem postsScript_stable_under_more_items items more :
  postsScript items `prefix_of` postsScript (items ++ more) /\
  (List.length (postsScript items) = 5 -> postsScript (items ++ more) = postsScript items).
Proof.
  unfold postsScript. rewrite map_app, filterNotNull_app.
  set (a := filterNotNull (map postOfItem items)).
  set (b := filterNotNull (map postOfItem more)).
  split.
  - rewrite take_app. apply prefix_app_r. reflexivity.
  - intros Hlen. rewrite length_take in Hlen.
    rewrite take_app. replace (5 - List.length a) with 0 by lia.
    rewrite take_0, app_nil_r. reflexivity.
Qed.

Lemma postsScript_stable_under_more_items_witness :
  postsScript (Fixture.sevenItems ++ [Fixture.original "six"]) = postsScript Fixture.sevenItems.
Proof.
  apply (proj2 (postsScript_stable_under_more_items Fixture.sevenItems [Fixture.original "six"])).
  reflexivity.
Defined.

Lemma head_filter_Some {A} (p : A -> bool) l a :
  head (List.filter p l) = Some a ->
  exists before after, l = before ++ a :: after /\ p a = true /\ Forall (fun x => p x = false) before.
Proof.
  induction l as [|x l IH]; simpl; [discriminate|].
  destruct (p x) eqn:Hp; simpl.
  - intros [= ->]. exists [], l. split; [reflexivity|]. split; [assumption|constructor].
  - intros H. destruct (IH H) as (b & af & -> & Hpa & Hb).
    exists (x :: b), af. split; [reflexivity|]. split; [assumption|].
    constructor; assumption.
Qed.

Lemma head_filter_None {A} (p : A -> bool) l :
  head (List.filter p l) = None <-> Forall (fun x => p x = false) l.
Proof.
  induction l as [|x l IH]; simpl.
  - split; [constructor|reflexivity].
  - destruct (p x) eqn:Hp; simpl.
    + split; [discriminate|]. intros H. inversion H; congruence.
    + rewrite IH. split; [intros; constructor; assumption|intros H; inversion H; assumption].
Qed.

Lemma nonblank_length t : (0 <? String.length t)%nat = false <-> t = "".
Proof.
  destruct t; simpl; split; intros; try reflexivity; try discriminate.
Qed.

(** X2: the value of the about script.  It is the empty string exactly
    when the page has none of the spans; it is undefined exactly when there
    are spans and all of them are blank; otherwise it is the trimmed text of
    the first span that is not blank. *)
Theorem aboutScript_value spans :
  (aboutScript spans = Some "" <-> spans = []) /\
  (aboutScript spans = None <-> spans <> [] /\ Forall (fun t => trim t = "") spans) /\
  (forall about, aboutScript spans = Some about -> about <> "" ->
     exists before t after,
       spans = before ++ t :: after /\ about = trim t /\
       Forall (fun t => trim t = "") before).
Proof.
  unfold aboutScript. destruct spans as [|s spans].
  - simpl. split; [tauto|]. split.
    + split; [discriminate|]. intros [H _]. congruence.
    + intros about [= <-] H. congruence.
  - cbn [List.length Nat.eqb].
    set (l := s :: spans).
    assert (Hl : l <> []) by discriminate.
    split; [|split].
    + split; [|intros; congruence].
      intros H. apply head_filter_Some in H as (b & af & _ & Hp & _). discriminate.
    + rewrite head_filter_None, Forall_map.
      split.
      * intros H. split; [assumption|].
        eapply Forall_impl; [exact H|]. intros t Ht. simpl in Ht. by apply nonblank_length.
      * intros [_ H]. eapply Forall_impl; [exact H|]. intros t Ht. simpl. by apply nonblank_length.
    + intros about H _.
      apply head_filter_Some in H as (b & af & Hsplit & _ & Hb).
      apply map_eq_app in Hsplit as (b' & r & -> & <- & Hr).
      destruct r as [|t af']; [discriminate|]. simpl in Hr. injection Hr as <- <-.
      exists b', t, af'. split; [reflexivity|]. split; [reflexivity|].
      rewrite Forall_map in Hb.
      eapply Forall_impl; [exact Hb|]. intros x Hx. simpl in Hx. by apply nonblank_length.
Qed.

Lemma jsOr_empty_fallback a b : jsOr a (jsOr b "") = if decide (a = "") then b else a.
Proof. unfold jsOr. destruct (decide (a = "")); [|reflexivity]. by destruct (decide (b = "")). Qed.

(** X3: the experience and education scripts keep every list item that
    has an entity node, in order and whatever its texts are: an entity with
    no text gives an entry with empty fields (the posts script drops such
    items).  The title is the text marked aria-hidden, or the visually
    hidden one when that is blank; the other fields are the trimmed texts
    under their selectors. *)
Theorem entity_scripts_keep_every_entity :
  (forall items,
     Forall2 (fun node e =>
                Title e = (if decide (textContentTrim (titleAriaHidden node) = "")
                           then textContentTrim (titleVisuallyHidden node)
                           else textContentTrim (titleAriaHidden node)) /\
                Company e = textContentTrim (companySpan node) /\
                ExpDuration e = textContentTrim (positionDurationSpan node))
       (filterNotNull items) (experienceScript items)) /\
  (forall items,
     Forall2 (fun node e =>
                Institute e = textContentTrim (instituteSpan node) /\
                Major e = textContentTrim (majorSpan node) /\
                EduDuration e = textContentTrim (schoolDurationSpan node))
       (filterNotNull items) (educationScript items)).
Proof.
  split; intros items.
  - unfold experienceScript, filterNotNull.
    induction items as [|[node|] items IH]; cbn [map omap experienceOfItem]; csimpl;
      [constructor| |exact IH].
    constructor; [|exact IH]. cbn [Title Company ExpDuration].
    rewrite jsOr_empty_fallback, !jsOr_empty_r. auto.
  - unfold educationScript, filterNotNull.
    induction items as [|[node|] items IH]; cbn [map omap educationOfItem]; csimpl;
      [constructor| |exact IH].
    constructor; [|exact IH]. cbn [Institute Major EduDuration].
    rewrite !jsOr_empty_r. auto.
Qed.

(** ** More on the steps *)

Section MoreOnSteps.
Context {W : Type} `{!Browser W} `{!GoLib}.

(** X4: a step that returns an error leaves the scraper as it was:
    context, credentials and every field of the profile. *)
Theorem failed_step_changes_nothing s w s' e w' tr :
  GetNameAndLocation (Some s) w = (Ret (s', Some e), w', tr) \/
  GetRecentPosts (Some s) w = (Ret (s', Some e), w', tr) \/
  GetExperiences (Some s) w = (Ret (s', Some e), w', tr) \/
  GetEducation (Some s) w = (Ret (s', Some e), w', tr) \/
  GetAbout (Some s) w = (Ret (s', Some e), w', tr) ->
  s' = s.
Proof.
  intros [Hs|[Hs|[Hs|[Hs|Hs]]]]; revert Hs.
  - unfold GetNameAndLocation. exec; intros Heq; inversion Heq; reflexivity.
  - unfold GetRecentPosts. exec; intros Heq; inversion Heq; reflexivity.
  - unfold GetExperiences. exec; intros Heq; inversion Heq; reflexivity.
  - unfold GetEducation. exec; intros Heq; inversion Heq; reflexivity.
  - unfold GetAbout. exec; try (intros Heq; inversion Heq; reflexivity).
    destruct (aboutScript _); intros Heq; inversion Heq; reflexivity.
Qed.

(** The steps leave alone the fields of the profile that are not theirs. *)
Lemma GetNameAndLocation_keeps s w s' e w' tr :
  GetNameAndLocation (Some s) w = (Ret (s', e), w', tr) ->
  ctx s' = ctx s /\ cancel s' = cancel s /\ linkedInURL s' = linkedInURL s /\
  About (Profile s') = About (Profile s) /\
  ExperienceList (Profile s') = ExperienceList (Profile s) /\
  EducationList (Profile s') = EducationList (Profile s) /\
  Posts (Profile s') = Posts (Profile s).
Proof.
  unfold GetNameAndLocation. exec; intros Heq; inversion Heq; subst; repeat split.
Qed.

Lemma GetRecentPosts_keeps s w s' e w' tr :
  GetRecentPosts (Some s) w = (Ret (s', e), w', tr) ->
  ctx s' = ctx s /\ cancel s' = cancel s /\ linkedInURL s' = linkedInURL s /\
  About (Profile s') = About (Profile s) /\
  ExperienceList (Profile s') = ExperienceList (Profile s) /\
  EducationList (Profile s') = EducationList (Profile s) /\
  (e <> None -> Posts (Profile s') = Posts (Profile s)).
Proof.
  unfold GetRecentPosts. exec; intros Heq; inversion Heq; subst; repeat split; congruence.
Qed.

Lemma GetExperiences_keeps s w s' e w' tr :
  GetExperiences (Some s) w = (Ret (s', e), w', tr) ->
  ctx s' = ctx s /\ cancel s' = cancel s /\
  About (Profile s') = About (Profile s) /\
  Posts (Profile s') = Posts (Profile s).
Proof.
  unfold GetExperiences. exec; intros Heq; inversion Heq; subst; repeat split.
Qed.

Lemma GetEducation_keeps s w s' e w' tr :
  GetEducation (Some s) w = (Ret (s', e), w', tr) ->
  ctx s' = ctx s /\ cancel s' = cancel s /\
  About (Profile s') = About (Profile s) /\
  Posts (Profile s') = Posts (Profile s).
Proof.
  unfold GetEducation. exec; intros Heq; inversion Heq; subst; repeat split.
Qed.

(** Two runs that command the same context. *)
Lemma toContext_app c t1 t2 : toContext c t1 -> toContext c t2 -> toContext c (t1 ++ t2).
Proof. intros Ha Hb c' a Hin. apply in_app_or in Hin as [Hin|Hin]; eauto. Qed.

End MoreOnSteps.

(** ** More on the login *)

Section MoreOnLogin.
Context {W : Type} `{!Browser W} `{!GoLib}.

Lemma submitLoginForm_trace s w r w1 ts :
  Run (ctx s) (submitLoginForm s) w = (r, w1, ts) ->
  ~ In EvReadLine ts /\ toContext (ctx s) ts /\
  count isNewContext ts = 0 /\ count isCancel ts = 0 /\
  count isNewAllocator ts = 0 /\ count isCancelAllocator ts = 0 /\
  count isLoginAttempt ts = 0 /\ observed ts = [].
Proof.
  unfold submitLoginForm. exec; intros Heq; inversion Heq; subst.
  all: split; [simpl; intuition discriminate|].
  all: split; [intros c' a; simpl; intuition congruence|].
  all: repeat split.
Qed.

(** X5: [login] reads the terminal exactly when it is not headless, the
    form was submitted without error and the address read after it contains
    the challenge path.  In every other run that returns, nothing is read. *)
Theorem login_reads_terminal_only_on_challenge s headless w e w' tr :
  login s headless w = (Ret e, w', tr) ->
  (In EvReadLine tr <->
   headless = false /\
   exists ts w1 url w2,
     Run (ctx s) (submitLoginForm s) w = (Ret (inr tt), w1, ts) /\
     runLocation (ctx s) w1 = (inr url, w2) /\
     includes url challengePath = true).
Proof.
  unfold login.
  cbv beta iota delta [mbind M_bind mret M_ret Println emit timeSleep].
  destruct (Run (ctx s) (submitLoginForm s) w) as [[[[err|[]]|] w1] ts] eqn:Hsub.
  3: { intros Heq; inversion Heq. }
  all: destruct (submitLoginForm_trace _ _ _ _ _ Hsub) as (Hno & _).
  - unfold_run. intros Heq; inversion Heq; subst. split.
    + rewrite ?in_app_iff; simpl; rewrite ?in_app_iff; simpl; intuition discriminate.
    + intros (_ & ? & ? & ? & ? & Hs & _). discriminate.
  - unfold_run.
    destruct (runLocation (ctx s) w1) as [[err|url] w2] eqn:Hloc; unfold_run.
    { intros Heq; inversion Heq; subst. split.
      - rewrite ?in_app_iff; simpl; rewrite ?in_app_iff; simpl; intuition discriminate.
      - intros (_ & ? & ? & ? & ? & Hs & Hl & _). inversion Hs; subst. congruence. }
    destruct (includes url challengePath) eqn:Hch.
    2: { unfold_run. intros Heq; inversion Heq; subst. split.
         - rewrite ?in_app_iff; simpl; rewrite ?in_app_iff; simpl; intuition discriminate.
         - intros (_ & ? & ? & ? & ? & Hs & Hl & Hc). inversion Hs; subst.
           rewrite Hloc in Hl. inversion Hl; subst. congruence. }
    destruct headless; unfold_run.
    { intros Heq; inversion Heq; subst. split.
      - rewrite ?in_app_iff; simpl; rewrite ?in_app_iff; simpl; intuition discriminate.
      - intros (? & _). discriminate. }
    destruct (runLocation (ctx s) (readLine w2)) as [[err|url2] w3]; unfold_run.
    2: destruct (includes url2 challengePath); unfold_run.
    all: intros Heq; inversion Heq; subst; split;
      [intros _; split; [reflexivity|]; eexists _, _, _, _; repeat split; eassumption|].
    all: intros _; rewrite ?in_app_iff; simpl; rewrite ?in_app_iff; simpl; tauto.
Qed.

(** What a login adds to a run: one attempt, commands to the context of
    its scraper, and no session opened or released. *)
Lemma login_trace s headless w :
  exists e w' tr,
    login s headless w = (Ret e, w', tr) /\ loginTrace (ctx s) tr.
Proof.
  unfold login. exec.
  all: repeat (match goal with
               | |- context [if ?b then _ else _] => destruct b eqn:?
               end; exec).
  all: eexists _, _, _; split; [reflexivity|]; split; [reflexivity|]; split; [reflexivity|].
  all: split; [lines|].
  all: split; [intros c' a; simpl; intuition congruence|repeat split].
Qed.

End MoreOnLogin.

(** ** More on [NewScraper] *)

Lemma count_app p a b : count p (a ++ b) = count p a + count p b.
Proof. unfold count. by rewrite List.filter_app, length_app. Qed.

Lemma browserCommands_app a b :
  browserCommands (a ++ b) = browserCommands a ++ browserCommands b.
Proof. unfold browserCommands. apply omap_app. Qed.

Section MoreOnNewScraper.
Context {W : Type} `{!Browser W} `{!GoLib}.

(** The runs of [NewScraper]: one login, or two around the change of
    session. *)
Lemma NewScraper_paths e p u w r w' tr :
  NewScraper e p u w = (Ret r, w', tr) ->
  exists a c l1,
    loginTrace c l1 /\
    ((r = (Some (mkScraper c c u e p emptyProfile), None) /\
      tr = [EvNewAllocator a; EvNewContext a c] ++ l1) \/
     (exists err,
        r = (None, Some ("failed to login: " +:+ err)) /\
        includes err "verification" = false /\
        tr = [EvNewAllocator a; EvNewContext a c] ++ l1) \/
     (exists va c2 l2,
        loginTrace c2 l2 /\
        ((exists err,
            r = (None, Some ("failed to login even with verification: " +:+ err)) /\
            tr = [EvNewAllocator a; EvNewContext a c] ++ l1 ++
                 [EvCancel c; EvNewAllocator va; EvNewContext va c2] ++ l2 ++
                 [EvCancel c2; EvCancelAllocator va]) \/
         (exists c3,
            r = (Some (mkScraper c3 c3 u e p emptyProfile), None) /\
            tr = [EvNewAllocator a; EvNewContext a c] ++ l1 ++
                 [EvCancel c; EvNewAllocator va; EvNewContext va c2] ++ l2 ++
                 [EvCancel c2; EvNewContext a c3; EvCancelAllocator va])))).
Proof.
  unfold NewScraper. unfold_run.
  repeat (world_call; unfold_run).
  match goal with |- context [login ?s ?h ?w0] =>
    destruct (login_trace s h w0) as ([err|] & ? & l1 & -> & Hl1) end; unfold_run.
  2: { intros Heq; inversion Heq; subst. eexists _, _, l1. split; [exact Hl1|].
       left. split; [reflexivity|]. same_trace. }
  destruct (includes err "verification") eqn:Hv; unfold_run.
  2: { intros Heq; inversion Heq; subst. eexists _, _, l1. split; [exact Hl1|].
       right; left. eexists. repeat split; [assumption|]. same_trace. }
  repeat (world_call; unfold_run).
  match goal with |- context [login ?s ?h ?w0] =>
    destruct (login_trace s h w0) as ([err2|] & ? & l2 & -> & Hl2) end;
    unfold_run; repeat (world_call; unfold_run).
  - intros Heq; inversion Heq; subst. eexists _, _, l1. split; [exact Hl1|].
    right; right. eexists _, _, l2. split; [exact Hl2|].
    left. eexists. split; [reflexivity|]. same_trace.
  - intros Heq; inversion Heq; subst. eexists _, _, l1. split; [exact Hl1|].
    right; right. eexists _, _, l2. split; [exact Hl2|].
    right. eexists. split; [reflexivity|]. same_trace.
Qed.

End MoreOnNewScraper.

(** ** More on the handler *)

Lemma quiet_app a b : quiet a -> quiet b -> quiet (a ++ b).
Proof. apply Forall_app_2. Qed.

Lemma quiet_counts tr :
  quiet tr ->
  count isNewContext tr = 0 /\ count isCancel tr = 0 /\
  count isNewAllocator tr = 0 /\ count isCancelAllocator tr = 0 /\
  count isGo tr = 0 /\ profilesSent tr = [] /\ sessionsOpened tr = 0.
Proof.
  induction 1 as [|e tr He _ IH]; [repeat split|].
  destruct IH as (H1 & H2 & H3 & H4 & H5 & H6 & H7).
  unfold count, sessionsOpened in *.
  destruct e; try discriminate He; simpl; auto 10.
Qed.

Lemma quiet_logged prefix e : quiet (logged prefix e).
Proof. destruct e; repeat constructor. Qed.

Lemma quiet_surfaced e : quiet (surfaced e).
Proof. destruct e; repeat constructor. Qed.

Lemma toContext_logged c prefix e : toContext c (logged prefix e).
Proof. destruct e; intros c' a; simpl; intuition discriminate. Qed.

Lemma toContext_surfaced c e : toContext c (surfaced e).
Proof. destruct e; intros c' a; simpl; intuition discriminate. Qed.

Lemma profilesSent_app a b : profilesSent (a ++ b) = profilesSent a ++ profilesSent b.
Proof. unfold profilesSent. apply omap_app. Qed.

Lemma stepsStarted_app a b : stepsStarted (a ++ b) = stepsStarted a ++ stepsStarted b.
Proof. unfold stepsStarted, observed. by rewrite !omap_app. Qed.

Lemma stepsStarted_of_observed tr l :
  observed tr = l ->
  stepsStarted tr = omap (fun o => match o with OStep name => Some name | _ => None end) l.
Proof. intros <-. reflexivity. Qed.

Lemma stepsStarted_logged prefix e : stepsStarted (logged prefix e) = [].
Proof. destruct e; reflexivity. Qed.

Lemma stepsStarted_surfaced e : stepsStarted (surfaced e) = [].
Proof. destruct e; reflexivity. Qed.

Lemma observed_no_log tr line : observed tr = [] -> ~ In (EvLog line) tr.
Proof.
  intros Ho Hin. eapply observed_In in Hin; [|reflexivity]. rewrite Ho in Hin. destruct Hin.
Qed.

Lemma printsLines_app a b : printsLines a -> printsLines b -> printsLines (a ++ b).
Proof. intros Ha Hb x Hin. apply in_app_or in Hin as [Hin|Hin]; eauto. Qed.

Lemma stepEvents_facts tr :
  stepEvents tr ->
  quiet tr /\ (forall line, ~ In (EvLog line) tr) /\
  (forall n, ~ In (EvPrint (PLen n)) tr) /\ responses tr = [] /\ printsLines tr.
Proof.
  induction 1 as [|e tr He _ (IH1 & IH2 & IH3 & IH4 & IH5)].
  - split; [constructor|]. split; [intros line []|]. split; [intros n []|].
    split; [reflexivity|intros x []].
  - destruct e as [[s| | |]| | | | | |c a| | | | |]; try discriminate He.
    + split; [constructor; [reflexivity|assumption]|].
      split; [intros line [Hx|Hx]; [discriminate|by eapply IH2]|].
      split; [intros n [Hx|Hx]; [discriminate|by eapply IH3]|].
      split; [|intros x [Hx|Hx]; [injection Hx as <-; eauto|by apply IH5]].
      change (responses ([EvPrint (PStr s)] ++ tr) = []).
      rewrite responses_app, IH4, app_nil_r.
      unfold responses, observed. simpl.
      destruct (_ || _); reflexivity.
    + split; [constructor; [reflexivity|assumption]|].
      split; [intros line [Hx|Hx]; [discriminate|by eapply IH2]|].
      split; [intros n [Hx|Hx]; [discriminate|by eapply IH3]|].
      split; [|intros x [Hx|Hx]; [discriminate|by apply IH5]].
      change (responses ([EvRun c a] ++ tr) = []).
      rewrite responses_app, IH4. reflexivity.
Qed.

Section MoreOnHandler.
Context {W : Type} `{!Browser W} `{!GoLib}.

(** The events of a step: its line and commands to the context of its
    scraper. *)
Lemma GetNameAndLocation_events s w out w' tr :
  GetNameAndLocation (Some s) w = (out, w', tr) -> stepEvents tr /\ toContext (ctx s) tr.
Proof. unfold GetNameAndLocation. exec; step_facts. Qed.

Lemma GetRecentPosts_events s w out w' tr :
  GetRecentPosts (Some s) w = (out, w', tr) -> stepEvents tr /\ toContext (ctx s) tr.
Proof. unfold GetRecentPosts. exec; step_facts. Qed.

Lemma GetExperiences_events s w out w' tr :
  GetExperiences (Some s) w = (out, w', tr) -> stepEvents tr /\ toContext (ctx s) tr.
Proof. unfold GetExperiences. exec; step_facts. Qed.

Lemma GetEducation_events s w out w' tr :
  GetEducation (Some s) w = (out, w', tr) -> stepEvents tr /\ toContext (ctx s) tr.
Proof. unfold GetEducation. exec; step_facts. Qed.

(** The end of the handler: the release, the print of the profile, the
    call of the language model, and then prints and at most one response. *)
Lemma respond_trace srv s w out w' tr :
  respond srv s w = (out, w', tr) ->
  exists rest,
    tr = [EvGo (cancel s); EvCancel (cancel s); EvPrint (PProfile (Profile s));
          EvChatCompletion (Profile s)] ++ rest /\
    quiet rest /\ browserCommands rest = [] /\
    (forall line, ~ In (EvLog line) rest) /\
    (forall n, ~ In (EvPrint (PLen n)) rest) /\
    match out with
    | Panic => rest = []
    | Ret _ =>
        exists prints msg c,
          rest = prints ++ [EvWriteResponse msg c] /\ responses prints = [] /\
          ((c = 500 /\ msg = TextBody serverErrorText /\
            (forall code, In (EvPrint (PStatus code)) prints ->
                          exists e, jsonMarshalPosts (Posts (Profile s)) = inl e)) \/
           (c = 200 /\ exists res,
              msg = HomeBody res /\
              jsonMarshalPosts (Posts (Profile s)) = inr (RecentPosts res) /\
              (forall code, In (EvPrint (PStatus code)) prints -> Msg res = "") /\
              exists w1 w2, GetUsedParams (Profile s) w1 = (Ret (ParamsUsed res), w2, []))) /\
          forall code, In (EvPrint (PStatus code)) prints -> code <> 200
    end.
Proof.
  assert (Hparams : forall w1, exists params w2,
            GetUsedParams (Profile s) w1 = (Ret params, w2, [])).
  { intros w1. unfold GetUsedParams. unfold_run.
    destruct (mapRange _ _). eexists _, _. reflexivity. }
  unfold respond, GetMessage. unfold_run.
  destruct (chatCompletion _ _ _) as [[e|code decoded] w1]; unfold_run.
  - intros Heq; inversion Heq; subst. eexists. split; [reflexivity|].
    split; [repeat constructor|]. split; [reflexivity|].
    split; [intros line; simpl; intuition discriminate|].
    split; [intros n; simpl; intuition discriminate|].
    eexists [EvPrint (PStr ("Error making request: " +:+ e))], _, _.
    split; [reflexivity|]. split; [reflexivity|].
    split; [|intros code; simpl; intuition discriminate].
    left. split; [reflexivity|]. split; [reflexivity|].
    intros code; simpl; intuition discriminate.
  - destruct (code =? 200)%nat eqn:Hcode.
    + destruct decoded as [e|[|content choices]]; unfold_run.
      * intros Heq; inversion Heq; subst. eexists. split; [reflexivity|].
        split; [repeat constructor|]. split; [reflexivity|].
        split; [intros line; simpl; intuition discriminate|].
        split; [intros n; simpl; intuition discriminate|].
        eexists [EvPrint (PStr ("Error decoding response: " +:+ e))], _, _.
        split; [reflexivity|]. split; [reflexivity|].
        split; [|intros code'; simpl; intuition discriminate].
        left. split; [reflexivity|]. split; [reflexivity|].
        intros code'; simpl; intuition discriminate.
      * intros Heq; inversion Heq; subst. exists [].
        split; [reflexivity|]. split; [constructor|]. split; [reflexivity|].
        split; [intros line []|]. split; [intros n []|reflexivity].
      * destruct (Hparams w1) as (params & w2 & Hp). rewrite Hp.
        destruct (jsonMarshalPosts (Posts (Profile s))) as [e|json] eqn:Hjson; unfold_run;
          intros Heq; inversion Heq; subst; eexists; (split; [reflexivity|]);
          (split; [repeat constructor|]); (split; [reflexivity|]);
          (split; [intros line; simpl; intuition discriminate|]);
          (split; [intros n; simpl; intuition discriminate|]);
          eexists [], _, _; (split; [reflexivity|]); (split; [reflexivity|]).
        -- split; [|intros code'; simpl; tauto].
           left. split; [reflexivity|]. split; [reflexivity|]. intros code' [].
        -- split; [|intros code'; simpl; tauto]. right. split; [reflexivity|].
           eexists. split; [reflexivity|]. split; [reflexivity|].
           split; [intros code'; simpl; tauto|]. eexists _, _. exact Hp.
    + unfold_run.
      destruct (Hparams w1) as (params & w2 & Hp). rewrite Hp.
      apply Nat.eqb_neq in Hcode.
      destruct (jsonMarshalPosts (Posts (Profile s))) as [e|json] eqn:Hjson; unfold_run;
        intros Heq; inversion Heq; subst; eexists; (split; [reflexivity|]);
        (split; [repeat constructor|]); (split; [reflexivity|]);
        (split; [intros line; simpl; intuition discriminate|]);
        (split; [intros n; simpl; intuition discriminate|]);
        eexists [EvPrint (PStatus code)], _, _; (split; [reflexivity|]);
        (split; [reflexivity|]).
      * split; [|intros code'; simpl; intros [[= <-]|[]]; assumption].
        left. split; [reflexivity|]. split; [reflexivity|].
        intros code' _. eexists. reflexivity.
      * split; [|intros code'; simpl; intros [[= <-]|[]]; assumption].
        right. split; [reflexivity|].
        eexists. split; [reflexivity|]. split; [reflexivity|].
        split; [reflexivity|]. eexists _, _. exact Hp.
Qed.

End MoreOnHandler.

(** ** Sessions of [NewScraper] *)

Lemma app_split_at {A} (t1 t2 before after : list A) x :
  t1 ++ t2 = before ++ x :: after ->
  (exists k, t1 = before ++ x :: k /\ after = k ++ t2) \/
  (exists k, before = t1 ++ k /\ t2 = k ++ x :: after).
Proof.
  revert before. induction t1 as [|y t1 IH]; intros before Heq.
  - right. exists before. split; [reflexivity|exact Heq].
  - destruct before as [|b before]; simpl in Heq; injection Heq as -> Heq.
    + left. exists t1. split; [reflexivity|symmetry; exact Heq].
    + destruct (IH _ Heq) as [(k & -> & ->)|(k & -> & ->)].
      * left. exists k. split; reflexivity.
      * right. exists k. split; reflexivity.
Qed.

Lemma scope_app t1 t2 :
  commandsInOwnSessions t1 ->
  (forall c a, In (EvRun c a) t2 -> exists alloc, In (EvNewContext alloc c) t1) ->
  commandsInOwnSessions (t1 ++ t2).
Proof.
  intros H1 H2 before c a after Heq.
  apply app_split_at in Heq as [(k & Hk & _)|(k & -> & ->)].
  - exact (H1 _ _ _ _ Hk).
  - destruct (H2 c a) as (alloc & Hin).
    { apply in_or_app. right. simpl. tauto. }
    exists alloc. apply in_or_app. tauto.
Qed.

Lemma scope_to_context t1 t2 c alloc :
  commandsInOwnSessions t1 -> In (EvNewContext alloc c) t1 -> toContext c t2 ->
  commandsInOwnSessions (t1 ++ t2).
Proof.
  intros H1 Hin H2. apply scope_app; [assumption|].
  intros c' a Hrun. rewrite (H2 _ _ Hrun). eauto.
Qed.

Lemma scope_no_command tr :
  (forall c a, ~ In (EvRun c a) tr) -> commandsInOwnSessions tr.
Proof.
  intros Hno before c a after ->. destruct (Hno c a). apply in_or_app. simpl. tauto.
Qed.

Lemma loginTrace_no_go c tr : loginTrace c tr -> count isGo tr = 0 /\ responses tr = [].
Proof.
  intros (Ho & _). split.
  - unfold count. destruct (List.filter isGo tr) as [|e l] eqn:Hf; [reflexivity|].
    assert (Hin : In e (List.filter isGo tr)) by (rewrite Hf; simpl; tauto).
    apply filter_In in Hin as [Hin Hgo]. destruct e; try discriminate.
    eapply observed_In in Hin; [|reflexivity]. rewrite Ho in Hin. destruct Hin.
  - unfold responses. by rewrite Ho.
Qed.

(** Counting over a run of [NewScraper], from the counts of its logins. *)
Ltac count_up :=
  rewrite ?count_app;
  repeat match goal with
         | Hc : count _ _ = _ |- _ => rewrite Hc
         end;
  reflexivity.

Section SessionsOfNewScraper.
Context {W : Type} `{!Browser W} `{!GoLib}.

(** X6: the sessions of [NewScraper].  It attempts one login or two,
    creates one allocator per attempt and releases one allocator fewer than
    it creates.  When it returns a scraper, exactly one of the contexts it
    created is not cancelled.  When it returns an error after one attempt,
    the context it created is not cancelled; after two attempts both
    contexts are. *)
Theorem NewScraper_session_accounting e p u w r w' tr :
  NewScraper e p u w = (Ret r, w', tr) ->
  let attempts := count isLoginAttempt tr in
  (attempts = 1 \/ attempts = 2) /\
  count isNewAllocator tr = attempts /\
  count isCancelAllocator tr = attempts - 1 /\
  match r.1 with
  | Some s => count isNewContext tr = S (count isCancel tr)
  | None =>
      if (attempts =? 1)%nat
      then count isNewContext tr = 1 /\ count isCancel tr = 0
      else count isNewContext tr = 2 /\ count isCancel tr = 2
  end.
Proof.
  intros Hn attempts. subst attempts.
  destruct (NewScraper_paths _ _ _ _ _ _ _ Hn)
    as (a & c & l1 & (_ & _ & _ & _ & Hc1 & Hc2 & Hc3 & Hc4 & Hc5) & Hpaths).
  destruct Hpaths as [[-> ->]|[(err & -> & _ & ->)|
    (va & c2 & l2 & (_ & _ & _ & _ & Hd1 & Hd2 & Hd3 & Hd4 & Hd5) & [(err & -> & ->)|(c3 & -> & ->)])]].
  - assert (count isLoginAttempt ([EvNewAllocator a; EvNewContext a c] ++ l1) = 1) as -> by count_up.
    split; [tauto|]. cbn [fst Nat.eqb]. repeat split; count_up.
  - assert (count isLoginAttempt ([EvNewAllocator a; EvNewContext a c] ++ l1) = 1) as -> by count_up.
    split; [tauto|]. cbn [fst Nat.eqb]. repeat split; count_up.
  - match goal with |- context [count isLoginAttempt ?t] =>
      assert (count isLoginAttempt t = 2) as -> by count_up end.
    split; [tauto|]. cbn [fst Nat.eqb]. repeat split; count_up.
  - match goal with |- context [count isLoginAttempt ?t] =>
      assert (count isLoginAttempt t = 2) as -> by count_up end.
    split; [tauto|]. cbn [fst Nat.eqb]. repeat split; count_up.
Qed.

(** X7: what [NewScraper] returns.  Either a scraper and no error: the
    scraper holds the address and the credentials given and an empty
    profile, its cancel function is that of its context, and the run created
    that context.  Or no scraper and an error: one that starts with
    [failed to login: ] and goes on with an error that does not mention a
    verification, after one attempt; or one that starts with
    [failed to login even with verification: ], after two attempts. *)
Theorem NewScraper_result e p u w r w' tr :
  NewScraper e p u w = (Ret r, w', tr) ->
  (exists s,
     r = (Some s, None) /\
     Profile s = emptyProfile /\ linkedInURL s = u /\ email s = e /\ password s = p /\
     cancel s = ctx s /\ exists alloc, In (EvNewContext alloc (ctx s)) tr) \/
  (exists err,
     r = (None, Some ("failed to login: " +:+ err)) /\
     includes err "verification" = false /\ count isLoginAttempt tr = 1) \/
  (exists err,
     r = (None, Some ("failed to login even with verification: " +:+ err)) /\
     count isLoginAttempt tr = 2).
Proof.
  intros Hn.
  destruct (NewScraper_paths _ _ _ _ _ _ _ Hn)
    as (a & c & l1 & (_ & _ & _ & _ & Hc1 & Hc2 & Hc3 & Hc4 & Hc5) & Hpaths).
  destruct Hpaths as [[-> ->]|[(err & -> & Hv & ->)|
    (va & c2 & l2 & (_ & _ & _ & _ & Hd1 & Hd2 & Hd3 & Hd4 & Hd5) & [(err & -> & ->)|(c3 & -> & ->)])]].
  - left. eexists. split; [reflexivity|]. repeat split.
    exists a. simpl. tauto.
  - right; left. exists err. repeat split; [assumption|count_up].
  - right; right. exists err. split; [reflexivity|count_up].
  - left. eexists. split; [reflexivity|]. repeat split.
    exists a. rewrite !in_app_iff. simpl. tauto.
Qed.

(** X8: after a verification, the scraper works in a new context.  When
    [NewScraper] returns a scraper after two login attempts, the context of
    the scraper is created in the first allocator after both attempts, once
    every earlier context is cancelled, and no command is sent to a browser
    after its creation: no login form is submitted in it. *)
Theorem NewScraper_context_after_verification e p u w s w' tr :
  NewScraper e p u w = (Ret (Some s, None), w', tr) ->
  count isLoginAttempt tr = 2 ->
  exists alloc before after,
    head tr = Some (EvNewAllocator alloc) /\
    tr = before ++ EvNewContext alloc (ctx s) :: after /\
    count isLoginAttempt before = 2 /\
    count isNewContext before = count isCancel before /\
    browserCommands after = [].
Proof.
  intros Hn Hattempts.
  destruct (NewScraper_paths _ _ _ _ _ _ _ Hn)
    as (a & c & l1 & (_ & _ & _ & _ & Hc1 & Hc2 & Hc3 & Hc4 & Hc5) & Hpaths).
  destruct Hpaths as [[Hr ->]|[(err & Hr & _)|
    (va & c2 & l2 & (_ & _ & _ & _ & Hd1 & Hd2 & Hd3 & Hd4 & Hd5) & [(err & Hr & _)|(c3 & Hr & ->)])]];
    try discriminate Hr.
  - exfalso. revert Hattempts. rewrite count_app, Hc5. discriminate.
  - injection Hr as ->. cbn [ctx].
    exists a, ([EvNewAllocator a; EvNewContext a c] ++ l1 ++
               [EvCancel c; EvNewAllocator va; EvNewContext va c2] ++ l2 ++ [EvCancel c2]),
      [EvCancelAllocator va].
    split; [reflexivity|]. split; [same_trace|].
    split; [count_up|]. split; [count_up|reflexivity].
Qed.

(** Every command of [NewScraper] goes to a context it has created; it
    releases nothing in a goroutine, calls no language model and prints
    lines only. *)
Lemma NewScraper_scope e p u w r w' tr :
  NewScraper e p u w = (Ret r, w', tr) ->
  commandsInOwnSessions tr /\ count isGo tr = 0 /\ profilesSent tr = [] /\
  printsLines tr /\ observed tr = [].
Proof.
  intros Hn.
  assert (Ho : observed tr = []).
  { destruct (NewScraper_run e p u w) as (r' & w0' & t0' & Hn' & Ho & _).
    rewrite Hn in Hn'. inversion Hn'; subst. assumption. }
  destruct (NewScraper_paths _ _ _ _ _ _ _ Hn) as (a & c & l1 & Hl1 & Hpaths).
  destruct (loginTrace_no_go _ _ Hl1) as (Hg1 & _).
  destruct Hl1 as (_ & Hs1 & Hp1 & Ht1 & _).
  assert (Hfirst : commandsInOwnSessions ([EvNewAllocator a; EvNewContext a c] ++ l1)).
  { eapply scope_to_context; [|right; left; reflexivity|exact Ht1].
    apply scope_no_command. intros c' a'; simpl; intuition discriminate. }
  destruct Hpaths as [[-> ->]|[(err & -> & _ & ->)|
    (va & c2 & l2 & Hl2 & Hrest)]].
  - split; [assumption|]. rewrite count_app, profilesSent_app, Hg1, Hs1.
    repeat split; [|assumption]. apply printsLines_app; [lines|assumption].
  - split; [assumption|]. rewrite count_app, profilesSent_app, Hg1, Hs1.
    repeat split; [|assumption]. apply printsLines_app; [lines|assumption].
  - destruct (loginTrace_no_go _ _ Hl2) as (Hg2 & _).
    destruct Hl2 as (_ & Hs2 & Hp2 & Ht2 & _).
    assert (Hsecond : commandsInOwnSessions
      ((([EvNewAllocator a; EvNewContext a c] ++ l1) ++
        [EvCancel c; EvNewAllocator va; EvNewContext va c2]) ++ l2)).
    { eapply scope_to_context; [| |exact Ht2].
      - apply scope_app; [assumption|]. intros c' a'; simpl; intuition discriminate.
      - apply in_or_app. right. simpl. eauto. }
    destruct Hrest as [(err & -> & ->)|(c3 & -> & ->)].
    + split; [|rewrite !count_app, !profilesSent_app, Hg1, Hg2, Hs1, Hs2;
               repeat split; [|assumption];
               repeat apply printsLines_app; first [assumption | lines]].
      rewrite !app_assoc. apply scope_app; [rewrite <- ?app_assoc in *; assumption|].
      intros c' a'; simpl; intuition discriminate.
    + split; [|rewrite !count_app, !profilesSent_app, Hg1, Hg2, Hs1, Hs2;
               repeat split; [|assumption];
               repeat apply printsLines_app; first [assumption | lines]].
      rewrite !app_assoc. apply scope_app; [rewrite <- ?app_assoc in *; assumption|].
      intros c' a'; simpl; intuition discriminate.
Qed.

(** The scraper [NewScraper] returns: an empty profile, in a context the
    run has created and that is the one left open. *)
Lemma NewScraper_fresh e p u w s w' tr :
  NewScraper e p u w = (Ret (Some s, None), w', tr) ->
  Profile s = emptyProfile /\ cancel s = ctx s /\
  (exists alloc, In (EvNewContext alloc (ctx s)) tr) /\
  count isNewContext tr = S (count isCancel tr).
Proof.
  intros Hn.
  destruct (NewScraper_paths _ _ _ _ _ _ _ Hn)
    as (a & c & l1 & (_ & _ & _ & _ & Hc1 & Hc2 & Hc3 & Hc4 & Hc5) & Hpaths).
  destruct Hpaths as [[Hr ->]|[(err & Hr & _)|
    (va & c2 & l2 & (_ & _ & _ & _ & Hd1 & Hd2 & Hd3 & Hd4 & Hd5) &
     [(err & Hr & _)|(c3 & Hr & ->)])]];
    try discriminate Hr; injection Hr as ->.
  - repeat split; [exists a; simpl; tauto|count_up].
  - repeat split; [exists a; rewrite !in_app_iff; simpl; tauto|count_up].
Qed.

(** The error [NewScraper] returns comes from a login. *)
Lemma NewScraper_error e p u w err w' tr :
  NewScraper e p u w = (Ret (None, Some err), w', tr) ->
  exists e', err = "failed to login: " +:+ e' \/
             err = "failed to login even with verification: " +:+ e'.
Proof.
  intros Hn.
  destruct (NewScraper_paths _ _ _ _ _ _ _ Hn) as (a & c & l1 & _ & Hpaths).
  destruct Hpaths as [[Hr _]|[(e' & Hr & _)|
    (va & c2 & l2 & _ & [(e' & Hr & _)|(c3 & Hr & _)])]];
    try discriminate Hr; injection Hr as ->; eauto.
Qed.

End SessionsOfNewScraper.

Section Anatomy.
Context {W : Type} `{!Browser W} `{!GoLib}.

(** The gated block, or its absence: what it adds to the run and what it
    leaves of the scraper. *)
Lemma gate_anatomy s2 w2 s3 w3 t3 :
  (if (List.length (Posts (Profile s2)) <=? 2)%nat
   then fullExtraction s2 w2 else (Ret s2, w2, [])) = (Ret s3, w3, t3) ->
  quiet t3 /\ toContext (ctx s2) t3 /\
  cancel s3 = cancel s2 /\ About (Profile s3) = About (Profile s2) /\
  Posts (Profile s3) = Posts (Profile s2) /\
  (responses t3 = [] \/ responses t3 = [(TextBody serverErrorText, 500)]) /\
  (forall n, ~ In (EvPrint (PLen n)) t3) /\
  stepsStarted t3 =
    (if (List.length (Posts (Profile s2)) <=? 2)%nat
     then ["Getting experience"; "Getting education"] else []) /\
  (2 < List.length (Posts (Profile s2)) -> s3 = s2) /\
  (forall e, ~ In (EvLog ("error while getting posts: " +:+ e)) t3) /\
  (responses t3 <> [] -> exists e, In (EvLog ("error while getting education: " +:+ e)) t3) /\
  (forall code, ~ In (EvPrint (PStatus code)) t3).
Proof.
  destruct (List.length (Posts (Profile s2)) <=? 2)%nat eqn:Hle.
  2: { intros Heq; inversion Heq; subst.
       split; [constructor|]. split; [intros c a []|].
       split; [reflexivity|]. split; [reflexivity|]. split; [reflexivity|].
       split; [left; reflexivity|]. split; [intros n []|]. split; [reflexivity|].
       split; [reflexivity|]. split; [intros e []|].
       split; [intros Hr; by destruct Hr|intros code []]. }
  destruct (fullExtraction_run s2 w2)
    as (sa & e3 & wa & ta & sb & e4 & wb & tb & Ha & Hb & Hf & Hoa & Hob & Hp).
  rewrite Hf. intros Heq; inversion Heq; subst s3 w3 t3. clear Heq.
  destruct (GetExperiences_keeps _ _ _ _ _ _ Ha) as (Hca & Hka & Haa & Hpa).
  destruct (GetEducation_keeps _ _ _ _ _ _ Hb) as (Hcb & Hkb & Hab & Hpb).
  destruct (GetExperiences_events _ _ _ _ _ Ha) as (Hsa & Hta).
  destruct (GetEducation_events _ _ _ _ _ Hb) as (Hsb & Htb).
  destruct (stepEvents_facts _ Hsa) as (Hqa & Hla & Hna & Hra & Hia).
  destruct (stepEvents_facts _ Hsb) as (Hqb & Hlb & Hnb & Hrb & Hib).
  rewrite Hca in Htb.
  split; [repeat apply quiet_app; auto using quiet_logged, quiet_surfaced|].
  split; [repeat apply toContext_app; auto using toContext_logged, toContext_surfaced|].
  split; [congruence|]. split; [congruence|]. split; [congruence|].
  split; [|split; [|split; [|split; [|split; [|split]]]]].
  - rewrite !responses_app, Hra, Hrb, responses_logged. destruct e4; simpl; auto.
  - intros n. rewrite !in_app_iff. intros [Hx|[Hx|[Hx|Hx]]].
    + by eapply Hna. + destruct e3; simpl in Hx; intuition discriminate.
    + by eapply Hnb. + destruct e4; simpl in Hx; intuition discriminate.
  - rewrite !stepsStarted_app, stepsStarted_logged, stepsStarted_surfaced.
    rewrite (stepsStarted_of_observed _ _ Hoa), (stepsStarted_of_observed _ _ Hob).
    reflexivity.
  - apply Nat.leb_le in Hle. lia.
  - intros e. rewrite !in_app_iff. intros [Hx|[Hx|[Hx|Hx]]].
    + by eapply Hla. + destruct e3; simpl in Hx; intuition discriminate.
    + by eapply Hlb. + destruct e4; simpl in Hx; intuition discriminate.
  - rewrite !responses_app, Hra, Hrb, responses_logged. destruct e4 as [e|]; simpl.
    + intros _. exists e. rewrite !in_app_iff. simpl. tauto.
    + intros Hr. by destruct Hr.
  - intros code. rewrite !in_app_iff. intros [Hx|[Hx|[Hx|Hx]]].
    + destruct (Hia _ Hx) as (l & Hl). discriminate.
    + destruct e3; simpl in Hx; intuition discriminate.
    + destruct (Hib _ Hx) as (l & Hl). discriminate.
    + destruct e4; simpl in Hx; intuition discriminate.
Qed.

(** The handler once it holds a scraper: the run of [NewScraper], then a
    quiet middle part with the steps, then the end of the handler. *)
Lemma Home_anatomy srv body w d s0 w0 t0 :
  DecodeReqBody body = inr d ->
  ValidEmail (Email d) = true ->
  NewScraper (Email d) (Password d) (LinkedinUrl d) w = (Ret (Some s0, None), w0, t0) ->
  exists mid s3 w3 out wf t4,
    Home srv body w = (out, wf, t0 ++ mid ++ t4) /\
    respond srv s3 w3 = (out, wf, t4) /\
    quiet mid /\ toContext (ctx s0) mid /\
    cancel s3 = cancel s0 /\
    About (Profile s3) = About (Profile s0) /\
    (responses mid = [] \/ responses mid = [(TextBody serverErrorText, 500)]) /\
    (forall n, In (EvPrint (PLen n)) mid <-> n = List.length (Posts (Profile s3))) /\
    stepsStarted mid =
      ["Getting name and location"; "Getting latest posts"] ++
      (if (List.length (Posts (Profile s3)) <=? 2)%nat
       then ["Getting experience"; "Getting education"] else []) /\
    (2 < List.length (Posts (Profile s3)) ->
     ExperienceList (Profile s3) = ExperienceList (Profile s0) /\
     EducationList (Profile s3) = EducationList (Profile s0)) /\
    (forall e, In (EvLog ("error while getting posts: " +:+ e)) mid ->
               Posts (Profile s3) = Posts (Profile s0)) /\
    (responses mid <> [] ->
     exists e, In (EvLog ("error while getting education: " +:+ e)) mid) /\
    (forall code, ~ In (EvPrint (PStatus code)) mid).
Proof.
  intros Hd Hv Hn.
  destruct (Home_run srv body w d s0 w0 t0 Hd Hv Hn)
    as (s1 & e1 & w1 & t1 & s2 & e2 & w2 & t2 & s3 & w3 & t3 & out & wf & t4 &
        H1 & H2 & Hg & H4 & HH & Ho1 & Ho2).
  destruct (GetNameAndLocation_keeps _ _ _ _ _ _ H1) as (Hc1 & Hk1 & _ & Ha1 & Hx1 & Hed1 & Hp1).
  destruct (GetRecentPosts_keeps _ _ _ _ _ _ H2) as (Hc2 & Hk2 & _ & Ha2 & Hx2 & Hed2 & Hp2).
  destruct (GetNameAndLocation_events _ _ _ _ _ H1) as (Hs1 & Ht1).
  destruct (GetRecentPosts_events _ _ _ _ _ H2) as (Hs2 & Ht2).
  destruct (stepEvents_facts _ Hs1) as (Hq1 & Hl1 & Hn1 & Hr1 & Hi1).
  destruct (stepEvents_facts _ Hs2) as (Hq2 & Hl2 & Hn2 & Hr2 & Hi2).
  destruct (gate_anatomy _ _ _ _ _ Hg)
    as (Hq3 & Ht3 & Hk3 & Ha3 & Hp3 & Hr3 & Hn3 & Hst3 & Hsame & Hl3 & He3 & Hi3).
  rewrite Hc1 in Ht2. rewrite Hc2, Hc1 in Ht3.
  exists (t1 ++ logged "error while getting name && location: " e1 ++
          t2 ++ logged "error while getting posts: " e2 ++
          [EvPrint (PLen (List.length (Posts (Profile s2))))] ++ t3),
    s3, w3, out, wf, t4.
  split; [rewrite HH; f_equal; rewrite <- !app_assoc; reflexivity|].
  split; [assumption|].
  split; [repeat apply quiet_app; auto using quiet_logged; repeat constructor|].
  split.
  { repeat apply toContext_app; auto using toContext_logged.
    intros c a; simpl; intuition discriminate. }
  split; [congruence|]. split; [congruence|].
  split; [|split; [|split; [|split; [|split; [|split]]]]].
  - rewrite !responses_app, Hr1, Hr2, !responses_logged. simpl. exact Hr3.
  - intros n. rewrite !in_app_iff. rewrite Hp3. split.
    + intros [Hx|[Hx|[Hx|[Hx|[Hx|Hx]]]]].
      * by destruct (Hn1 n). * destruct e1; simpl in Hx; intuition discriminate.
      * by destruct (Hn2 n). * destruct e2; simpl in Hx; intuition discriminate.
      * simpl in Hx. destruct Hx as [[= <-]|[]]. reflexivity.
      * by destruct (Hn3 n).
    + intros ->. right; right; right; right; left. simpl. tauto.
  - rewrite !stepsStarted_app, !stepsStarted_logged.
    rewrite (stepsStarted_of_observed _ _ Ho1), (stepsStarted_of_observed _ _ Ho2).
    rewrite Hst3, Hp3. reflexivity.
  - rewrite Hp3. intros Hgt. rewrite (Hsame Hgt). split; congruence.
  - intros e. rewrite !in_app_iff. intros [Hx|[Hx|[Hx|[Hx|[Hx|Hx]]]]].
    + by destruct (Hl1 _ Hx).
    + destruct e1; simpl in Hx; intuition discriminate.
    + by destruct (Hl2 _ Hx).
    + destruct e2 as [e2|]; simpl in Hx; [|tauto].
      rewrite Hp3, Hp2, Hp1; [reflexivity|discriminate].
    + simpl in Hx. intuition discriminate.
    + by destruct (Hl3 _ Hx).
  - rewrite !responses_app, Hr1, Hr2, !responses_logged. simpl.
    intros Hr. destruct (He3 Hr) as (e & Hin). exists e.
    rewrite !in_app_iff. simpl. tauto.
  - intros code. rewrite !in_app_iff. intros [Hx|[Hx|[Hx|[Hx|[Hx|Hx]]]]].
    + destruct (Hi1 _ Hx) as (l & Hl). discriminate.
    + destruct e1; simpl in Hx; intuition discriminate.
    + destruct (Hi2 _ Hx) as (l & Hl). discriminate.
    + destruct e2; simpl in Hx; intuition discriminate.
    + simpl in Hx. intuition discriminate.
    + by destruct (Hi3 code).
Qed.

(** The runs of the handler by the way they end. *)
Lemma Home_cases srv body w :
  (exists msg c, Home srv body w = (Ret tt, w, [EvWriteResponse (TextBody msg) c]) /\
                 (c = 500 \/ c = 400)) \/
  (exists d err w0 t0,
     NewScraper (Email d) (Password d) (LinkedinUrl d) w = (Ret (None, Some err), w0, t0) /\
     Home srv body w =
       (Panic, w0, t0 ++ [EvLog ("error while getting posts: " +:+ err);
                          EvPrint (PStr "Getting name and location")])) \/
  (exists d s0 w0 t0,
     DecodeReqBody body = inr d /\ ValidEmail (Email d) = true /\
     NewScraper (Email d) (Password d) (LinkedinUrl d) w = (Ret (Some s0, None), w0, t0)).
Proof.
  destruct (DecodeReqBody body) as [e|d] eqn:Hd.
  { left. eexists _, _. split; [by eapply Home_undecodable|tauto]. }
  destruct (ValidEmail (Email d)) eqn:Hv.
  2: { left. eexists _, _. split; [by eapply Home_invalid_email|tauto]. }
  destruct (NewScraper_run (Email d) (Password d) (LinkedinUrl d) w)
    as (r & w0 & t0 & Hn & _ & [(s0 & ->)|(err & ->)]).
  - right; right. eauto 10.
  - right; left. exists d, err, w0, t0. split; [assumption|].
    by eapply Home_after_failed_login.
Qed.

End Anatomy.

Lemma no_commands tr c a : browserCommands tr = [] -> ~ In (EvRun c a) tr.
Proof.
  intros Hb Hin. apply list_elem_of_In in Hin.
  assert (Hc : (c, a) ∈ browserCommands tr).
  { unfold browserCommands. apply list_elem_of_omap. exists (EvRun c a). split; [assumption|reflexivity]. }
  rewrite Hb in Hc. by apply elem_of_nil in Hc.
Qed.

Section HandlerAsAWhole.
Context {W : Type} `{!Browser W} `{!GoLib}.

(** X9: every command the handler sends to a browser goes to a context
    that this request has created before. *)
Theorem Home_commands_in_own_sessions srv body w :
  commandsInOwnSessions (Home srv body w).2.
Proof.
  destruct (Home_cases srv body w)
    as [(msg & c & -> & _)|[(d & err & w0 & t0 & Hn & ->)|(d & s0 & w0 & t0 & Hd & Hv & Hn)]].
  - apply scope_no_command. intros c' a; simpl; intuition discriminate.
  - destruct (NewScraper_scope _ _ _ _ _ _ _ Hn) as (Hs & _).
    apply scope_app; [assumption|]. intros c a; simpl; intuition discriminate.
  - destruct (NewScraper_scope _ _ _ _ _ _ _ Hn) as (Hs & _).
    destruct (NewScraper_fresh _ _ _ _ _ _ _ Hn) as (_ & _ & (alloc & Hin) & _).
    destruct (Home_anatomy srv body w d s0 w0 t0 Hd Hv Hn)
      as (mid & s3 & w3 & out & wf & t4 & -> & Hr & _ & Hmid & _).
    destruct (respond_trace _ _ _ _ _ _ Hr) as (rest & -> & _ & Hb & _).
    cbn [snd]. rewrite app_assoc. apply scope_app.
    + eapply scope_to_context; eassumption.
    + intros c a. rewrite in_app_iff. intros [Hx|Hx].
      * simpl in Hx. intuition discriminate.
      * by destruct (no_commands _ _ _ Hb Hx).
Qed.

(** X10: the handler releases the session at most once.  Either no
    goroutine is spawned, and then the handler panicked or opened no session
    at all; or exactly one is, for a context this request created, and no
    command is sent to a browser after it is spawned: whenever it runs, it
    cancels a context that nothing uses any more (the model runs it at
    once), and every context the request created is then cancelled. *)
Theorem Home_releases_session_once srv body w :
  let tr := (Home srv body w).2 in
  (count isGo tr = 0 /\ ((Home srv body w).1.1 = Panic \/ sessionsOpened tr = 0)) \/
  (exists before c after,
     tr = before ++ EvGo c :: EvCancel c :: after /\
     (exists alloc, In (EvNewContext alloc c) before) /\
     count isGo before = 0 /\ count isGo after = 0 /\
     browserCommands after = [] /\
     count isNewContext tr = count isCancel tr).
Proof.
  intros tr. subst tr.
  destruct (Home_cases srv body w)
    as [(msg & c & -> & _)|[(d & err & w0 & t0 & Hn & ->)|(d & s0 & w0 & t0 & Hd & Hv & Hn)]].
  - left. split; [reflexivity|right; reflexivity].
  - left. destruct (NewScraper_scope _ _ _ _ _ _ _ Hn) as (_ & Hg & _).
    cbn [fst snd]. rewrite count_app, Hg. split; [reflexivity|left; reflexivity].
  - right.
    destruct (NewScraper_scope _ _ _ _ _ _ _ Hn) as (_ & Hg & _).
    destruct (NewScraper_fresh _ _ _ _ _ _ _ Hn) as (_ & Hcancel & (alloc & Hin) & Hcount).
    destruct (Home_anatomy srv body w d s0 w0 t0 Hd Hv Hn)
      as (mid & s3 & w3 & out & wf & t4 & -> & Hr & Hq & _ & Hk & _).
    destruct (respond_trace _ _ _ _ _ _ Hr) as (rest & -> & Hqr & Hb & _).
    destruct (quiet_counts _ Hq) as (Hm1 & Hm2 & _ & _ & Hm5 & _).
    destruct (quiet_counts _ Hqr) as (Hr1 & Hr2 & _ & _ & Hr5 & _).
    cbn [snd]. rewrite Hk, Hcancel.
    exists (t0 ++ mid), (ctx s0),
      ([EvPrint (PProfile (Profile s3)); EvChatCompletion (Profile s3)] ++ rest).
    split; [rewrite <- !app_assoc; reflexivity|].
    split; [exists alloc; apply in_or_app; tauto|].
    split; [rewrite count_app, Hg, Hm5; reflexivity|].
    split; [rewrite count_app, Hr5; reflexivity|].
    split; [rewrite browserCommands_app, Hb; reflexivity|].
    rewrite !count_app, Hcount, Hm1, Hm2, Hr1, Hr2. simpl. lia.
Qed.

(** X11: the handler never runs the about step, and the About of every
    profile it hands to the language model is empty. *)
Theorem Home_never_reads_about srv body w :
  let tr := (Home srv body w).2 in
  ~ In "Getting about" (stepsStarted tr) /\
  Forall (fun p => About p = "") (profilesSent tr).
Proof.
  intros tr. subst tr.
  destruct (Home_cases srv body w)
    as [(msg & c & -> & _)|[(d & err & w0 & t0 & Hn & ->)|(d & s0 & w0 & t0 & Hd & Hv & Hn)]].
  - split; [intros []|constructor].
  - destruct (NewScraper_scope _ _ _ _ _ _ _ Hn) as (_ & _ & Hs & _ & Ho).
    cbn [snd]. rewrite stepsStarted_app, profilesSent_app, Hs,
      (stepsStarted_of_observed _ _ Ho).
    split; [simpl; intuition discriminate|constructor].
  - destruct (NewScraper_scope _ _ _ _ _ _ _ Hn) as (_ & _ & Hs & _ & Ho).
    destruct (NewScraper_fresh _ _ _ _ _ _ _ Hn) as (Hempty & _).
    destruct (Home_anatomy srv body w d s0 w0 t0 Hd Hv Hn)
      as (mid & s3 & w3 & out & wf & t4 & -> & Hr & Hq & _ & _ & Hab & _ & _ & Hst & _).
    destruct (respond_run srv s3 w3) as (out' & wf' & t4' & rs & Hr' & Ho4 & Hrs).
    rewrite Hr in Hr'. inversion Hr'; subst out' wf' t4'. clear Hr'.
    destruct (respond_trace _ _ _ _ _ _ Hr) as (rest & Ht4 & Hqr & _).
    destruct (quiet_counts _ Hq) as (_ & _ & _ & _ & _ & Hm6 & _).
    destruct (quiet_counts _ Hqr) as (_ & _ & _ & _ & _ & Hr6 & _).
    cbn [snd]. split.
    + rewrite !stepsStarted_app, (stepsStarted_of_observed _ _ Ho), Hst,
        (stepsStarted_of_observed _ _ Ho4).
      assert (Hnone : omap (fun o => match o with OStep name => Some name | _ => None end)
                        (OClose :: OProfile (Profile s3) :: rs) = []).
      { destruct Hrs as [[-> _]|(m & c & -> & _)]; reflexivity. }
      rewrite Hnone.
      destruct (_ <=? _)%nat; simpl; intuition discriminate.
    + rewrite !profilesSent_app, Hs, Hm6, Ht4, profilesSent_app, Hr6. simpl.
      constructor; [|constructor]. rewrite Hab, Hempty. reflexivity.
Qed.

(** X12: the handler writes at most two responses.  A run that does not
    panic writes at least one; a run that panics has written nothing or the
    server error of the education step.  Two responses are written only
    after an error of the education step, whose server error is the first. *)
Theorem Home_writes_at_most_two_responses srv body w :
  let run := Home srv body w in
  let answers := responses run.2 in
  List.length answers <= 2 /\
  (run.1.1 = Ret tt -> answers <> []) /\
  (run.1.1 = Panic -> answers = [] \/ answers = [(TextBody serverErrorText, 500)]) /\
  (List.length answers = 2 ->
   exists final e,
     answers = [(TextBody serverErrorText, 500); final] /\
     In (EvLog ("error while getting education: " +:+ e)) run.2).
Proof.
  intros run answers. subst run answers.
  destruct (Home_cases srv body w)
    as [(msg & c & -> & _)|[(d & err & w0 & t0 & Hn & ->)|(d & s0 & w0 & t0 & Hd & Hv & Hn)]].
  - cbn. split; [lia|]. split; [discriminate|]. split; discriminate.
  - destruct (NewScraper_scope _ _ _ _ _ _ _ Hn) as (_ & _ & _ & _ & Ho).
    cbn [fst snd]. rewrite responses_app, (responses_of_observed _ _ Ho).
    cbn. split; [lia|]. split; [discriminate|]. split; [tauto|discriminate].
  - destruct (NewScraper_scope _ _ _ _ _ _ _ Hn) as (_ & _ & _ & _ & Ho).
    destruct (Home_anatomy srv body w d s0 w0 t0 Hd Hv Hn)
      as (mid & s3 & w3 & out & wf & t4 & -> & Hr & _ & _ & _ & _ & Hrm & _ & _ & _ & _ & He & _).
    destruct (respond_run srv s3 w3) as (out' & wf' & t4' & rs & Hr' & Ho4 & Hrs).
    rewrite Hr in Hr'. inversion Hr'; subst out' wf' t4'. clear Hr'.
    cbn [fst snd].
    rewrite !responses_app, (responses_of_observed _ _ Ho), (responses_of_observed _ _ Ho4).
    cbn [omap app]. csimpl.
    destruct Hrs as [[-> ->]|(m & c & -> & ->)]; csimpl.
    + rewrite app_nil_r. destruct Hrm as [Hm|Hm]; rewrite Hm; cbn.
      * split; [lia|]. split; [discriminate|]. split; [tauto|discriminate].
      * split; [lia|]. split; [discriminate|]. split; [tauto|discriminate].
    + destruct Hrm as [Hm|Hm].
      * rewrite Hm. cbn. split; [lia|]. split; [discriminate|]. split; discriminate.
      * destruct He as (e & Hin); [rewrite Hm; discriminate|].
        rewrite Hm. cbn. split; [lia|]. split; [discriminate|]. split; [discriminate|].
        intros _. exists (m, c), e. split; [reflexivity|].
        rewrite !in_app_iff. tauto.
Qed.

(** X13: an error status of the language model is answered as a success.
    When the handler prints the status of the model's answer (it does so for
    a status other than 200 only), it does not panic, and its last response
    is a [HomeRes] with status 200 and an empty message, unless the posts
    cannot be marshalled, in which case it is the server error. *)
Theorem Home_answers_model_failure_with_success srv body w code :
  let run := Home srv body w in
  In (EvPrint (PStatus code)) run.2 ->
  code <> 200 /\ run.1.1 = Ret tt /\
  exists earlier final,
    responses run.2 = earlier ++ [final] /\
    ((exists res, final = (HomeBody res, 200) /\ Msg res = "") \/
     (final = (TextBody serverErrorText, 500) /\
      exists p e, In (EvChatCompletion p) run.2 /\ jsonMarshalPosts (Posts p) = inl e)).
Proof.
  intros run. subst run.
  destruct (Home_cases srv body w)
    as [(msg & c & -> & _)|[(d & err & w0 & t0 & Hn & ->)|(d & s0 & w0 & t0 & Hd & Hv & Hn)]].
  - cbn. intuition discriminate.
  - destruct (NewScraper_scope _ _ _ _ _ _ _ Hn) as (_ & _ & _ & Hp & _).
    cbn [fst snd]. rewrite in_app_iff. intros [Hx|Hx].
    + destruct (Hp _ Hx) as (l & Hl). discriminate.
    + simpl in Hx. intuition discriminate.
  - destruct (NewScraper_scope _ _ _ _ _ _ _ Hn) as (_ & _ & _ & Hp & Ho).
    destruct (Home_anatomy srv body w d s0 w0 t0 Hd Hv Hn)
      as (mid & s3 & w3 & out & wf & t4 & -> & Hr & _ & _ & _ & _ & Hrm & _ & _ & _ & _ & _ & Hi).
    destruct (respond_trace _ _ _ _ _ _ Hr) as (rest & -> & _ & _ & _ & _ & Hout).
    cbn [fst snd]. rewrite !in_app_iff. intros [Hx|[Hx|[Hx|Hx]]].
    + destruct (Hp _ Hx) as (l & Hl). discriminate.
    + by destruct (Hi code).
    + simpl in Hx. intuition discriminate.
    + destruct out as [[]|]; [|subst rest; destruct Hx].
      destruct Hout as (prints & msg & c & -> & Hrp & Hcases & Hcode).
      apply in_app_or in Hx as [Hx|Hx]; [|simpl in Hx; intuition discriminate].
      split; [by apply Hcode|]. split; [reflexivity|].
      exists (responses mid), (msg, c). split.
      * rewrite !responses_app, (responses_of_observed _ _ Ho), Hrp. reflexivity.
      * destruct Hcases as [(-> & -> & Hfail)|(-> & res & -> & _ & Hmsg & _)].
        -- right. split; [reflexivity|]. destruct (Hfail _ Hx) as (e & He).
           exists (Profile s3), e. split; [|assumption].
           rewrite !in_app_iff. simpl. tauto.
        -- left. exists res. split; [reflexivity|]. by eapply Hmsg.
Qed.

End HandlerAsAWhole.

Lemma In_responses tr msg c : In (EvWriteResponse msg c) tr -> In (msg, c) (responses tr).
Proof.
  intros Hin. apply list_elem_of_In. unfold responses.
  apply list_elem_of_omap. exists (OResponse msg c). split; [|reflexivity].
  apply list_elem_of_In. eapply observed_In; [exact Hin|reflexivity].
Qed.

Lemma last_app_singleton {A} (l : list A) x : last (l ++ [x]) = Some x.
Proof. apply last_snoc. Qed.

Section Responses.
Context {W : Type} `{!Browser W} `{!GoLib}.

(** The labels [GetUsedParams] returns. *)
Lemma GetUsedParams_In profile w params w' :
  GetUsedParams profile w = (Ret params, w', []) ->
  forall label,
    In label params <->
    (label = "Posts" /\ Posts profile <> []) \/
    (label = "Experience" /\ ExperienceList profile <> []) \/
    (label = "Education" /\ EducationList profile <> []) \/
    (label = "Location" /\ Location profile <> "") \/
    (label = "Name" /\ Name profile <> "").
Proof.
  pose proof (mapRange_perm (map_to_list (checks profile)) w) as Hperm.
  unfold GetUsedParams. unfold_run.
  destruct (mapRange (map_to_list (checks profile)) w) as [visited w1] eqn:Hrange.
  simpl in Hperm. intros Heq; inversion Heq; subst params w'. clear Heq.
  assert (Hvisited : Permutation visited _)
    by (etransitivity; [symmetry; exact Hperm|apply checks_entries]).
  rewrite usedParamsLoop_filter.
  intros label. rewrite in_map_iff. split.
  - intros ([k check] & Hk & Hin). simpl in Hk. subst k.
    apply filter_In in Hin as [Hin Hcheck]. simpl in Hcheck.
    apply (Permutation_in _ Hvisited) in Hin. simpl in Hin.
    destruct Hin as [Heq|[Heq|[Heq|[Heq|[Heq|[]]]]]]; inversion Heq; subst; clear Heq.
    + left. split; [reflexivity|by apply nonempty_length].
    + right; left. split; [reflexivity|by apply nonempty_length].
    + right; right; left. split; [reflexivity|by apply nonempty_length].
    + right; right; right; left. split; [reflexivity|by apply nonempty_string].
    + right; right; right; right. split; [reflexivity|by apply nonempty_string].
  - intros Hcase.
    assert (Hentry : exists check : unit -> bool,
      In (label, check) visited /\ check tt = true).
    { destruct Hcase as [[-> Hne]|[[-> Hne]|[[-> Hne]|[[-> Hne]|[-> Hne]]]]];
        eexists; (split; [apply (Permutation_in _ (Permutation_sym Hvisited)); simpl|]).
      1: left; reflexivity. 1: by apply nonempty_length.
      1: right; left; reflexivity. 1: by apply nonempty_length.
      1: right; right; left; reflexivity. 1: by apply nonempty_length.
      1: right; right; right; left; reflexivity. 1: by apply nonempty_string.
      1: right; right; right; right; left; reflexivity. by apply nonempty_string. }
    destruct Hentry as (check & Hin & Hcheck).
    exists (label, check). split; [reflexivity|].
    apply filter_In. split; assumption.
Qed.

(** A run that writes a [HomeRes]: it is the last event, of a handler that
    held a scraper and reached the end. *)
Lemma Home_success_anatomy srv body w res c :
  In (EvWriteResponse (HomeBody res) c) (Home srv body w).2 ->
  c = 200 /\ (Home srv body w).1.1 = Ret tt /\
  last (Home srv body w).2 = Some (EvWriteResponse (HomeBody res) 200) /\
  exists p,
    profilesSent (Home srv body w).2 = [p] /\
    jsonMarshalPosts (Posts p) = inr (RecentPosts res) /\
    (forall n, In (EvPrint (PLen n)) (Home srv body w).2 <-> n = List.length (Posts p)) /\
    (2 < List.length (Posts p) -> ExperienceList p = [] /\ EducationList p = []) /\
    exists w1 w2, GetUsedParams p w1 = (Ret (ParamsUsed res), w2, []).
Proof.
  destruct (Home_cases srv body w)
    as [(msg & c' & -> & _)|[(d & err & w0 & t0 & Hn & ->)|(d & s0 & w0 & t0 & Hd & Hv & Hn)]].
  - cbn. intuition discriminate.
  - destruct (NewScraper_scope _ _ _ _ _ _ _ Hn) as (_ & _ & _ & _ & Ho).
    cbn [snd]. rewrite in_app_iff. intros [Hx|Hx].
    + eapply observed_In in Hx; [|reflexivity]. rewrite Ho in Hx. destruct Hx.
    + simpl in Hx. intuition discriminate.
  - destruct (NewScraper_scope _ _ _ _ _ _ _ Hn) as (_ & _ & Hs0 & Hp0 & Ho).
    destruct (NewScraper_fresh _ _ _ _ _ _ _ Hn) as (Hempty & _).
    destruct (Home_anatomy srv body w d s0 w0 t0 Hd Hv Hn)
      as (mid & s3 & w3 & out & wf & t4 & -> & Hr & Hq & _ & _ & _ & Hrm & Hlen & _ &
          Hgate & _ & _ & _).
    destruct (respond_trace _ _ _ _ _ _ Hr) as (rest & -> & Hqr & _ & _ & Hnr & Hout).
    destruct (quiet_counts _ Hq) as (_ & _ & _ & _ & _ & Hm6 & _).
    destruct (quiet_counts _ Hqr) as (_ & _ & _ & _ & _ & Hr6 & _).
    cbn [fst snd]. rewrite !in_app_iff. intros [Hx|[Hx|[Hx|Hx]]].
    + eapply observed_In in Hx; [|reflexivity]. rewrite Ho in Hx. destruct Hx.
    + apply In_responses in Hx.
      destruct Hrm as [Hm|Hm]; rewrite Hm in Hx; simpl in Hx; intuition discriminate.
    + simpl in Hx. intuition discriminate.
    + destruct out as [[]|]; [|subst rest; destruct Hx].
      destruct Hout as (prints & msg & c' & -> & Hrp & Hcases & _).
      apply in_app_or in Hx as [Hx|Hx].
      { apply In_responses in Hx. rewrite Hrp in Hx. destruct Hx. }
      simpl in Hx. destruct Hx as [Hx|[]]. injection Hx as -> ->.
      destruct Hcases as [(_ & Hmsg & _)|(-> & res' & Hres & Hjson & _ & Hparams)];
        [discriminate|].
      injection Hres as <-.
      split; [reflexivity|]. split; [reflexivity|].
      split; [rewrite !app_assoc; apply last_app_singleton|].
      exists (Profile s3).
      split; [rewrite 3!profilesSent_app, Hs0, Hm6, Hr6; reflexivity|].
      split; [assumption|]. split; [|split; [|assumption]].
      * intros n. rewrite <- Hlen, !in_app_iff. split; [|tauto].
        intros [Hy|[Hy|[Hy|Hy]]]; [| assumption | |].
        -- destruct (Hp0 _ Hy) as (l & Hl). discriminate.
        -- simpl in Hy. destruct Hy as [Hy|[Hy|[Hy|[Hy|[]]]]]; discriminate Hy.
        -- destruct (Hnr n). apply in_or_app. exact Hy.
      * intros Hgt. destruct (Hgate Hgt) as (-> & ->). rewrite Hempty. split; reflexivity.
Qed.

(** X14: a [HomeRes] is written with status 200 only, as the last event
    of a handler that did not panic; the handler called the language model
    once, and the recent posts of the response are the JSON of the posts of
    the profile it sent, whose number it printed at the gate. *)
Theorem Home_success_response_matches_profile srv body w res c :
  let run := Home srv body w in
  In (EvWriteResponse (HomeBody res) c) run.2 ->
  c = 200 /\ run.1.1 = Ret tt /\
  last run.2 = Some (EvWriteResponse (HomeBody res) 200) /\
  exists p,
    profilesSent run.2 = [p] /\
    jsonMarshalPosts (Posts p) = inr (RecentPosts res) /\
    In (EvPrint (PLen (List.length (Posts p)))) run.2.
Proof.
  intros run Hin. subst run.
  destruct (Home_success_anatomy _ _ _ _ _ Hin) as (-> & Hout & Hlast & p & Hp & Hj & Hn & _).
  split; [reflexivity|]. split; [assumption|]. split; [assumption|].
  exists p. split; [assumption|]. split; [assumption|]. by apply Hn.
Qed.

(** X15: the parameters of a response follow the gate.  In a run that
    printed the post count [n] and wrote a [HomeRes], Posts is among the
    parameters if and only if [n] is positive; with more than two posts
    neither Experience nor Education is; and every parameter is one of the
    five labels. *)
Theorem Home_params_follow_gate srv body w res c n :
  let run := Home srv body w in
  In (EvWriteResponse (HomeBody res) c) run.2 ->
  In (EvPrint (PLen n)) run.2 ->
  (In "Posts" (ParamsUsed res) <-> 0 < n) /\
  (2 < n -> ~ In "Experience" (ParamsUsed res) /\ ~ In "Education" (ParamsUsed res)) /\
  (forall label, In label (ParamsUsed res) ->
     In label ["Posts"; "Experience"; "Education"; "Location"; "Name"]).
Proof.
  intros run Hin Hlen. subst run.
  destruct (Home_success_anatomy _ _ _ _ _ Hin)
    as (_ & _ & _ & p & _ & _ & Hn & Hgate & w1 & w2 & Hparams).
  apply Hn in Hlen. subst n.
  pose proof (GetUsedParams_In _ _ _ _ Hparams) as Hlabels.
  split; [|split].
  - rewrite Hlabels. split.
    + intros [[_ Hne]|[[Heq _]|[[Heq _]|[[Heq _]|[Heq _]]]]]; try discriminate.
      destruct (Posts p); [congruence|simpl; lia].
    + intros Hpos. left. split; [reflexivity|]. intros Hnil. rewrite Hnil in Hpos.
      simpl in Hpos. lia.
  - intros Hgt. destruct (Hgate Hgt) as (Hexp & Hedu). rewrite !Hlabels. split.
    + intros [[Heq _]|[[_ Hne]|[[Heq _]|[[Heq _]|[Heq _]]]]]; try discriminate.
      congruence.
    + intros [[Heq _]|[[Heq _]|[[_ Hne]|[[Heq _]|[Heq _]]]]]; try discriminate.
      congruence.
  - intros label Hl. apply Hlabels in Hl.
    destruct Hl as [[-> _]|[[-> _]|[[-> _]|[[-> _]|[-> _]]]]]; simpl; tauto.
Qed.

(** X16: a failure to read the posts counts as no post.  When the
    handler logs the error of the Posts step, the count it prints is 0 and
    the experience and education steps run. *)
Theorem Home_failed_posts_step_counts_as_no_post srv body w e :
  let run := Home srv body w in
  In (EvLog ("error while getting posts: " +:+ "failed to extract posts: " +:+ e)) run.2 ->
  In (EvPrint (PLen 0)) run.2 /\
  stepsStarted run.2 =
    ["Getting name and location"; "Getting latest posts";
     "Getting experience"; "Getting education"].
Proof.
  intros run. subst run.
  destruct (Home_cases srv body w)
    as [(msg & c' & -> & _)|[(d & err & w0 & t0 & Hn & ->)|(d & s0 & w0 & t0 & Hd & Hv & Hn)]].
  - cbn. intuition discriminate.
  - destruct (NewScraper_scope _ _ _ _ _ _ _ Hn) as (_ & _ & _ & _ & Ho).
    destruct (NewScraper_error _ _ _ _ _ _ _ Hn) as (e' & [-> | ->]).
    all: cbn [snd]; rewrite in_app_iff; intros [Hx|Hx];
      [by destruct (observed_no_log _ _ Ho Hx)|].
    all: simpl in Hx; destruct Hx as [Hx|[Hx|[]]]; discriminate.
  - destruct (NewScraper_scope _ _ _ _ _ _ _ Hn) as (_ & _ & _ & _ & Ho).
    destruct (NewScraper_fresh _ _ _ _ _ _ _ Hn) as (Hempty & _).
    destruct (Home_anatomy srv body w d s0 w0 t0 Hd Hv Hn)
      as (mid & s3 & w3 & out & wf & t4 & -> & Hr & _ & _ & _ & _ & _ & Hlen & Hst &
          _ & Hposts & _).
    destruct (respond_run srv s3 w3) as (out' & wf' & t4' & rs & Hr' & Ho4 & Hrs).
    rewrite Hr in Hr'. inversion Hr'; subst out' wf' t4'. clear Hr'.
    destruct (respond_trace _ _ _ _ _ _ Hr) as (rest & Ht4 & _ & _ & Hlr & _).
    cbn [snd]. rewrite !in_app_iff. intros [Hx|[Hx|Hx]].
    + by destruct (observed_no_log _ _ Ho Hx).
    + assert (Hzero : List.length (Posts (Profile s3)) = 0).
      { rewrite (Hposts _ Hx), Hempty. reflexivity. }
      split.
      * right; left. apply Hlen. symmetry. assumption.
      * rewrite !stepsStarted_app, (stepsStarted_of_observed _ _ Ho), Hst,
          (stepsStarted_of_observed _ _ Ho4), Hzero.
        assert (Hnone : omap (fun o => match o with OStep name => Some name | _ => None end)
                          (OClose :: OProfile (Profile s3) :: rs) = []).
        { destruct Hrs as [[-> _]|(m & c & -> & _)]; reflexivity. }
        rewrite Hnone. reflexivity.
    + exfalso. rewrite Ht4 in Hx. apply in_app_or in Hx as [Hx|Hx].
      * simpl in Hx. intuition discriminate.
      * by destruct (Hlr _ Hx).
Qed.

(** X17: the handler panics in two places only: at the start of the
    identity step, after it logged the error of a failed login, with no
    session released and no response written; or on the answer of the
    language model, the request to which is then the last event. *)
Theorem Home_panics_at_two_places srv body w :
  let run := Home srv body w in
  run.1.1 = Panic ->
  (last run.2 = Some (EvPrint (PStr "Getting name and location")) /\
   stepsStarted run.2 = ["Getting name and location"] /\
   count isGo run.2 = 0 /\ responses run.2 = [] /\
   exists err, In (EvLog ("error while getting posts: " +:+ "failed to login" +:+ err)) run.2) \/
  (exists p, last run.2 = Some (EvChatCompletion p) /\ profilesSent run.2 = [p]).
Proof.
  intros run. subst run.
  destruct (Home_cases srv body w)
    as [(msg & c' & -> & _)|[(d & err & w0 & t0 & Hn & ->)|(d & s0 & w0 & t0 & Hd & Hv & Hn)]].
  - cbn. discriminate.
  - intros _. left.
    destruct (NewScraper_scope _ _ _ _ _ _ _ Hn) as (_ & Hg & _ & _ & Ho).
    cbn [snd]. split; [|split; [|split; [|split]]].
    + change (t0 ++ [EvLog ("error while getting posts: " +:+ err);
                     EvPrint (PStr "Getting name and location")])
        with (t0 ++ [EvLog ("error while getting posts: " +:+ err)] ++
                    [EvPrint (PStr "Getting name and location")]).
      rewrite app_assoc. apply last_app_singleton.
    + rewrite stepsStarted_app, (stepsStarted_of_observed _ _ Ho). reflexivity.
    + rewrite count_app, Hg. reflexivity.
    + rewrite responses_app, (responses_of_observed _ _ Ho). reflexivity.
    + destruct (NewScraper_error _ _ _ _ _ _ _ Hn) as (e' & [-> | ->]).
      * exists (": " +:+ e'). rewrite in_app_iff. right. left. reflexivity.
      * exists (" even with verification: " +:+ e'). rewrite in_app_iff. right. left.
        reflexivity.
  - destruct (NewScraper_scope _ _ _ _ _ _ _ Hn) as (_ & _ & Hs0 & _).
    destruct (Home_anatomy srv body w d s0 w0 t0 Hd Hv Hn)
      as (mid & s3 & w3 & out & wf & t4 & -> & Hr & Hq & _).
    destruct (respond_trace _ _ _ _ _ _ Hr) as (rest & -> & _ & _ & _ & _ & Hout).
    destruct (quiet_counts _ Hq) as (_ & _ & _ & _ & _ & Hm6 & _).
    cbn [fst snd]. intros ->. subst rest. right. exists (Profile s3). split.
    + rewrite app_nil_r.
      change [EvGo (cancel s3); EvCancel (cancel s3); EvPrint (PProfile (Profile s3));
              EvChatCompletion (Profile s3)]
        with ([EvGo (cancel s3); EvCancel (cancel s3); EvPrint (PProfile (Profile s3))] ++
              [EvChatCompletion (Profile s3)]).
      rewrite !app_assoc. apply last_app_singleton.
    + rewrite !profilesSent_app, Hs0, Hm6. reflexivity.
Qed.

End Responses.

(** ** The router and the CORS wrapper *)

Lemma matchOrigin_found origin allowed :
  matchOrigin origin allowed = (if decide (origin ∈ allowed) then origin else "").
Proof.
  induction allowed as [|a rest IH]; simpl.
  - destruct (decide (origin ∈ [])) as [Hin|]; [by apply elem_of_nil in Hin|reflexivity].
  - destruct (String.eqb_spec origin a) as [->|Hne].
    + destruct (decide (a ∈ a :: rest)) as [|Hn]; [reflexivity|].
      exfalso. apply Hn. apply elem_of_cons. tauto.
    + rewrite IH. destruct (decide (origin ∈ rest)) as [Hin|Hn];
        destruct (decide (origin ∈ a :: rest)) as [Hin'|Hn']; try reflexivity.
      * exfalso. apply Hn'. apply elem_of_cons. tauto.
      * exfalso. apply elem_of_cons in Hin' as [Heq|Hin']; [by apply Hne|by apply Hn].
Qed.



Lemma innerEvents_app a b : innerEvents (a ++ b) = innerEvents a ++ innerEvents b.
Proof. unfold innerEvents. apply omap_app. Qed.



(** X18: the CORS headers are set exactly for a listed origin.  With the
    origin of the request in the list (and not empty), what is served starts
    with the four headers, the origin itself as the allowed one; otherwise
    the wrapper adds no header.  With the list of [WithCORS], the only such
    origin is [http://localhost:8080]. *)
Theorem WithCORS_headers_for_listed_origins {W : Type} allowed (handler : Handler W) r w :
  let served := (WithCORSOver allowed handler r w).2 in
  let rest :=
    if String.eqb (Method r) "OPTIONS" then [WriteHeader 200] else (handler r w).2 in
  (Origin r ∈ allowed /\ Origin r <> "" -> served = corsHeaders (Origin r) ++ rest) /\
  (~ (Origin r ∈ allowed /\ Origin r <> "") -> served = rest) /\
  (WithCORS handler r w).2 =
    (if String.eqb (Origin r) "http://localhost:8080"
     then corsHeaders "http://localhost:8080" else []) ++ rest.
Proof.
  intros served rest. subst served rest.
  assert (Hgen : forall l,
    (WithCORSOver l handler r w).2 =
    (if decide (Origin r ∈ l /\ Origin r <> "") then corsHeaders (Origin r) else []) ++
    (if String.eqb (Method r) "OPTIONS" then [WriteHeader 200] else (handler r w).2)).
  { intros l. unfold WithCORSOver. rewrite matchOrigin_found.
    assert (Hh : (if negb (String.eqb (if decide (Origin r ∈ l) then Origin r else "") "")
                  then corsHeaders (if decide (Origin r ∈ l) then Origin r else "")
                  else []) =
                 (if decide (Origin r ∈ l /\ Origin r <> "")
                  then corsHeaders (Origin r) else [])).
    { destruct (decide (Origin r ∈ l)) as [Hin|Hn].
      - destruct (String.eqb_spec (Origin r) "") as [He|Hne]; simpl.
        + destruct (decide (Origin r ∈ l /\ Origin r <> "")) as [[_ Hne]|];
            [by destruct Hne|reflexivity].
        + destruct (decide (Origin r ∈ l /\ Origin r <> "")) as [|Hn]; [reflexivity|].
          exfalso. apply Hn. tauto.
      - simpl. destruct (decide (Origin r ∈ l /\ Origin r <> "")) as [[Hin _]|];
          [by destruct Hn|reflexivity]. }
    rewrite Hh. destruct (String.eqb (Method r) "OPTIONS"); [reflexivity|].
    destruct (handler r w) as [[out w1] tr]. reflexivity. }
  split; [|split].
  - intros Hin. rewrite Hgen.
    destruct (decide (Origin r ∈ allowed /\ Origin r <> "")) as [|Hn];
      [reflexivity|by destruct Hn].
  - intros Hn. rewrite Hgen.
    destruct (decide (Origin r ∈ allowed /\ Origin r <> "")) as [Hin|];
      [by destruct Hn|reflexivity].
  - unfold WithCORS. rewrite Hgen. unfold allowedOrigins.
    destruct (String.eqb_spec (Origin r) "http://localhost:8080") as [He|Hne].
    + rewrite He.
      destruct (decide ("http://localhost:8080" ∈ ["http://localhost:8080"] /\
                        "http://localhost:8080" <> "")) as [|Hn]; [reflexivity|].
      exfalso. apply Hn. split; [apply list_elem_of_singleton; reflexivity|discriminate].
    + destruct (decide (Origin r ∈ ["http://localhost:8080"] /\ Origin r <> ""))
        as [[Hin _]|]; [|reflexivity].
      apply list_elem_of_singleton in Hin. by destruct Hne.
Qed.

Section RouterProperties.
Context {W : Type} `{!Browser W} `{!GoLib}.

(** X19: a preflight request never reaches the handler.  An OPTIONS
    request is answered with status 200 whatever handler is wrapped; [Home]
    does not run and the world is untouched. *)
Theorem Routes_preflight_never_reaches_Home srv r w :
  Method r = "OPTIONS" ->
  exists served,
    Routes srv r w = (Ret tt, w, served) /\
    statusServed served = Some 200 /\ innerEvents served = [] /\
    forall handler : Handler W, WithCORS handler r w = (Ret tt, w, served).
Proof.
  intros Hm. unfold Routes, WithCORS, WithCORSOver. rewrite Hm. cbn [String.eqb Ascii.eqb Bool.eqb].
  eexists. split; [reflexivity|].
  destruct (negb _); repeat split.
Qed.


End RouterProperties.

(** ** The token middleware *)

Lemma stringsSplit_nonempty s : stringsSplit s <> [].
Proof.
  induction s as [|c s IH]; simpl; [discriminate|].
  destruct (Ascii.eqb c " "); [discriminate|].
  destruct (stringsSplit s); discriminate.
Qed.

Lemma stringsSplit_noSpace s : noSpace s -> stringsSplit s = [s].
Proof.
  unfold noSpace. induction s as [|c s IH]; simpl; [reflexivity|].
  intros Hn. destruct (Ascii.eqb_spec c " ") as [->|Hc]; [exfalso; apply Hn; tauto|].
  rewrite IH; [reflexivity|]. intros Hin. apply Hn. tauto.
Qed.

Lemma stringsSplit_at_space a s :
  noSpace a -> stringsSplit (a +:+ String " " s) = a :: stringsSplit s.
Proof.
  unfold noSpace. induction a as [|c a IH]; simpl; [reflexivity|].
  intros Hn. destruct (Ascii.eqb_spec c " ") as [->|Hc]; [exfalso; apply Hn; tauto|].
  rewrite IH; [reflexivity|]. intros Hin. apply Hn. tauto.
Qed.

Lemma stringsSplit_head s : exists a, noSpace a /\
  (stringsSplit s = [a] /\ s = a \/
   exists rest, s = a +:+ String " " rest /\ stringsSplit s = a :: stringsSplit rest).
Proof.
  induction s as [|c s (a & Ha & IH)].
  - exists "". split; [intros []|]. left. split; reflexivity.
  - destruct (Ascii.eqb_spec c " ") as [->|Hc].
    + exists "". split; [intros []|]. right. exists s. split; [reflexivity|]. reflexivity.
    + exists (String c a). split.
      { unfold noSpace in *. simpl. intros [Heq|Hin]; [by destruct Hc|by apply Ha]. }
      simpl. destruct (Ascii.eqb_spec c " ") as [|_]; [contradiction|].
      destruct IH as [[Hs ->]|(rest & -> & Hs)].
      * left. rewrite Hs. split; reflexivity.
      * right. exists rest. split; [reflexivity|]. rewrite Hs. reflexivity.
Qed.

Lemma stringsSplit_two s a b :
  stringsSplit s = [a; b] -> s = a +:+ String " " b /\ noSpace a /\ noSpace b.
Proof.
  intros Hs. destruct (stringsSplit_head s) as (a' & Ha' & [[Hs' _]|(rest & -> & Hs')]).
  - rewrite Hs in Hs'. discriminate.
  - rewrite Hs in Hs'. injection Hs' as <- Hrest.
    destruct (stringsSplit_head rest) as (b' & Hb' & [[Hr ->]|(rest' & -> & Hr)]).
    + rewrite Hr in Hrest. injection Hrest as ->. auto.
    + rewrite Hr in Hrest. injection Hrest as _ Hnil. symmetry in Hnil.
      by destruct (stringsSplit_nonempty rest').
Qed.

(** X21: the middleware forwards a request only with a valid bearer
    token.  Either the method is not OPTIONS, the Authorization header is
    [Bearer], one space and a token without space that the parser accepts as
    valid, and the request goes to the next handler with the user of the
    token; or the next handler is not called, whatever it is: the answer is
    200 for OPTIONS and 401 otherwise, and the world is untouched. *)
Theorem JWTMiddleware_forwards_only_valid_tokens {W : Type} parse (next : Z -> Handler W) r w :
  (exists tok uid,
     Method r <> "OPTIONS" /\ Authorization r = "Bearer " +:+ tok /\ noSpace tok /\
     parse tok = (None, true, uid) /\
     JWTMiddleware parse next r w = next uid r w) \/
  (exists refusal,
     (forall next' : Z -> Handler W, JWTMiddleware parse next' r w = (Ret tt, w, [refusal])) /\
     (refusal = WriteHeader 200 /\ Method r = "OPTIONS" \/
      exists msg, refusal = HttpError msg 401)).
Proof.
  unfold JWTMiddleware.
  destruct (String.eqb_spec (Method r) "OPTIONS") as [Hm|Hm].
  { right. eexists. split; [reflexivity|]. left. split; [reflexivity|assumption]. }
  destruct (String.eqb (Authorization r) "").
  { right. eexists. split; [reflexivity|]. right. eexists. reflexivity. }
  destruct (stringsSplit (Authorization r)) as [|p0 [|p1 [|p2 parts]]] eqn:Hs;
    cbn [List.length Nat.eqb negb orb nth].
  1,2,4: right; eexists; (split; [reflexivity|]); right; eexists; reflexivity.
  destruct (String.eqb_spec p0 "Bearer") as [->|Hp]; cbn [negb].
  2: { right. eexists. split; [reflexivity|]. right. eexists. reflexivity. }
  destruct (parse p1) as [[[e|] valid] uid] eqn:Hparse; cbn [orb].
  { right. eexists. split; [reflexivity|]. right. eexists. reflexivity. }
  destruct valid; cbn [negb].
  2: { right. eexists. split; [reflexivity|]. right. eexists. reflexivity. }
  left. exists p1, uid. apply stringsSplit_two in Hs as (Hs & _ & Hn).
  repeat split; assumption.
Qed.

(** ** [indexOf] *)

Lemma indexOfFrom_spec slice item i :
  (0 <= i)%Z ->
  (indexOfFrom i slice item = (-1)%Z /\ ~ In item slice) \/
  (exists k, indexOfFrom i slice item = (i + Z.of_nat k)%Z /\
             slice !! k = Some item /\ forall j, j < k -> slice !! j <> Some item).
Proof.
  revert i. induction slice as [|s rest IH]; intros i Hi; simpl.
  - left. split; [reflexivity|tauto].
  - destruct (String.eqb_spec s item) as [->|Hne].
    + right. exists 0. split; [lia|]. split; [reflexivity|]. intros j Hj. lia.
    + destruct (IH (i + 1)%Z ltac:(lia)) as [[Hr Hn]|(k & Hr & Hk & Hfirst)].
      * left. split; [assumption|]. intros [Heq|Hin]; [by destruct Hne|by apply Hn].
      * right. exists (S k). split; [lia|]. split; [assumption|].
        intros [|j] Hj; simpl; [congruence|]. apply Hfirst. lia.
Qed.

(** X22: [indexOf] returns -1 exactly when the item is not in the slice,
    and otherwise the index of its first occurrence; the result is always
    below the length of the slice. *)
Theorem indexOf_first_occurrence slice item :
  (indexOf slice item = (-1)%Z <-> ~ In item slice) /\
  (forall k, indexOf slice item = Z.of_nat k <->
             slice !! k = Some item /\ forall j, j < k -> slice !! j <> Some item) /\
  (-1 <= indexOf slice item < Z.of_nat (List.length slice))%Z.
Proof.
  unfold indexOf.
  destruct (indexOfFrom_spec slice item 0 ltac:(lia)) as [[Hr Hn]|(k & Hr & Hk & Hfirst)].
  - rewrite Hr. split; [tauto|]. split; [|lia].
    intros k. split; [lia|]. intros [Hk _]. exfalso. apply Hn.
    apply list_elem_of_In. by eapply list_elem_of_lookup_2.
  - rewrite Hr. split; [|split].
    + split; [lia|]. intros Hn. exfalso. apply Hn.
      apply list_elem_of_In. by eapply list_elem_of_lookup_2.
    + intros k'. split.
      * intros Heq. assert (k' = k) as -> by lia. split; assumption.
      * intros [Hk' Hfirst'].
        destruct (Nat.lt_trichotomy k k') as [Hlt|[->|Hgt]]; [|reflexivity|].
        -- by destruct (Hfirst' _ Hlt).
        -- by destruct (Hfirst _ Hgt).
    + apply lookup_lt_Some in Hk. lia.
Qed.

(** ** More runs on concrete requests *)

Ltac found := vm_compute; repeat (first [left; reflexivity | right]).

Lemma failed_step_changes_nothing_witness :
  exists e w' tr,
    GetRecentPosts (Some Fixture.sample) (Fixture.world [Fixture.Fails "net::ERR_ABORTED"]) =
      (Ret (Fixture.sample, Some e), w', tr).
Proof.
  eassert (Hrun :
    GetRecentPosts (Some Fixture.sample) (Fixture.world [Fixture.Fails "net::ERR_ABORTED"]) =
      (Ret (_, Some _), _, _)) by (vm_compute; reflexivity).
  pose proof (failed_step_changes_nothing _ _ _ _ _ _ (or_intror (or_introl Hrun))) as Hsame.
  eexists _, _, _. rewrite <- Hsame at 1. exact Hrun.
Defined.

Lemma login_reads_terminal_only_on_challenge_witness :
  exists e w' tr,
    login Fixture.sample false (Fixture.world Fixture.unresolvedChallenge) = (Ret e, w', tr) /\
    In EvReadLine tr.
Proof.
  eassert (Hrun :
    login Fixture.sample false (Fixture.world Fixture.unresolvedChallenge) = (Ret _, _, _))
    by (vm_compute; reflexivity).
  eexists _, _, _. split; [exact Hrun|].
  apply (proj2 (login_reads_terminal_only_on_challenge _ _ _ _ _ _ Hrun)).
  split; [reflexivity|].
  eexists _, _, _, _. split; [vm_compute; reflexivity|].
  split; vm_compute; reflexivity.
Defined.

Lemma NewScraper_session_accounting_witness :
  exists r w' tr,
    NewScraper "a@b.c" "secret" "https://www.linkedin.com/in/someone"
      Cases.verifiedAtSecondAttempt = (Ret r, w', tr) /\
    count isNewAllocator tr = count isLoginAttempt tr /\
    count isCancelAllocator tr = count isLoginAttempt tr - 1 /\
    count isNewContext tr = S (count isCancel tr).
Proof.
  eassert (Hrun :
    NewScraper "a@b.c" "secret" "https://www.linkedin.com/in/someone"
      Cases.verifiedAtSecondAttempt = (Ret (Some _, None), _, _)) by (vm_compute; reflexivity).
  pose proof (NewScraper_session_accounting _ _ _ _ _ _ _ Hrun) as Hacc.
  cbv zeta in Hacc. destruct Hacc as (_ & Halloc & Hrelease & Hlive).
  eexists _, _, _. split; [exact Hrun|].
  split; [exact Halloc|]. split; [exact Hrelease|exact Hlive].
Defined.

Lemma NewScraper_result_witness :
  exists err w' tr,
    NewScraper "a@b.c" "secret" "https://www.linkedin.com/in/someone" Cases.neverVerified =
      (Ret (None, Some ("failed to login even with verification: " +:+ err)), w', tr) /\
    count isLoginAttempt tr = 2.
Proof.
  eassert (Hrun :
    NewScraper "a@b.c" "secret" "https://www.linkedin.com/in/someone" Cases.neverVerified =
      (Ret (None, Some _), _, _)) by (vm_compute; reflexivity).
  destruct (NewScraper_result _ _ _ _ _ _ _ Hrun)
    as [(s & Hr & _)|[(err & Hr & _ & _)|(err & Hr & Hattempts)]].
  - discriminate Hr.
  - exfalso. vm_compute in Hr. discriminate Hr.
  - exists err. eexists _, _. split; [|exact Hattempts].
    rewrite Hrun, Hr. reflexivity.
Defined.

Lemma NewScraper_context_after_verification_witness :
  exists s w' tr alloc before after,
    NewScraper "a@b.c" "secret" "https://www.linkedin.com/in/someone"
      Cases.verifiedAtSecondAttempt = (Ret (Some s, None), w', tr) /\
    tr = before ++ EvNewContext alloc (ctx s) :: after /\
    count isLoginAttempt before = 2 /\ browserCommands after = [].
Proof.
  eassert (Hrun :
    NewScraper "a@b.c" "secret" "https://www.linkedin.com/in/someone"
      Cases.verifiedAtSecondAttempt = (Ret (Some _, None), _, _)) by (vm_compute; reflexivity).
  destruct (NewScraper_context_after_verification _ _ _ _ _ _ _ Hrun eq_refl)
    as (alloc & before & after & _ & Hsplit & Hattempts & _ & Hquiet).
  eexists _, _, _, alloc, before, after. split; [exact Hrun|].
  split; [exact Hsplit|]. split; [exact Hattempts|exact Hquiet].
Defined.

Lemma Home_answers_model_failure_with_success_witness :
  let run := Home Cases.key Cases.body Cases.modelDown in
  run.1.1 = Ret tt /\
  exists earlier final, responses run.2 = earlier ++ [final] /\ final.2 = 200.
Proof.
  assert (Hin : In (EvPrint (PStatus 503)) (Home Cases.key Cases.body Cases.modelDown).2)
    by found.
  destruct (Home_answers_model_failure_with_success _ _ _ _ Hin)
    as (_ & Hout & earlier & final & Hresp & Hfinal).
  split; [exact Hout|]. exists earlier, final. split; [exact Hresp|].
  destruct Hfinal as [(res & -> & _)|(-> & p & e & _ & Hfail)]; [reflexivity|].
  exfalso. vm_compute in Hfail. discriminate Hfail.
Defined.

Lemma Home_success_response_matches_profile_witness :
  exists res p,
    last (Home Cases.key Cases.body (Fixture.requestWorld Cases.threePosts [])).2 =
      Some (EvWriteResponse (HomeBody res) 200) /\
    profilesSent (Home Cases.key Cases.body (Fixture.requestWorld Cases.threePosts [])).2 = [p] /\
    jsonMarshalPosts (Posts p) = inr (RecentPosts res).
Proof.
  eassert (Hin : In (EvWriteResponse (HomeBody _) 200)
                   (Home Cases.key Cases.body (Fixture.requestWorld Cases.threePosts [])).2)
    by found.
  destruct (Home_success_response_matches_profile _ _ _ _ _ Hin)
    as (_ & _ & Hlast & p & Hsent & Hjson & _).
  eexists _, p. split; [exact Hlast|]. split; [exact Hsent|exact Hjson].
Defined.

Lemma Home_params_follow_gate_witness :
  exists res,
    In (EvWriteResponse (HomeBody res) 200)
      (Home Cases.key Cases.body (Fixture.requestWorld Cases.threePosts [])).2 /\
    In "Posts" (ParamsUsed res) /\ ~ In "Experience" (ParamsUsed res).
Proof.
  eassert (Hin : In (EvWriteResponse (HomeBody _) 200)
                   (Home Cases.key Cases.body (Fixture.requestWorld Cases.threePosts [])).2)
    by found.
  assert (Hlen : In (EvPrint (PLen 3))
                   (Home Cases.key Cases.body (Fixture.requestWorld Cases.threePosts [])).2)
    by found.
  destruct (Home_params_follow_gate _ _ _ _ _ _ Hin Hlen) as (Hposts & Hgate & _).
  eexists. split; [exact Hin|]. split.
  - apply Hposts. lia.
  - apply Hgate. lia.
Defined.

Lemma Home_failed_posts_step_counts_as_no_post_witness :
  In (EvPrint (PLen 0)) (Home Cases.key Cases.body Cases.feedUnavailable).2 /\
  stepsStarted (Home Cases.key Cases.body Cases.feedUnavailable).2 =
    ["Getting name and location"; "Getting latest posts";
     "Getting experience"; "Getting education"].
Proof.
  apply (Home_failed_posts_step_counts_as_no_post _ _ _ "net::ERR_ABORTED").
  found.
Defined.

Lemma Home_panics_at_two_places_witness :
  last (Home Cases.key Cases.body Cases.neverVerified).2 =
    Some (EvPrint (PStr "Getting name and location")) /\
  responses (Home Cases.key Cases.body Cases.neverVerified).2 = [].
Proof.
  assert (Hpanic : (Home Cases.key Cases.body Cases.neverVerified).1.1 = Panic)
    by (vm_compute; reflexivity).
  destruct (Home_panics_at_two_places _ _ _ Hpanic)
    as [(Hlast & _ & _ & Hnone & _)|(p & Hlast & _)].
  - split; assumption.
  - exfalso. vm_compute in Hlast. discriminate Hlast.
Defined.

Lemma Routes_preflight_never_reaches_Home_witness :
  exists served,
    Routes Cases.key Cases.preflight (Fixture.requestWorld Cases.threePosts []) =
      (Ret tt, Fixture.requestWorld Cases.threePosts [], served) /\
    statusServed served = Some 200 /\ innerEvents served = [].
Proof.
  destruct (Routes_preflight_never_reaches_Home Cases.key Cases.preflight
              (Fixture.requestWorld Cases.threePosts []) eq_refl)
    as (served & Hrun & Hstatus & Hinner & _).
  exists served. split; [exact Hrun|]. split; assumption.
Defined.

